(** * vsts-device-flow-auth: the device-flow authenticator, embedded in Rocq

    A shallow embedding of [DeviceFlowAuthenticator] (src/deviceflow.ts):
    the constructor, the header builders, tenant resolution, device-code
    issuance, the token poll and its classification, the wait loop with
    back-off and cancellation, and the exchange of the bearer token for a
    personal access token.

    JavaScript values are a small inductive type; a thrown value is a
    JavaScript value too.  An [async] method is a function of the receiver
    and of the settlements the outside world will deliver; it returns how
    it completed, the receiver afterwards, and the sleeps and requests it
    performed, in order. *)

From Stdlib Require Import List String Ascii ZArith Bool Lia DecimalString.
Import ListNotations.

Local Open Scope string_scope.
Local Open Scope Z_scope.

(* ================================================================== *)
(** ** JavaScript values *)

Set Warnings "-register-all".

Module JS.

(** The values this program handles: what [JSON.parse] builds, and
    [undefined]. *)
Inductive JSValue : Type :=
| JUndefined
| JNull
| JBool (b : bool)
| JNumber (n : Z)
| JString (s : string)
| JArray (elems : list JSValue)
| JObject (props : list (string * JSValue)).

(** A number held in a field: an integer, or [NaN] (what
    [Number.parseInt] gives on text that is no number).  The intervals
    of this program are whole milliseconds; doubling such a value is
    exact in a double for about a thousand doublings, which is the range
    this model covers. *)
Inductive Num : Type :=
| NaN
| Int (z : Z).

Definition Num_mul (a : Num) (k : Z) : Num :=
  match a with
  | NaN => NaN
  | Int z => Int (z * k)
  end.

(** How a statement, or an awaited promise, completes.  [Awaiting]: the
    promise has not settled (the outside world has delivered nothing
    more). *)
Inductive Completion (A : Type) : Type :=
| Return (a : A)
| Throw (e : JSValue)
| Awaiting.
Arguments Return {A} a.
Arguments Throw {A} e.
Arguments Awaiting {A}.

(** Own-property lookup in an object literal. *)
Fixpoint lookup (k : string) (props : list (string * JSValue)) : JSValue :=
  match props with
  | [] => JUndefined
  | (k', v) :: rest => if String.eqb k k' then v else lookup k rest
  end.

(** [new Error(message)] and the two errors the language itself raises
    here: [TypeError] (a property read on [undefined] or [null], a call
    of something that is no function) and [SyntaxError] ([JSON.parse]). *)
Definition Error (message : string) : JSValue :=
  JObject [("name", JString "Error"); ("message", JString message)].
Definition TypeError : JSValue := JObject [("name", JString "TypeError")].
Definition SyntaxError : JSValue := JObject [("name", JString "SyntaxError")].

(** ToBoolean. *)
Definition truthy (v : JSValue) : bool :=
  match v with
  | JUndefined | JNull => false
  | JBool b => b
  | JNumber n => negb (n =? 0)
  | JString s => negb (String.eqb s "")
  | JArray _ | JObject _ => true
  end.

(** [v === "literal"] and [v === 400]. *)
Definition strict_eq_string (v : JSValue) (s : string) : bool :=
  match v with
  | JString t => String.eqb t s
  | _ => false
  end.

Definition strict_eq_number (v : JSValue) (n : Z) : bool :=
  match v with
  | JNumber m => m =? n
  | _ => false
  end.

(** [v.k] for a key [k] that is data: none of the keys this program reads
    is a method of a built-in prototype, so on a primitive or an array
    the read gives [undefined]. *)
Definition get (v : JSValue) (k : string) : Completion JSValue :=
  match v with
  | JUndefined | JNull => Throw TypeError
  | JObject props => Return (lookup k props)
  | _ => Return JUndefined
  end.

(** [v.length]. *)
Definition get_length (v : JSValue) : Completion JSValue :=
  match v with
  | JUndefined | JNull => Throw TypeError
  | JObject props => Return (lookup "length" props)
  | JArray elems => Return (JNumber (Z.of_nat (List.length elems)))
  | JString s => Return (JNumber (Z.of_nat (String.length s)))
  | _ => Return JUndefined
  end.

(** [v[0]]. *)
Definition get_first (v : JSValue) : Completion JSValue :=
  match v with
  | JUndefined | JNull => Throw TypeError
  | JObject props => Return (lookup "0" props)
  | JArray elems => Return (hd JUndefined elems)
  | JString (String c _) => Return (JString (String c EmptyString))
  | _ => Return JUndefined
  end.

Definition string_of_Z (z : Z) : string :=
  NilZero.string_of_int (Z.to_int z).

(** ToString, as a template literal or [+] with a string applies it. *)
Fixpoint ToString (v : JSValue) : string :=
  match v with
  | JUndefined => "undefined"
  | JNull => "null"
  | JBool true => "true"
  | JBool false => "false"
  | JNumber n => string_of_Z n
  | JString s => s
  | JArray elems =>
      let piece (e : JSValue) : string :=
        match e with
        | JUndefined | JNull => ""
        | _ => ToString e
        end in
      String.concat "," (List.map piece elems)
  | JObject _ => "[object Object]"
  end.

(** ** Strings *)

(** [s.split(sep)] for a one-character separator. *)
Fixpoint split (sep : ascii) (s : string) : list string :=
  match s with
  | EmptyString => [EmptyString]
  | String c rest =>
      if Ascii.eqb c sep then EmptyString :: split sep rest
      else match split sep rest with
           | [] => [String c EmptyString]
           | piece :: pieces => String c piece :: pieces
           end
  end.

(** White space of [String.prototype.trim] among the code units below
    256 (a header value that Node hands over is Latin-1 text). *)
Definition is_white_space (c : ascii) : bool :=
  let n := nat_of_ascii c in
  (Nat.eqb n 9 || Nat.eqb n 10 || Nat.eqb n 11 || Nat.eqb n 12
   || Nat.eqb n 13 || Nat.eqb n 32 || Nat.eqb n 160)%bool.

Fixpoint trimStart (s : string) : string :=
  match s with
  | EmptyString => EmptyString
  | String c rest => if is_white_space c then trimStart rest else s
  end.

Fixpoint trimEnd (s : string) : string :=
  match s with
  | EmptyString => EmptyString
  | String c rest =>
      match trimEnd rest with
      | EmptyString => if is_white_space c then EmptyString else String c EmptyString
      | kept => String c kept
      end
  end.

Definition trim (s : string) : string := trimEnd (trimStart s).

(** The double-quote character (code 34), as a string. *)
Definition double_quote : string := String "034"%char EmptyString.

(** [s[s.length - 1]]: the last character, [None] for [undefined]. *)
Fixpoint last_char (s : string) : option ascii :=
  match s with
  | EmptyString => None
  | String c EmptyString => Some c
  | String _ rest => last_char rest
  end.

(** ** A reader for a fragment of JSON

    [JSON.parse] itself is a built-in and stays a parameter of the
    development.  This reader covers the fragment the bodies of the
    examples are written in: objects, arrays, strings without escapes,
    integers, [true], [false] and [null], with JSON white space.  It is
    used to run the methods on concrete bodies only; on a text outside the
    fragment it gives [None]. *)

Definition is_json_space (c : ascii) : bool :=
  let n := nat_of_ascii c in
  (Nat.eqb n 32 || Nat.eqb n 9 || Nat.eqb n 10 || Nat.eqb n 13)%bool.

Fixpoint skip_space (s : string) : string :=
  match s with
  | String c rest => if is_json_space c then skip_space rest else s
  | EmptyString => s
  end.

Definition is_digit (c : ascii) : bool :=
  let n := nat_of_ascii c in (Nat.leb 48 n && Nat.leb n 57)%bool.

Definition digit_value (c : ascii) : Z := Z.of_nat (nat_of_ascii c - 48).

(** The characters up to the closing quote (34); a backslash (92) or a
    control character is outside the fragment. *)
Fixpoint read_string (s : string) : option (string * string) :=
  match s with
  | EmptyString => None
  | String c rest =>
      let n := nat_of_ascii c in
      if Nat.eqb n 34 then Some (EmptyString, rest)
      else if (Nat.eqb n 92 || Nat.ltb n 32)%bool then None
      else match read_string rest with
           | Some (t, rest') => Some (String c t, rest')
           | None => None
           end
  end.

Fixpoint read_digits (acc : Z) (s : string) : Z * string :=
  match s with
  | String c rest =>
      if is_digit c then read_digits (10 * acc + digit_value c) rest else (acc, s)
  | EmptyString => (acc, s)
  end.

(** An integer without a sign: one digit, or digits that do not start with
    a zero, not followed by a fraction or an exponent. *)
Definition read_natural (s : string) : option (Z * string) :=
  match s with
  | String c rest =>
      if is_digit c then
        let (n, rest') := read_digits 0 s in
        let leading_zero :=
          match rest with
          | String d _ => (Nat.eqb (nat_of_ascii c) 48 && is_digit d)%bool
          | EmptyString => false
          end in
        let goes_on :=
          match rest' with
          | String d _ =>
              let k := nat_of_ascii d in
              (Nat.eqb k 46 || Nat.eqb k 101 || Nat.eqb k 69)%bool
          | EmptyString => false
          end in
        if (leading_zero || goes_on)%bool then None else Some (n, rest')
      else None
  | EmptyString => None
  end.

(** Defining a property: a later member with the same name replaces the
    value of the earlier one. *)
Fixpoint set_prop (k : string) (v : JSValue) (props : list (string * JSValue))
  : list (string * JSValue) :=
  match props with
  | [] => [(k, v)]
  | (k', v') :: rest =>
      if String.eqb k k' then (k, v) :: rest else (k', v') :: set_prop k v rest
  end.

Definition strip_prefix (p s : string) : option string :=
  if String.prefix p s
  then Some (String.substring (String.length p) (String.length s - String.length p) s)
  else None.

Fixpoint read_value (fuel : nat) (s : string) {struct fuel} : option (JSValue * string) :=
  match fuel with
  | O => None
  | S fuel' =>
      match skip_space s with
      | EmptyString => None
      | String c rest as s' =>
          let n := nat_of_ascii c in
          if Nat.eqb n 34 then
            match read_string rest with
            | Some (t, rest') => Some (JString t, rest')
            | None => None
            end
          else if Nat.eqb n 91 then
            match skip_space rest with
            | String d rest' =>
                if Nat.eqb (nat_of_ascii d) 93 then Some (JArray [], rest')
                else match read_elements fuel' rest with
                     | Some (elems, rest'') => Some (JArray elems, rest'')
                     | None => None
                     end
            | EmptyString => None
            end
          else if Nat.eqb n 123 then
            match skip_space rest with
            | String d rest' =>
                if Nat.eqb (nat_of_ascii d) 125 then Some (JObject [], rest')
                else match read_members fuel' [] rest with
                     | Some (props, rest'') => Some (JObject props, rest'')
                     | None => None
                     end
            | EmptyString => None
            end
          else if Nat.eqb n 45 then
            match read_natural rest with
            | Some (z, rest') => Some (JNumber (- z), rest')
            | None => None
            end
          else if is_digit c then
            match read_natural s' with
            | Some (z, rest') => Some (JNumber z, rest')
            | None => None
            end
          else
            match strip_prefix "null" s', strip_prefix "true" s', strip_prefix "false" s' with
            | Some rest', _, _ => Some (JNull, rest')
            | _, Some rest', _ => Some (JBool true, rest')
            | _, _, Some rest' => Some (JBool false, rest')
            | _, _, _ => None
            end
      end
  end
with read_elements (fuel : nat) (s : string) {struct fuel} : option (list JSValue * string) :=
  match fuel with
  | O => None
  | S fuel' =>
      match read_value fuel' s with
      | Some (v, rest) =>
          match skip_space rest with
          | String d rest' =>
              if Nat.eqb (nat_of_ascii d) 93 then Some ([v], rest')
              else if Nat.eqb (nat_of_ascii d) 44 then
                match read_elements fuel' rest' with
                | Some (vs, rest'') => Some (v :: vs, rest'')
                | None => None
                end
              else None
          | EmptyString => None
          end
      | None => None
      end
  end
with read_members (fuel : nat) (acc : list (string * JSValue)) (s : string) {struct fuel}
  : option (list (string * JSValue) * string) :=
  match fuel with
  | O => None
  | S fuel' =>
      match skip_space s with
      | String q rest =>
          if Nat.eqb (nat_of_ascii q) 34 then
            match read_string rest with
            | Some (k, rest1) =>
                match skip_space rest1 with
                | String colon rest2 =>
                    if Nat.eqb (nat_of_ascii colon) 58 then
                      match read_value fuel' rest2 with
                      | Some (v, rest3) =>
                          match skip_space rest3 with
                          | String d rest4 =>
                              if Nat.eqb (nat_of_ascii d) 125
                              then Some (set_prop k v acc, rest4)
                              else if Nat.eqb (nat_of_ascii d) 44
                              then read_members fuel' (set_prop k v acc) rest4
                              else None
                          | EmptyString => None
                          end
                      | None => None
                      end
                    else None
                | EmptyString => None
                end
            | None => None
            end
          else None
      | EmptyString => None
      end
  end.

Definition read_text (s : string) : option JSValue :=
  match read_value (2 * String.length s + 2) s with
  | Some (v, rest) =>
      match skip_space rest with
      | EmptyString => Some v
      | String _ _ => None
      end
  | None => None
  end.

(** [JSON.parse(v)] on the fragment: the argument is turned into text
    first. *)
Definition JSON_parse_fragment (v : JSValue) : option JSValue :=
  read_text (ToString v).

(** ** Built-ins on the texts of the examples

    [Number.parseInt], the conversion of a string to a number and the
    base64 encoding of a buffer are built-ins as well and stay parameters
    of the development.  These are their values on decimal texts and on
    ASCII text, to run the methods on concrete inputs; a text with a
    hexadecimal prefix, a fraction or an exponent is outside and reads as
    [NaN]. *)

Definition signed_digits (s : string) : Num :=
  let unsigned (u : string) (sign : Z) : Num :=
    match u with
    | String c rest =>
        if is_digit c then
          match rest with
          | String x _ =>
              if (Nat.eqb (nat_of_ascii c) 48
                  && (Nat.eqb (nat_of_ascii x) 120 || Nat.eqb (nat_of_ascii x) 88))%bool
              then NaN
              else Int (sign * fst (read_digits 0 u))
          | EmptyString => Int (sign * fst (read_digits 0 u))
          end
        else NaN
    | EmptyString => NaN
    end in
  match s with
  | String c rest =>
      if Nat.eqb (nat_of_ascii c) 45 then unsigned rest (-1)
      else if Nat.eqb (nat_of_ascii c) 43 then unsigned rest 1
      else unsigned s 1
  | EmptyString => NaN
  end.

(** [Number.parseInt(v)] on decimal text: leading white space, a sign,
    and the digits that follow. *)
Definition parseInt_decimal (v : JSValue) : Num :=
  signed_digits (trimStart (ToString v)).

(** ToNumber of a string that is empty or a decimal integer. *)
Definition StringToNumber_decimal (s : string) : Num :=
  let t := trim s in
  if String.eqb t "" then Int 0
  else match read_text t with
       | Some (JNumber n) => Int n
       | _ => NaN
       end.

Definition base64_alphabet : string :=
  "ABCDEFGHIJKLMNOPQRSTUVWXYZabcdefghijklmnopqrstuvwxyz0123456789+/".

Definition sextet (n : nat) : string :=
  match String.get n base64_alphabet with
  | Some c => String c EmptyString
  | None => EmptyString
  end.

Fixpoint base64_bytes (bytes : list nat) : string :=
  match bytes with
  | [] => EmptyString
  | [a] =>
      sextet (a / 4) ++ sextet ((a mod 4) * 16) ++ "=="
  | [a; b] =>
      sextet (a / 4) ++ sextet ((a mod 4) * 16 + b / 16)
      ++ sextet ((b mod 16) * 4) ++ "="
  | a :: b :: c :: rest =>
      sextet (a / 4) ++ sextet ((a mod 4) * 16 + b / 16)
      ++ sextet ((b mod 16) * 4 + c / 64) ++ sextet (c mod 64)
      ++ base64_bytes rest
  end%nat.

(** [new Buffer(s).toString("base64")] for ASCII text. *)
Definition base64_ascii (s : string) : string :=
  base64_bytes (List.map nat_of_ascii (list_ascii_of_string s)).

End JS.
Export JS.

(* ================================================================== *)
(** ** Options, fields and requests *)

(** [IDeviceFlowAuthenticationOptions]: [None] is an optional field left
    out. *)
Module IDeviceFlowAuthenticationOptions.
Record t : Type := {
  authorityHost : option string;
  clientId : string;
  redirectUri : string;
  userAgent : option string
}.
End IDeviceFlowAuthenticationOptions.

(** [IDeviceFlowTokenOptions]. *)
Module IDeviceFlowTokenOptions.
Record t : Type := {
  grantType : option string;
  tokenScope : option string;
  tokenDescription : option string
}.
End IDeviceFlowTokenOptions.

(** [class DeviceFlowDetails]. *)
Record DeviceFlowDetails : Type := {
  Message : JSValue;
  UserCode : JSValue;
  VerificationUrl : JSValue
}.

(** The fields of [class DeviceFlowAuthenticator].  [tenantId] is
    [undefined] until [GetDeviceFlowDetails] assigns it; [deviceCode] holds
    whatever [json.device_code] was. *)
Record DeviceFlowAuthenticator : Type := {
  authorityHost : string;
  clientId : string;
  redirectUri : string;
  userAgent : string;
  grantType : string;
  tokenScope : string;
  tokenDescription : string;
  tenantId : option string;
  resourceUri : string;
  deviceCode : JSValue;
  interval : Num;
  expiresIn : Num;
  cancelFlag : bool;
  throwExceptionOnCancel : option bool
}.

Definition with_tenantId (v : option string) (o : DeviceFlowAuthenticator) :=
  {| authorityHost := authorityHost o; clientId := clientId o;
     redirectUri := redirectUri o; userAgent := userAgent o;
     grantType := grantType o; tokenScope := tokenScope o;
     tokenDescription := tokenDescription o; tenantId := v;
     resourceUri := resourceUri o; deviceCode := deviceCode o;
     interval := interval o; expiresIn := expiresIn o;
     cancelFlag := cancelFlag o;
     throwExceptionOnCancel := throwExceptionOnCancel o |}.

Definition with_deviceCode (v : JSValue) (o : DeviceFlowAuthenticator) :=
  {| authorityHost := authorityHost o; clientId := clientId o;
     redirectUri := redirectUri o; userAgent := userAgent o;
     grantType := grantType o; tokenScope := tokenScope o;
     tokenDescription := tokenDescription o; tenantId := tenantId o;
     resourceUri := resourceUri o; deviceCode := v;
     interval := interval o; expiresIn := expiresIn o;
     cancelFlag := cancelFlag o;
     throwExceptionOnCancel := throwExceptionOnCancel o |}.

Definition with_interval (v : Num) (o : DeviceFlowAuthenticator) :=
  {| authorityHost := authorityHost o; clientId := clientId o;
     redirectUri := redirectUri o; userAgent := userAgent o;
     grantType := grantType o; tokenScope := tokenScope o;
     tokenDescription := tokenDescription o; tenantId := tenantId o;
     resourceUri := resourceUri o; deviceCode := deviceCode o;
     interval := v; expiresIn := expiresIn o;
     cancelFlag := cancelFlag o;
     throwExceptionOnCancel := throwExceptionOnCancel o |}.

Definition with_expiresIn (v : Num) (o : DeviceFlowAuthenticator) :=
  {| authorityHost := authorityHost o; clientId := clientId o;
     redirectUri := redirectUri o; userAgent := userAgent o;
     grantType := grantType o; tokenScope := tokenScope o;
     tokenDescription := tokenDescription o; tenantId := tenantId o;
     resourceUri := resourceUri o; deviceCode := deviceCode o;
     interval := interval o; expiresIn := v;
     cancelFlag := cancelFlag o;
     throwExceptionOnCancel := throwExceptionOnCancel o |}.

(** [Cancel(throwExceptionOnCancel?)]: the argument is [None] when the
    caller leaves it out. *)
Definition Cancel (arg : option bool) (o : DeviceFlowAuthenticator) :=
  {| authorityHost := authorityHost o; clientId := clientId o;
     redirectUri := redirectUri o; userAgent := userAgent o;
     grantType := grantType o; tokenScope := tokenScope o;
     tokenDescription := tokenDescription o; tenantId := tenantId o;
     resourceUri := resourceUri o; deviceCode := deviceCode o;
     interval := interval o; expiresIn := expiresIn o;
     cancelFlag := true;
     throwExceptionOnCancel := arg |}.

(** What a request is given as its [headers] option: an object literal,
    or a method of the class itself, not called (a function value, which
    has no header among its properties). *)
Inductive HeadersOption : Type :=
| HeadersObject (fields : list (string * string))
| MethodValue (name : string).

Inductive Method : Type := GET | POST | HEAD.

Inductive Payload : Type :=
| NoPayload
| Form (fields : list (string * string))
| JsonBody (fields : list (string * JSValue)).

Record RequestOptions : Type := {
  method : Method;
  url : string;
  headers : HeadersOption;
  payload : Payload
}.

(** [headers[name]], as the request library reads a header to send. *)
Fixpoint header_field (name : string) (fields : list (string * string)) : option string :=
  match fields with
  | [] => None
  | (k, v) :: rest => if String.eqb name k then Some v else header_field name rest
  end.

Definition header (name : string) (h : HeadersOption) : option string :=
  match h with
  | HeadersObject fields => header_field name fields
  | MethodValue _ => None
  end.

Definition carries (name : string) (r : RequestOptions) : bool :=
  match header name (headers r) with
  | Some _ => true
  | None => false
  end.

(** What the program does to the outside, in order. *)
Inductive Effect : Type :=
| Requested (options : RequestOptions)
| Slept (ms : Num).

(** How a request promise settles. *)
Inductive Settlement : Type :=
| Resolved (value : JSValue)
| Rejected (reason : JSValue).

(** The rejection reasons of the request library: a response with a
    status outside 2xx ([response] is the response object, [error] its
    body), and a request that got no response at all. *)
Definition StatusCodeError (statusCode : Z) (body response : JSValue) : JSValue :=
  JObject [ ("name", JString "StatusCodeError");
            ("statusCode", JNumber statusCode);
            ("error", body);
            ("response", response) ].

Definition RequestError (cause : string) : JSValue :=
  JObject [ ("name", JString "RequestError");
            ("message", JString cause);
            ("error", JString cause) ].

(** One request as the outside world answers it: the [Cancel] calls another
    task made before the request was sent (since the previous settlement
    was handed over, that is, during the sleep if there was one), those it
    made while the request was in flight, and the settlement. *)
Record Exchange : Type := {
  before : list (option bool);
  in_flight : list (option bool);
  settlement : Settlement
}.

Definition deliver (calls : list (option bool)) (o : DeviceFlowAuthenticator) :=
  fold_left (fun o' arg => Cancel arg o') calls o.

(* ================================================================== *)
(** ** Asynchronous methods *)

(** The result of running a method against an inbox of exchanges. *)
Record Run (A : Type) : Type := {
  completion : Completion A;
  self : DeviceFlowAuthenticator;
  trace : list Effect;
  unread : list Exchange
}.
Arguments completion {A} r.
Arguments self {A} r.
Arguments trace {A} r.
Arguments unread {A} r.

Definition Async (A : Type) : Type :=
  DeviceFlowAuthenticator -> list Exchange -> Run A.

Definition lift {A} (c : Completion A) : Async A :=
  fun this inbox =>
    {| completion := c; self := this; trace := []; unread := inbox |}.

Definition ret {A} (a : A) : Async A := lift (Return a).
Definition throw {A} (e : JSValue) : Async A := lift (Throw e).

Definition bind {A B} (m : Async A) (k : A -> Async B) : Async B :=
  fun this inbox =>
    let r := m this inbox in
    match completion r with
    | Return a =>
        let r' := k a (self r) (unread r) in
        {| completion := completion r'; self := self r';
           trace := trace r ++ trace r'; unread := unread r' |}
    | Throw e =>
        {| completion := Throw e; self := self r;
           trace := trace r; unread := unread r |}
    | Awaiting =>
        {| completion := Awaiting; self := self r;
           trace := trace r; unread := unread r |}
    end.

(** [try { m } catch (e) { handler e }], and [promise.catch(handler)]. *)
Definition catch {A} (m : Async A) (handler : JSValue -> Async A) : Async A :=
  fun this inbox =>
    let r := m this inbox in
    match completion r with
    | Throw e =>
        let r' := handler e (self r) (unread r) in
        {| completion := completion r'; self := self r';
           trace := trace r ++ trace r'; unread := unread r' |}
    | _ => r
    end.

Definition read_this : Async DeviceFlowAuthenticator :=
  fun this inbox =>
    {| completion := Return this; self := this; trace := []; unread := inbox |}.

Definition assign (f : DeviceFlowAuthenticator -> DeviceFlowAuthenticator) : Async unit :=
  fun this inbox =>
    {| completion := Return tt; self := f this; trace := []; unread := inbox |}.

(** [await request(options)]: the request goes out; the task is suspended
    until the settlement arrives, and [Cancel] calls run meanwhile. *)
Definition request (options : RequestOptions) : Async JSValue :=
  fun this inbox =>
    match inbox with
    | [] =>
        {| completion := Awaiting; self := this;
           trace := [Requested options]; unread := [] |}
    | x :: rest =>
        {| completion := match settlement x with
                         | Resolved v => Return v
                         | Rejected e => Throw e
                         end;
           self := deliver (in_flight x) (deliver (before x) this);
           trace := [Requested options]; unread := rest |}
    end.

(** [await this.sleep(ms)]: [setTimeout] always fires. *)
Definition sleep (ms : Num) : Async unit :=
  fun this inbox =>
    {| completion := Return tt; self := this; trace := [Slept ms]; unread := inbox |}.

Declare Scope async_scope.
Delimit Scope async_scope with async.
Notation "x <- m ;; k" := (bind m (fun x => k))
  (at level 61, m at next level, right associativity) : async_scope.
Notation "m ;;; k" := (bind m (fun _ => k))
  (at level 61, right associativity) : async_scope.

(** The same sequencing for code that does not await. *)
Definition andThen {A B} (c : Completion A) (k : A -> Completion B) : Completion B :=
  match c with
  | Return a => k a
  | Throw e => Throw e
  | Awaiting => Awaiting
  end.
Notation "'let?' x := c 'in' k" := (andThen c (fun x => k))
  (at level 61, x name, c at next level, right associativity).

(* ================================================================== *)
(** ** The methods of [DeviceFlowAuthenticator] *)

(** [class DeviceCodeStatus]. *)
Module DeviceCodeStatus.
Definition PENDING : string := "PENDING".
Definition BACKOFF : string := "BACKOFF".
Definition BADCODE : string := "BADCODE".
Definition EXPIRED : string := "EXPIRED".
End DeviceCodeStatus.

(** ** Sample data

    An authenticator as the constructor builds it for
    [https://acct.example.com], the same once [GetDeviceFlowDetails] has
    stored a device code, and the answers of the provider and of the
    service, as texts. *)
Module Sample.

Definition fresh : DeviceFlowAuthenticator :=
  {| authorityHost := "https://management.core.windows.net/";
     clientId := "00000000-0000-0000-0000-000000000000";
     redirectUri := "https://some-url.com";
     userAgent := "vsts-device-flow-auth (Linux 6.1; Node 8.9.4)";
     grantType := "device_code";
     tokenScope := "";
     tokenDescription := "vsts-device-flow-auth Personal Access Token";
     tenantId := None;
     resourceUri := "https://acct.example.com/";
     deviceCode := JUndefined;
     interval := Int 5000;
     expiresIn := Int 900000;
     cancelFlag := false;
     throwExceptionOnCancel := Some false |}.

Definition tenant : string := "11111111-1111-1111-1111-111111111111".

Definition ready : DeviceFlowAuthenticator :=
  with_deviceCode (JString "BAQABAAEAAABnfiG") (with_tenantId (Some tenant) fresh).

(** The text of a member with a string value, and of an object. *)
Definition member (k v : string) : string :=
  double_quote ++ k ++ double_quote ++ ":" ++ double_quote ++ v ++ double_quote.

Definition object (members : list string) : string :=
  "{" ++ String.concat "," members ++ "}".

Definition quiet (s : Settlement) : Exchange :=
  {| before := []; in_flight := []; settlement := s |}.

(** A 400 from the token endpoint with [body] as its text. *)
Definition bad_request (body : string) : Settlement :=
  Rejected (StatusCodeError 400 (JString body) (JObject [])).

Definition error_body (code : string) : string := object [member "error" code].

Definition pending : Exchange := quiet (bad_request (error_body "authorization_pending")).
Definition slow_down : Exchange := quiet (bad_request (error_body "slow_down")).
Definition bad_code : Exchange := quiet (bad_request (error_body "bad_verification_code")).
Definition expired : Exchange := quiet (bad_request (error_body "code_expired")).

Definition token_body : string :=
  object [member "token_type" "Bearer"; member "access_token" "eyJ0eXAi"].

Definition granted : Exchange := quiet (Resolved (JString token_body)).

(** The connection data, the location mapping, and the session token (the
    last one arrives parsed: the request asked for JSON). *)
Definition connectionData : Exchange :=
  quiet (Resolved (JString
    (object [double_quote ++ "authenticatedUser" ++ double_quote ++ ":"
             ++ object [member "id" "826a066b-dce1"]]))).

Definition location : Exchange :=
  quiet (Resolved (JString
    (object [double_quote ++ "locationMappings" ++ double_quote ++ ":["
             ++ object [member "location" "https://sps.example.com/A0efb/"] ++ "]"]))).

Definition sessionToken : Exchange :=
  quiet (Resolved (JObject [("token", JString "pat-52chars")])).

(** The tenant probe answered 401 with the tenant header on the response
    object, and the device-code answer. *)
Definition probed (value : string) : Exchange :=
  quiet (Rejected (StatusCodeError 401 (JString "")
                     (JObject [("x-vss-resourcetenant", JString value)]))).

Definition deviceCodeIssued : Exchange :=
  quiet (Resolved (JString
    (object [ member "user_code" "BWYPRWXU8";
              member "device_code" "BAQABAAEAAABnfiG";
              member "verification_url" "https://aka.ms/devicelogin";
              member "expires_in" "900";
              member "interval" "5";
              member "message" "To sign in, open https://aka.ms/devicelogin" ]))).

End Sample.

Section DeviceFlow.

(** Built-ins of the platform, taken as they are.  [JSON_parse v] is
    [None] when [JSON.parse(v)] throws its [SyntaxError]. *)
Variable JSON_parse : JSValue -> option JSValue.
Variable Number_parseInt : JSValue -> Num.
Variable StringToNumber : string -> Num.
Variable base64 : string -> string.
Variables os_type os_release node_version : string.

Local Open Scope async_scope.

Definition parse (v : JSValue) : Completion JSValue :=
  match JSON_parse v with
  | Some j => Return j
  | None => Throw SyntaxError
  end.

(** [v >= 0]: ToNumber, then the comparison ([NaN] compares false). *)
Definition ToNumber (v : JSValue) : Num :=
  match v with
  | JUndefined => NaN
  | JNull => Int 0
  | JBool b => Int (if b then 1 else 0)
  | JNumber n => Int n
  | JString s => StringToNumber s
  | JArray _ | JObject _ => StringToNumber (ToString v)
  end.

Definition ge_zero (v : JSValue) : bool :=
  match ToNumber v with
  | NaN => false
  | Int z => 0 <=? z
  end.

(** [a || b] on an optional string. *)
Definition or_else (a : option string) (b : string) : string :=
  match a with
  | Some s => if String.eqb s "" then b else s
  | None => b
  end.

Definition DefaultAuthorityHost : string := "https://management.core.windows.net/".
Definition DefaultGrantType : string := "device_code".

Definition getDefaultUserAgent : string :=
  "vsts-device-flow-auth (" ++ os_type ++ " " ++ os_release
  ++ "; Node " ++ node_version ++ ")".

Definition addTrailingSeparator (path : string) (separator : ascii) : string :=
  match last_char path with
  | Some c => if Ascii.eqb c separator then path
              else path ++ String separator EmptyString
  | None => path ++ String separator EmptyString
  end.

(** [constructor(resourceUri, authOptions, tokenOptions?)]: [tokenOptions]
    is [None] when the caller leaves the argument out; the body reads
    [tokenOptions.grantType] all the same. *)
Definition constructor (resourceUri : string)
    (authOptions : IDeviceFlowAuthenticationOptions.t)
    (tokenOptions : option IDeviceFlowTokenOptions.t)
  : Completion DeviceFlowAuthenticator :=
  if String.eqb resourceUri "" then
    Throw (Error "resourceUri must have a value")
  else if String.eqb (IDeviceFlowAuthenticationOptions.clientId authOptions) "" then
    Throw (Error "authOptions.clientId must have a value")
  else if String.eqb (IDeviceFlowAuthenticationOptions.redirectUri authOptions) "" then
    Throw (Error "authOptions.redirectUri must have a value")
  else
    match tokenOptions with
    | None => Throw TypeError
    | Some tokenOptions =>
        Return
          {| authorityHost :=
               or_else (IDeviceFlowAuthenticationOptions.authorityHost authOptions)
                       DefaultAuthorityHost;
             clientId := IDeviceFlowAuthenticationOptions.clientId authOptions;
             redirectUri := IDeviceFlowAuthenticationOptions.redirectUri authOptions;
             userAgent :=
               or_else (IDeviceFlowAuthenticationOptions.userAgent authOptions)
                       getDefaultUserAgent;
             grantType :=
               or_else (IDeviceFlowTokenOptions.grantType tokenOptions) DefaultGrantType;
             tokenScope := or_else (IDeviceFlowTokenOptions.tokenScope tokenOptions) "";
             tokenDescription :=
               or_else (IDeviceFlowTokenOptions.tokenDescription tokenOptions)
                       "vsts-device-flow-auth Personal Access Token";
             tenantId := None;
             resourceUri := addTrailingSeparator resourceUri "/";
             deviceCode := JUndefined;
             interval := Int (5 * 1000);
             expiresIn := Int (900 * 1000);
             cancelFlag := false;
             throwExceptionOnCancel := Some false |}
    end.

Definition getAuthorizationHeaders (this : DeviceFlowAuthenticator)
    (accessToken : JSValue) : list (string * string) :=
  [ ("Authorization", "Basic " ++ base64 ("PAT:" ++ ToString accessToken));
    ("X-TFS-FedAuthRedirect", "Suppress");
    ("User-Agent", userAgent this) ].

Definition getUserAgentHeaders (this : DeviceFlowAuthenticator)
  : list (string * string) :=
  [ ("User-Agent", userAgent this) ].

(** The [.then] callback of [getAuthenticatedUserId]. *)
Definition userId_of_body (getUrl : string) (body : JSValue) : Completion JSValue :=
  let missing : Completion JSValue :=
    Throw (Error ("Did not receive an authenticatedUser or authenticatedUser.id for "
                  ++ getUrl ++ ". Body: " ++ ToString body)) in
  let? json := parse body in
  let? user := get json "authenticatedUser" in
  if truthy user then
    let? id := get user "id" in
    if truthy id then Return id else missing
  else missing.

Definition connectionDataOptions (this : DeviceFlowAuthenticator)
    (accessToken : JSValue) : RequestOptions :=
  {| method := GET; url := resourceUri this ++ "_apis/connectionData";
     headers := HeadersObject (getAuthorizationHeaders this accessToken);
     payload := NoPayload |}.

(** [getAuthenticatedUserId(accessToken)]. *)
Definition getAuthenticatedUserId (accessToken : JSValue) : Async JSValue :=
  this <- read_this ;;
  let getOptions := connectionDataOptions this accessToken in
  body <- request getOptions ;;
  lift (userId_of_body (url getOptions) body).

(** The [.then] callback of [getIdentityServiceUrl]. *)
Definition location_of_body (getUrl : string) (body : JSValue) : Completion JSValue :=
  let missing : Completion JSValue :=
    Throw (Error ("Did not receive locationMappings or location from "
                  ++ getUrl ++ ". Body: " ++ ToString body)) in
  let? json := parse body in
  let? mappings := get json "locationMappings" in
  if truthy mappings then
    let? len := get_length mappings in
    if ge_zero len then
      let? first := get_first mappings in
      let? location := get first "location" in
      if truthy location then Return location else missing
    else missing
  else missing.

Definition locationServiceOptions (this : DeviceFlowAuthenticator)
    (accessToken : JSValue) : RequestOptions :=
  {| method := GET;
     url := resourceUri this
            ++ "_apis/ServiceDefinitions/LocationService2/951917AC-A960-4999-8464-E3F0AA25B381?api-version=1.0";
     headers := HeadersObject (getAuthorizationHeaders this accessToken);
     payload := NoPayload |}.

(** [getIdentityServiceUrl(accessToken)]. *)
Definition getIdentityServiceUrl (accessToken : JSValue) : Async JSValue :=
  this <- read_this ;;
  let getOptions := locationServiceOptions this accessToken in
  body <- request getOptions ;;
  lift (location_of_body (url getOptions) body).

(** The options of the token-creation request. *)
Definition sessionTokenOptions (this : DeviceFlowAuthenticator)
    (identityUrl accessToken userId : JSValue) : RequestOptions :=
  {| method := POST;
     url := ToString identityUrl
            ++ "_apis/token/sessiontokens?api-version=1.0&tokentype=compact";
     headers := HeadersObject (getAuthorizationHeaders this accessToken);
     payload := JsonBody
       [ ("scope", JString (tokenScope this));
         ("targetAccounts",
          JString ("[" ++ double_quote ++ ToString userId ++ double_quote ++ "]"));
         ("displayName", JString (tokenDescription this)) ] |}.

(** [getScopedCompactAccessToken(accessToken, userId)]. *)
Definition getScopedCompactAccessToken (accessToken userId : JSValue) : Async JSValue :=
  identityUrl <- getIdentityServiceUrl accessToken ;;
  this <- read_this ;;
  body <- request (sessionTokenOptions this identityUrl accessToken userId) ;;
  lift (get body "token").

Definition EmptyGuid : string := "00000000-0000-0000-0000-000000000000".

(** [for (const id of tenantIds) { if (id !== skip) { tenantId = id; break; } }]:
    [None] when the loop ends without assigning. *)
Fixpoint first_other_than (skip : string) (tenantIds : list string) : option string :=
  match tenantIds with
  | [] => None
  | id :: rest =>
      if String.eqb id skip then first_other_than skip rest else Some id
  end.

(** The part of [getTenantId] after the probe: from the header value read
    ([undefined] when absent) to the tenant id. *)
Definition tenant_of_header (resourceUri : string) (resourceTenant : JSValue)
  : Completion string :=
  if truthy resourceTenant then
    match resourceTenant with
    | JString s =>
        let tenantIds := split "," s in
        let tenantId :=
          if (1 <? List.length tenantIds)%nat
          then first_other_than EmptyGuid tenantIds
          else hd_error tenantIds in
        match tenantId with
        | Some id => Return (trim id)
        | None => Throw TypeError
        end
    | _ => Throw TypeError
    end
  else Throw (Error ("Did not receive tenant id from " ++ resourceUri)).

(** [x.response['x-vss-resourcetenant']]. *)
Definition resourcetenant_of (x : JSValue) : Completion JSValue :=
  let? response := get x "response" in
  get response "x-vss-resourcetenant".

Definition headOptions (this : DeviceFlowAuthenticator) : RequestOptions :=
  {| method := HEAD; url := resourceUri this;
     headers := MethodValue "getUserAgentHeaders";
     payload := NoPayload |}.

(** [getTenantId()]. *)
Definition getTenantId : Async string :=
  this <- read_this ;;
  resourceTenant <-
    catch (body <- request (headOptions this) ;; lift (resourcetenant_of body))
          (fun error => lift (resourcetenant_of error)) ;;
  lift (tenant_of_header (resourceUri this) resourceTenant).

(** [!this.tenantId || this.tenantId === "0000..."]. *)
Definition msa_backed (this : DeviceFlowAuthenticator) : bool :=
  match tenantId this with
  | None => true
  | Some t => (String.eqb t "" || String.eqb t EmptyGuid)%bool
  end.

(** ToString of [this.tenantId] inside a template literal. *)
Definition tenantId_text (this : DeviceFlowAuthenticator) : string :=
  match tenantId this with
  | None => "undefined"
  | Some t => t
  end.

Definition token_url (this : DeviceFlowAuthenticator) : string :=
  if msa_backed this then "https://login.microsoftonline.com/live.com/oauth2/token"
  else "https://login.microsoft.com/" ++ tenantId_text this ++ "/oauth2/token".

Definition pollOptions (this : DeviceFlowAuthenticator) (deviceCode : JSValue)
  : RequestOptions :=
  {| method := POST; url := token_url this;
     headers := HeadersObject (getUserAgentHeaders this);
     payload := Form [ ("client_id", clientId this);
                       ("code", ToString deviceCode);
                       ("grant_type", grantType this) ] |}.

(** The [.then] callback of [waitOnResponseAccessToken]. *)
Definition on_body (postUrl : string) (body : JSValue) : Completion JSValue :=
  let? json := parse body in
  let? accessToken := get json "access_token" in
  if truthy accessToken then Return accessToken
  else Throw (Error ("Did not receive an access token from " ++ postUrl
                     ++ ". Body: " ++ ToString body)).

(** The [.catch] callback of [waitOnResponseAccessToken].  Both reads are
    of the same object, so reading [error] before the test on the status
    changes nothing. *)
Definition on_error (err : JSValue) : Completion JSValue :=
  let? statusCode := get err "statusCode" in
  let? error := get err "error" in
  if (strict_eq_number statusCode 400 && truthy error)%bool then
    let? result := parse error in
    let? code := get result "error" in
    if strict_eq_string code "authorization_pending" then
      Return (JString DeviceCodeStatus.PENDING)
    else if strict_eq_string code "slow_down" then
      Return (JString DeviceCodeStatus.BACKOFF)
    else if strict_eq_string code "bad_verification_code" then
      Return (JString DeviceCodeStatus.BADCODE)
    else if strict_eq_string code "code_expired" then
      Return (JString DeviceCodeStatus.EXPIRED)
    else Throw err
  else Throw err.

(** [waitOnResponseAccessToken(deviceCode)]. *)
Definition waitOnResponseAccessToken (deviceCode : JSValue) : Async JSValue :=
  this <- read_this ;;
  let postOptions := pollOptions this deviceCode in
  catch (body <- request postOptions ;; lift (on_body (url postOptions) body))
        (fun err => lift (on_error err)).

Definition devicecode_url (this : DeviceFlowAuthenticator) : string :=
  if msa_backed this then "https://login.microsoftonline.com/live.com/oauth2/devicecode"
  else "https://login.microsoft.com/" ++ tenantId_text this ++ "/oauth2/devicecode".

(** The [.then] callback of [GetDeviceFlowDetails]: it stores the device
    code, the interval and the expiry, in that order, and builds the
    details. *)
Definition store_details (body : JSValue) : Async DeviceFlowDetails :=
  json <- lift (parse body) ;;
  device_code <- lift (get json "device_code") ;;
  assign (with_deviceCode device_code) ;;;
  seconds <- lift (get json "interval") ;;
  assign (with_interval (Num_mul (Number_parseInt seconds) 1000)) ;;;
  expires_in <- lift (get json "expires_in") ;;
  assign (with_expiresIn (Num_mul (Number_parseInt expires_in) 1000)) ;;;
  message <- lift (get json "message") ;;
  user_code <- lift (get json "user_code") ;;
  verification_url <- lift (get json "verification_url") ;;
  ret {| Message := message; UserCode := user_code;
         VerificationUrl := verification_url |}.

Definition deviceCodeOptions (this : DeviceFlowAuthenticator) : RequestOptions :=
  {| method := POST; url := devicecode_url this;
     headers := HeadersObject (getUserAgentHeaders this);
     payload := Form [ ("client_id", clientId this);
                       ("resource", authorityHost this);
                       ("redirect_uri", redirectUri this) ] |}.

(** The device-code request of [GetDeviceFlowDetails] and what follows
    it. *)
Definition issueDeviceCode : Async DeviceFlowDetails :=
  this <- read_this ;;
  body <- request (deviceCodeOptions this) ;;
  store_details body.

(** [GetDeviceFlowDetails()]. *)
Definition GetDeviceFlowDetails : Async DeviceFlowDetails :=
  tenant <- getTenantId ;;
  assign (with_tenantId (Some tenant)) ;;;
  issueDeviceCode.

(** The guard of the [while] in [WaitForPersonalAccessToken]. *)
Definition still_waiting (this : DeviceFlowAuthenticator) (accessToken : JSValue) : bool :=
  (negb (cancelFlag this)
   && negb (strict_eq_string accessToken DeviceCodeStatus.EXPIRED)
   && (strict_eq_string accessToken DeviceCodeStatus.PENDING
       || strict_eq_string accessToken DeviceCodeStatus.BACKOFF))%bool.

(** The interval the body of the loop sleeps: unchanged on [PENDING],
    doubled on [BACKOFF] (the guard leaves no third case). *)
Definition next_interval (sleepInterval : Num) (accessToken : JSValue) : Num :=
  if strict_eq_string accessToken DeviceCodeStatus.PENDING then sleepInterval
  else Num_mul sleepInterval 2.

(** One turn of the loop body: sleep, then poll again. *)
Definition turn (sleepInterval : Num) : Async JSValue :=
  this <- read_this ;;
  sleep sleepInterval ;;;
  waitOnResponseAccessToken (deviceCode this).

(** The [while] loop.  A turn awaits one settlement, so it is run on the
    head of the inbox and the loop goes on with the tail; with an empty
    inbox the poll of the turn never settles. *)
Fixpoint while_waiting (inbox : list Exchange) (this : DeviceFlowAuthenticator)
    (sleepInterval : Num) (accessToken : JSValue) {struct inbox} : Run JSValue :=
  if still_waiting this accessToken then
    let sleepInterval' := next_interval sleepInterval accessToken in
    match inbox with
    | [] => turn sleepInterval' this []
    | x :: rest =>
        let r := turn sleepInterval' this [x] in
        match completion r with
        | Return accessToken' =>
            let r' := while_waiting rest (self r) sleepInterval' accessToken' in
            {| completion := completion r'; self := self r';
               trace := trace r ++ trace r'; unread := unread r' |}
        | _ =>
            {| completion := completion r; self := self r;
               trace := trace r; unread := rest |}
        end
    end
  else
    {| completion := Return accessToken; self := this;
       trace := []; unread := inbox |}.

(** The first poll and the loop of [WaitForPersonalAccessToken]:
    [sleepInterval] starts at [this.interval], read before the first
    poll. *)
Definition polling (this : DeviceFlowAuthenticator) : Async JSValue :=
  let sleepInterval := interval this in
  accessToken <- waitOnResponseAccessToken (deviceCode this) ;;
  (fun this' inbox => while_waiting inbox this' sleepInterval accessToken).

(** What follows the loop in [WaitForPersonalAccessToken]. *)
Definition after_waiting (accessToken : JSValue) : Async JSValue :=
  this <- read_this ;;
  if strict_eq_string accessToken DeviceCodeStatus.EXPIRED then
    throw (Error ("Verification code expired for " ++ resourceUri this
                  ++ ". Could not get an access token."))
  else if strict_eq_string accessToken DeviceCodeStatus.BADCODE then
    throw (Error ("Incorrect verification code entered for " ++ resourceUri this
                  ++ ". Could not get an access token."))
  else if cancelFlag this then
    match throwExceptionOnCancel this with
    | Some true => throw (Error "Request canceled by user.")
    | _ => ret JUndefined
    end
  else
    userId <- getAuthenticatedUserId accessToken ;;
    token <- getScopedCompactAccessToken accessToken userId ;;
    ret token.

(** [WaitForPersonalAccessToken()]. *)
Definition WaitForPersonalAccessToken : Async JSValue :=
  this <- read_this ;;
  if negb (truthy (deviceCode this)) then
    throw (Error ("Valid device code not found for " ++ resourceUri this
                  ++ ". Ensure that a device code was requested."))
  else
    accessToken <- polling this ;;
    after_waiting accessToken.


(* ================================================================== *)
(** ** Reading a run *)

(** What one poll makes of a settlement: the [.then] callback on a
    resolved body, and the [.catch] callback on a rejection or on what the
    [.then] callback threw. *)
Definition poll_outcome (postUrl : string) (s : Settlement) : Completion JSValue :=
  match s with
  | Resolved body =>
      match on_body postUrl body with
      | Throw e => on_error e
      | c => c
      end
  | Rejected err => on_error err
  end.

(** The header value [getTenantId] ends up with: read from the resolved
    value, or, when the probe is rejected or that read throws, from what
    was caught. *)
Definition header_read (s : Settlement) : Completion JSValue :=
  match s with
  | Resolved body =>
      match resourcetenant_of body with
      | Throw e => resourcetenant_of e
      | c => c
      end
  | Rejected error => resourcetenant_of error
  end.

(** The four status strings, by the [error] code that gives each. *)
Definition status_of_code : list (string * string) :=
  [ ("authorization_pending", DeviceCodeStatus.PENDING);
    ("slow_down", DeviceCodeStatus.BACKOFF);
    ("bad_verification_code", DeviceCodeStatus.BADCODE);
    ("code_expired", DeviceCodeStatus.EXPIRED) ].

Definition is_status (v : JSValue) : bool :=
  (strict_eq_string v DeviceCodeStatus.PENDING
   || strict_eq_string v DeviceCodeStatus.BACKOFF
   || strict_eq_string v DeviceCodeStatus.BADCODE
   || strict_eq_string v DeviceCodeStatus.EXPIRED)%bool.

(** The poll of an exchange says [BACKOFF]. *)
Definition backs_off (this : DeviceFlowAuthenticator) (x : Exchange) : bool :=
  match poll_outcome (token_url this) (settlement x) with
  | Return v => strict_eq_string v DeviceCodeStatus.BACKOFF
  | _ => false
  end.

(** The poll of an exchange says [PENDING] or [BACKOFF]. *)
Definition keeps_waiting (this : DeviceFlowAuthenticator) (x : Exchange) : bool :=
  match poll_outcome (token_url this) (settlement x) with
  | Return v => (strict_eq_string v DeviceCodeStatus.PENDING
                 || strict_eq_string v DeviceCodeStatus.BACKOFF)%bool
  | _ => false
  end.

(** No [Cancel] call falls into the exchange. *)
Definition undisturbed (x : Exchange) : bool :=
  match before x, in_flight x with
  | [], [] => true
  | _, _ => false
  end.

(** The doublings a status asks for: one for [BACKOFF]. *)
Definition doubling (accessToken : JSValue) : Z :=
  if strict_eq_string accessToken DeviceCodeStatus.BACKOFF then 1 else 0.

(** How many of the polls of [inbox] say [BACKOFF]. *)
Definition backoffs (this : DeviceFlowAuthenticator) (inbox : list Exchange) : Z :=
  Z.of_nat (List.length (filter (backs_off this) inbox)).

Fixpoint sleeps (tr : list Effect) : list Num :=
  match tr with
  | [] => []
  | Slept ms :: rest => ms :: sleeps rest
  | Requested _ :: rest => sleeps rest
  end.

Fixpoint requests (tr : list Effect) : list RequestOptions :=
  match tr with
  | [] => []
  | Requested r :: rest => r :: requests rest
  | Slept _ :: rest => requests rest
  end.

Definition succeeded {A} (c : Completion A) : bool :=
  match c with
  | Return _ => true
  | _ => false
  end.

(** What [WaitForPersonalAccessToken] does once it has seen the flag. *)
Definition canceled (this : DeviceFlowAuthenticator) : Completion JSValue :=
  match throwExceptionOnCancel this with
  | Some true => Throw (Error "Request canceled by user.")
  | _ => Return JUndefined
  end.

(* ================================================================== *)
(** ** Properties *)

Lemma poll_run (deviceCode : JSValue) (this : DeviceFlowAuthenticator)
    (x : Exchange) (rest : list Exchange) :
  waitOnResponseAccessToken deviceCode this (x :: rest)
  = {| completion := poll_outcome (token_url this) (settlement x);
       self := deliver (in_flight x) (deliver (before x) this);
       trace := [Requested (pollOptions this deviceCode)];
       unread := rest |}.
Proof.
  unfold waitOnResponseAccessToken, catch, bind, read_this, request, lift,
    poll_outcome; cbn.
  destruct (settlement x) as [body | err]; cbn.
  - destruct (on_body _ body); reflexivity.
  - reflexivity.
Qed.

Lemma poll_run_nil (deviceCode : JSValue) (this : DeviceFlowAuthenticator) :
  waitOnResponseAccessToken deviceCode this []
  = {| completion := Awaiting; self := this;
       trace := [Requested (pollOptions this deviceCode)]; unread := [] |}.
Proof. reflexivity. Qed.

Lemma on_error_of_own_throw (postUrl : string) (body e : JSValue) :
  on_body postUrl body = Throw e -> on_error e = Throw e.
Proof.
  unfold on_body, parse.
  destruct (JSON_parse body) as [json |]; cbn.
  - destruct (get json "access_token") as [token | e' |] eqn:Hget; cbn.
    + destruct (truthy token); intros H; inversion H; subst; reflexivity.
    + destruct json; cbn in Hget; inversion Hget; subst;
        intros H; inversion H; subst; reflexivity.
    + discriminate.
  - intros H; inversion H; subst; reflexivity.
Qed.

Lemma on_body_returns (postUrl : string) (body v : JSValue) :
  on_body postUrl body = Return v ->
  exists json, JSON_parse body = Some json
               /\ get json "access_token" = Return v /\ truthy v = true.
Proof.
  unfold on_body, parse.
  destruct (JSON_parse body) as [json |]; cbn; [| discriminate].
  destruct (get json "access_token") as [token | e' |] eqn:Hg; cbn; try discriminate.
  destruct (truthy token) eqn:Ht; intros H; inversion H; subst.
  exists json; repeat split; first [reflexivity | assumption].
Qed.

Lemma on_error_returns (err v : JSValue) :
  on_error err = Return v ->
  exists error result code status,
    get err "statusCode" = Return (JNumber 400)
    /\ get err "error" = Return error /\ truthy error = true
    /\ JSON_parse error = Some result
    /\ get result "error" = Return (JString code)
    /\ In (code, status) status_of_code /\ v = JString status.
Proof.
  unfold on_error, parse.
  destruct (get err "statusCode") as [statusCode | |]; cbn; try discriminate.
  destruct (get err "error") as [error | |]; cbn; try discriminate.
  destruct statusCode as [| | | n | | |]; cbn; try discriminate.
  destruct (n =? 400) eqn:Hn; cbn; try discriminate.
  apply Z.eqb_eq in Hn; subst n.
  destruct (truthy error) eqn:Ht; cbn; try discriminate.
  destruct (JSON_parse error) as [result |] eqn:Hp; cbn; try discriminate.
  destruct (get result "error") as [code | |] eqn:Hg; cbn; try discriminate.
  destruct code as [| | | | code | |]; cbn; try discriminate.
  destruct (String.eqb code "authorization_pending") eqn:H1;
    [| destruct (String.eqb code "slow_down") eqn:H2;
       [| destruct (String.eqb code "bad_verification_code") eqn:H3;
          [| destruct (String.eqb code "code_expired") eqn:H4; [| discriminate]]]];
    intros H; inversion H; subst v;
    match goal with E : String.eqb code _ = true |- _ => apply String.eqb_eq in E; subst code end;
    exists error, result; do 2 eexists;
    repeat split; try eassumption; try reflexivity; cbn; auto 6.
Qed.

(** C1, as the code has it.  One poll returns a value in two cases only: a
    resolved response whose parsed body has a truthy [access_token]
    (returned as it is), and a rejection with status 400 and a non-empty
    body that parses and whose [error] is one of the four codes (the
    matching status string).  A 400 whose parsed [error] is anything else,
    a 400 with an empty body, and a rejection with another status or none
    rethrow the rejection itself; a 400 whose non-empty body does not parse
    throws the [SyntaxError] of [JSON.parse] instead, and one whose body
    parses to [null] the [TypeError] of the read of [error].  A resolved
    response without a truthy [access_token] throws the error that says
    so; one whose body does not parse throws the [SyntaxError], and one
    whose body parses to [null] the [TypeError].  A rejection that is no
    object at all ([null], [undefined]) throws the [TypeError] of the read
    of its status.  A poll that has its answer always ends in one of
    these ways. *)
Theorem poll_classification (this : DeviceFlowAuthenticator) (deviceCode : JSValue)
    (x : Exchange) (rest : list Exchange) :
  let outcome := completion (waitOnResponseAccessToken deviceCode this (x :: rest)) in
  (forall body json token,
      settlement x = Resolved body ->
      JSON_parse body = Some json ->
      get json "access_token" = Return token ->
      truthy token = true ->
      outcome = Return token)
  /\ (forall err error result code status,
      settlement x = Rejected err ->
      get err "statusCode" = Return (JNumber 400) ->
      get err "error" = Return error -> truthy error = true ->
      JSON_parse error = Some result ->
      get result "error" = Return (JString code) ->
      In (code, status) status_of_code ->
      outcome = Return (JString status))
  /\ (forall err error result code,
      settlement x = Rejected err ->
      get err "statusCode" = Return (JNumber 400) ->
      get err "error" = Return error -> truthy error = true ->
      JSON_parse error = Some result ->
      get result "error" = Return code ->
      (forall c s, In (c, s) status_of_code -> strict_eq_string code c = false) ->
      outcome = Throw err)
  /\ (forall err error,
      settlement x = Rejected err ->
      get err "statusCode" = Return (JNumber 400) ->
      get err "error" = Return error -> truthy error = true ->
      JSON_parse error = None ->
      outcome = Throw SyntaxError)
  /\ (forall err statusCode error,
      settlement x = Rejected err ->
      get err "statusCode" = Return statusCode ->
      get err "error" = Return error ->
      (strict_eq_number statusCode 400 && truthy error)%bool = false ->
      outcome = Throw err)
  /\ (forall v,
      outcome = Return v ->
      (exists body json,
          settlement x = Resolved body /\ JSON_parse body = Some json
          /\ get json "access_token" = Return v /\ truthy v = true)
      \/ (exists err error result code status,
          settlement x = Rejected err
          /\ get err "statusCode" = Return (JNumber 400)
          /\ get err "error" = Return error /\ truthy error = true
          /\ JSON_parse error = Some result
          /\ get result "error" = Return (JString code)
          /\ In (code, status) status_of_code /\ v = JString status))
  /\ (forall body json token,
      settlement x = Resolved body ->
      JSON_parse body = Some json ->
      get json "access_token" = Return token ->
      truthy token = false ->
      outcome = Throw (Error ("Did not receive an access token from "
                              ++ token_url this ++ ". Body: " ++ ToString body)))
  /\ (forall body,
      settlement x = Resolved body ->
      JSON_parse body = None ->
      outcome = Throw SyntaxError)
  /\ (forall body json e,
      settlement x = Resolved body ->
      JSON_parse body = Some json ->
      get json "access_token" = Throw e ->
      outcome = Throw e /\ e = TypeError)
  /\ (forall err error result e,
      settlement x = Rejected err ->
      get err "statusCode" = Return (JNumber 400) ->
      get err "error" = Return error -> truthy error = true ->
      JSON_parse error = Some result ->
      get result "error" = Throw e ->
      outcome = Throw e /\ e = TypeError)
  /\ (forall err e,
      settlement x = Rejected err ->
      get err "statusCode" = Throw e ->
      outcome = Throw e /\ e = TypeError)
  /\ ((exists v, outcome = Return v) \/ (exists e, outcome = Throw e)).
Proof.
  rewrite poll_run; cbn [completion].
  split; [| split; [| split; [| split; [| split; [| split;
    [| split; [| split; [| split; [| split; [| split]]]]]]]]]].
  - intros body json token Hs Hp Hg Ht. rewrite Hs; cbn.
    unfold on_body, parse. rewrite Hp; cbn. rewrite Hg; cbn. rewrite Ht.
    reflexivity.
  - intros err error result code status Hs Hc He Ht Hp Hg Hin.
    rewrite Hs; cbn. unfold on_error, parse.
    rewrite Hc, He; cbn. rewrite Ht, Hp; cbn. rewrite Hg; cbn.
    cbn in Hin.
    destruct Hin as [H | [H | [H | [H | []]]]]; inversion H; subst; reflexivity.
  - intros err error result code Hs Hc He Ht Hp Hg Hother.
    rewrite Hs; cbn. unfold on_error, parse.
    rewrite Hc, He; cbn. rewrite Ht, Hp; cbn. rewrite Hg; cbn.
    rewrite (Hother "authorization_pending" DeviceCodeStatus.PENDING) by (cbn; auto).
    rewrite (Hother "slow_down" DeviceCodeStatus.BACKOFF) by (cbn; auto).
    rewrite (Hother "bad_verification_code" DeviceCodeStatus.BADCODE) by (cbn; auto).
    rewrite (Hother "code_expired" DeviceCodeStatus.EXPIRED) by (cbn; auto 6).
    reflexivity.
  - intros err error Hs Hc He Ht Hp.
    rewrite Hs; cbn. unfold on_error, parse.
    rewrite Hc, He; cbn. rewrite Ht, Hp; reflexivity.
  - intros err statusCode error Hs Hc He Hno.
    rewrite Hs; cbn. unfold on_error.
    rewrite Hc, He; cbn. rewrite Hno; reflexivity.
  - intros v Hv.
    destruct (settlement x) as [body | err] eqn:Hs; cbn in Hv.
    + left. destruct (on_body (token_url this) body) as [v' | e |] eqn:Hb.
      * inversion Hv; subst v'.
        destruct (on_body_returns _ _ _ Hb) as (json & Hp & Hg & Ht).
        exists body, json; auto.
      * rewrite (on_error_of_own_throw _ _ _ Hb) in Hv; discriminate.
      * discriminate.
    + right.
      destruct (on_error_returns _ _ Hv)
        as (error & result & code & status & H1 & H2 & H3 & H4 & H5 & H6 & H7).
      exists err, error, result, code, status; repeat split; assumption.
  - intros body json token Hs Hp Hg Ht. rewrite Hs; cbn.
    unfold on_body, parse. rewrite Hp; cbn. rewrite Hg; cbn. rewrite Ht.
    reflexivity.
  - intros body Hs Hp. rewrite Hs; cbn.
    unfold on_body, parse. rewrite Hp. reflexivity.
  - intros body json e Hs Hp Hg. rewrite Hs; cbn.
    assert (He : e = TypeError)
      by (destruct json; cbn in Hg; inversion Hg; reflexivity).
    unfold on_body, parse. rewrite Hp; cbn. rewrite Hg; cbn.
    subst e. split; reflexivity.
  - intros err error result e Hs Hc He Ht Hp Hg.
    assert (E : e = TypeError)
      by (destruct result; cbn in Hg; inversion Hg; reflexivity).
    rewrite Hs; cbn. unfold on_error, parse.
    rewrite Hc, He; cbn. rewrite Ht, Hp; cbn. rewrite Hg; cbn.
    split; [reflexivity | exact E].
  - intros err e Hs Hc.
    assert (E : e = TypeError)
      by (destruct err; cbn in Hc; inversion Hc; reflexivity).
    rewrite Hs; cbn. unfold on_error. rewrite Hc; cbn.
    split; [reflexivity | exact E].
  - destruct (settlement x) as [body | err]; cbn.
    + destruct (on_body (token_url this) body) as [v | e |] eqn:Hb.
      * left. exists v. reflexivity.
      * right. exists e. exact (on_error_of_own_throw _ _ _ Hb).
      * exfalso. revert Hb. unfold on_body, parse.
        destruct (JSON_parse body) as [json |]; cbn; [| discriminate].
        destruct json; cbn; try discriminate;
          match goal with |- context [truthy ?t] => destruct (truthy t) end;
          discriminate.
    + unfold on_error, parse.
      destruct err; cbn; try (right; eexists; reflexivity);
        repeat match goal with
               | |- context [if ?b then _ else _] => destruct b; cbn
               | |- context [match JSON_parse ?e with _ => _ end] =>
                   destruct (JSON_parse e) as [[] |]; cbn
               end;
        try (left; eexists; reflexivity); try (right; eexists; reflexivity).
Qed.

(** *** [Cancel] touches the two flags and nothing else *)

Lemma deliver_cons (arg : option bool) (calls : list (option bool))
    (this : DeviceFlowAuthenticator) :
  deliver (arg :: calls) this = deliver calls (Cancel arg this).
Proof. reflexivity. Qed.

Lemma deliver_keeps (calls : list (option bool)) :
  forall this,
    tenantId (deliver calls this) = tenantId this
    /\ deviceCode (deliver calls this) = deviceCode this
    /\ resourceUri (deliver calls this) = resourceUri this
    /\ userAgent (deliver calls this) = userAgent this
    /\ clientId (deliver calls this) = clientId this
    /\ grantType (deliver calls this) = grantType this
    /\ interval (deliver calls this) = interval this
    /\ tokenScope (deliver calls this) = tokenScope this
    /\ tokenDescription (deliver calls this) = tokenDescription this.
Proof.
  induction calls as [| arg calls IH]; intros this.
  - repeat split.
  - rewrite deliver_cons. apply (IH (Cancel arg this)).
Qed.

Lemma pollOptions_deliver (calls : list (option bool))
    (this : DeviceFlowAuthenticator) (code : JSValue) :
  pollOptions (deliver calls this) code = pollOptions this code.
Proof.
  destruct (deliver_keeps calls this) as (Ht & _ & _ & Hu & Hc & Hg & _).
  unfold pollOptions, token_url, msa_backed, tenantId_text, getUserAgentHeaders.
  rewrite Ht, Hu, Hc, Hg. reflexivity.
Qed.

Lemma token_url_deliver (calls : list (option bool)) (this : DeviceFlowAuthenticator) :
  token_url (deliver calls this) = token_url this.
Proof.
  destruct (deliver_keeps calls this) as (Ht & _).
  unfold token_url, msa_backed, tenantId_text. rewrite Ht. reflexivity.
Qed.

Lemma deliver_snoc (calls : list (option bool)) (arg : option bool)
    (this : DeviceFlowAuthenticator) :
  cancelFlag (deliver (calls ++ [arg]) this) = true
  /\ throwExceptionOnCancel (deliver (calls ++ [arg]) this) = arg.
Proof.
  unfold deliver. rewrite fold_left_app. cbn. split; reflexivity.
Qed.

Lemma deliver_app (a b : list (option bool)) (this : DeviceFlowAuthenticator) :
  deliver b (deliver a this) = deliver (a ++ b) this.
Proof. unfold deliver. rewrite fold_left_app. reflexivity. Qed.

(** *** The loop, turn by turn *)

Lemma turn_run (sleepInterval : Num) (this : DeviceFlowAuthenticator) (x : Exchange) :
  turn sleepInterval this [x]
  = {| completion := poll_outcome (token_url this) (settlement x);
       self := deliver (in_flight x) (deliver (before x) this);
       trace := [Slept sleepInterval; Requested (pollOptions this (deviceCode this))];
       unread := [] |}.
Proof.
  unfold turn, bind, read_this, sleep.
  cbn [completion self trace unread].
  rewrite poll_run. cbn [completion self trace unread app]. reflexivity.
Qed.

Lemma while_waiting_done (inbox : list Exchange) (this : DeviceFlowAuthenticator)
    (sleepInterval : Num) (accessToken : JSValue) :
  still_waiting this accessToken = false ->
  while_waiting inbox this sleepInterval accessToken
  = {| completion := Return accessToken; self := this; trace := []; unread := inbox |}.
Proof. intros H. destruct inbox; cbn [while_waiting]; rewrite H; reflexivity. Qed.

Lemma while_waiting_turn (x : Exchange) (rest : list Exchange)
    (this : DeviceFlowAuthenticator) (sleepInterval : Num) (accessToken : JSValue) :
  still_waiting this accessToken = true ->
  let sleepInterval' := next_interval sleepInterval accessToken in
  let this' := deliver (in_flight x) (deliver (before x) this) in
  let polled := Requested (pollOptions this (deviceCode this)) in
  while_waiting (x :: rest) this sleepInterval accessToken
  = match poll_outcome (token_url this) (settlement x) with
    | Return accessToken' =>
        let r' := while_waiting rest this' sleepInterval' accessToken' in
        {| completion := completion r'; self := self r';
           trace := Slept sleepInterval' :: polled :: trace r';
           unread := unread r' |}
    | Throw e =>
        {| completion := Throw e; self := this';
           trace := [Slept sleepInterval'; polled]; unread := rest |}
    | Awaiting =>
        {| completion := Awaiting; self := this';
           trace := [Slept sleepInterval'; polled]; unread := rest |}
    end.
Proof.
  intros H. cbn [while_waiting]. rewrite H, turn_run.
  cbn [completion self trace unread].
  destruct (poll_outcome (token_url this) (settlement x)); reflexivity.
Qed.

Lemma while_waiting_starved (this : DeviceFlowAuthenticator)
    (sleepInterval : Num) (accessToken : JSValue) :
  still_waiting this accessToken = true ->
  while_waiting [] this sleepInterval accessToken
  = {| completion := Awaiting; self := this;
       trace := [Slept (next_interval sleepInterval accessToken);
                 Requested (pollOptions this (deviceCode this))];
       unread := [] |}.
Proof. intros H. cbn [while_waiting]. rewrite H. reflexivity. Qed.

(** *** Traces *)

Lemma sleeps_app (a b : list Effect) :
  sleeps (a ++ b) = (sleeps a ++ sleeps b)%list.
Proof.
  induction a as [| e a IH]; [reflexivity |].
  destruct e; cbn; rewrite IH; reflexivity.
Qed.

Lemma requests_app (a b : list Effect) :
  requests (a ++ b) = (requests a ++ requests b)%list.
Proof.
  induction a as [| e a IH]; [reflexivity |].
  destruct e; cbn; rewrite IH; reflexivity.
Qed.

Lemma bind_trace {A B} (m : Async A) (k : A -> Async B)
    (this : DeviceFlowAuthenticator) (inbox : list Exchange) :
  trace (bind m k this inbox)
  = (trace (m this inbox)
     ++ match completion (m this inbox) with
        | Return a => trace (k a (self (m this inbox)) (unread (m this inbox)))
        | _ => []
        end)%list.
Proof.
  unfold bind. destruct (completion (m this inbox)); cbn [trace];
    rewrite ?app_nil_r; reflexivity.
Qed.

Lemma request_trace (options : RequestOptions)
    (this : DeviceFlowAuthenticator) (inbox : list Exchange) :
  trace (request options this inbox) = [Requested options].
Proof. destruct inbox; reflexivity. Qed.

Lemma bind_throws {A B} (m : Async A) (k : A -> Async B)
    (this : DeviceFlowAuthenticator) (inbox : list Exchange) (e : JSValue) :
  completion (m this inbox) = Throw e ->
  completion (bind m k this inbox) = Throw e
  /\ self (bind m k this inbox) = self (m this inbox)
  /\ trace (bind m k this inbox) = trace (m this inbox)
  /\ unread (bind m k this inbox) = unread (m this inbox).
Proof. intros H. unfold bind. rewrite H. repeat split. Qed.

Lemma bind_awaits {A B} (m : Async A) (k : A -> Async B)
    (this : DeviceFlowAuthenticator) (inbox : list Exchange) :
  completion (m this inbox) = Awaiting ->
  completion (bind m k this inbox) = Awaiting
  /\ self (bind m k this inbox) = self (m this inbox)
  /\ trace (bind m k this inbox) = trace (m this inbox)
  /\ unread (bind m k this inbox) = unread (m this inbox).
Proof. intros H. unfold bind. rewrite H. repeat split. Qed.

Lemma bind_returns {A B} (m : Async A) (k : A -> Async B)
    (this : DeviceFlowAuthenticator) (inbox : list Exchange) (a : A) :
  completion (m this inbox) = Return a ->
  let r' := k a (self (m this inbox)) (unread (m this inbox)) in
  completion (bind m k this inbox) = completion r'
  /\ self (bind m k this inbox) = self r'
  /\ trace (bind m k this inbox) = (trace (m this inbox) ++ trace r')%list
  /\ unread (bind m k this inbox) = unread r'.
Proof. intros H. unfold bind. rewrite H. repeat split. Qed.

Lemma bind_lift_return {A B} (a : A) (k : A -> Async B)
    (this : DeviceFlowAuthenticator) (inbox : list Exchange) :
  bind (lift (Return a)) k this inbox = k a this inbox.
Proof. unfold bind, lift; cbn. destruct (k a this inbox); reflexivity. Qed.

Lemma bind_lift_throw {A B} (e : JSValue) (k : A -> Async B)
    (this : DeviceFlowAuthenticator) (inbox : list Exchange) :
  bind (lift (Throw e)) k this inbox = lift (Throw e) this inbox.
Proof. reflexivity. Qed.

Lemma bind_assign {B} (f : DeviceFlowAuthenticator -> DeviceFlowAuthenticator)
    (k : unit -> Async B) (this : DeviceFlowAuthenticator) (inbox : list Exchange) :
  bind (assign f) k this inbox = k tt (f this) inbox.
Proof. unfold bind, assign; cbn. destruct (k tt (f this) inbox); reflexivity. Qed.

Lemma bind_read_this {B} (k : DeviceFlowAuthenticator -> Async B)
    (this : DeviceFlowAuthenticator) (inbox : list Exchange) :
  bind read_this k this inbox = k this this inbox.
Proof. unfold bind, read_this; cbn. destruct (k this this inbox); reflexivity. Qed.

Lemma getAuthenticatedUserId_no_sleep (accessToken : JSValue)
    (this : DeviceFlowAuthenticator) (inbox : list Exchange) :
  sleeps (trace (getAuthenticatedUserId accessToken this inbox)) = [].
Proof.
  unfold getAuthenticatedUserId.
  rewrite bind_trace. cbn [read_this completion self trace unread app].
  rewrite bind_trace, request_trace.
  destruct (completion (request _ this inbox)); reflexivity.
Qed.

Lemma getIdentityServiceUrl_no_sleep (accessToken : JSValue)
    (this : DeviceFlowAuthenticator) (inbox : list Exchange) :
  sleeps (trace (getIdentityServiceUrl accessToken this inbox)) = [].
Proof.
  unfold getIdentityServiceUrl.
  rewrite bind_trace. cbn [read_this completion self trace unread app].
  rewrite bind_trace, request_trace.
  destruct (completion (request _ this inbox)); reflexivity.
Qed.

Lemma getScopedCompactAccessToken_no_sleep (accessToken userId : JSValue)
    (this : DeviceFlowAuthenticator) (inbox : list Exchange) :
  sleeps (trace (getScopedCompactAccessToken accessToken userId this inbox)) = [].
Proof.
  unfold getScopedCompactAccessToken.
  rewrite bind_trace, sleeps_app, getIdentityServiceUrl_no_sleep.
  destruct (completion (getIdentityServiceUrl accessToken this inbox)); [| reflexivity ..].
  rewrite bind_trace. cbn [read_this completion self trace unread app].
  rewrite bind_trace, request_trace.
  destruct (completion (request _ _ _)); reflexivity.
Qed.

Lemma after_waiting_no_sleep (accessToken : JSValue)
    (this : DeviceFlowAuthenticator) (inbox : list Exchange) :
  sleeps (trace (after_waiting accessToken this inbox)) = [].
Proof.
  unfold after_waiting.
  rewrite bind_trace. cbn [read_this completion self trace unread app].
  destruct (strict_eq_string accessToken DeviceCodeStatus.EXPIRED); [reflexivity |].
  destruct (strict_eq_string accessToken DeviceCodeStatus.BADCODE); [reflexivity |].
  destruct (cancelFlag this).
  - destruct (throwExceptionOnCancel this) as [[|] |]; reflexivity.
  - rewrite bind_trace, sleeps_app, getAuthenticatedUserId_no_sleep.
    destruct (completion (getAuthenticatedUserId accessToken this inbox)); [| reflexivity ..].
    rewrite bind_trace, sleeps_app, getScopedCompactAccessToken_no_sleep.
    destruct (completion (getScopedCompactAccessToken _ _ _ _)); reflexivity.
Qed.

(** *** Back-off *)

Lemma next_interval_pow (this : DeviceFlowAuthenticator) (s : Z) (accessToken : JSValue) :
  still_waiting this accessToken = true ->
  next_interval (Int s) accessToken = Int (s * 2 ^ doubling accessToken).
Proof.
  unfold still_waiting, next_interval, doubling. intros H.
  destruct accessToken as [| | | | status | |]; cbn in H |- *;
    try (rewrite ?andb_false_r in H; discriminate).
  destruct (String.eqb status DeviceCodeStatus.PENDING) eqn:Hp.
  - apply String.eqb_eq in Hp; subst status. cbn. f_equal. lia.
  - cbn in H. destruct (String.eqb status DeviceCodeStatus.BACKOFF).
    + cbn. f_equal.
    + rewrite ?andb_false_r in H; discriminate.
Qed.

Lemma backs_off_deliver (calls : list (option bool)) (this : DeviceFlowAuthenticator)
    (x : Exchange) :
  backs_off (deliver calls this) x = backs_off this x.
Proof. unfold backs_off. rewrite token_url_deliver. reflexivity. Qed.

Lemma backoffs_deliver (calls : list (option bool)) (this : DeviceFlowAuthenticator)
    (inbox : list Exchange) :
  backoffs (deliver calls this) inbox = backoffs this inbox.
Proof.
  unfold backoffs. f_equal. f_equal.
  apply filter_ext. intros x. apply backs_off_deliver.
Qed.

Lemma backoffs_cons (this : DeviceFlowAuthenticator) (x : Exchange)
    (inbox : list Exchange) :
  backoffs this (x :: inbox)
  = (if backs_off this x then 1 else 0) + backoffs this inbox.
Proof.
  unfold backoffs. cbn [filter]. destruct (backs_off this x); cbn [List.length]; lia.
Qed.

Lemma backoffs_app (this : DeviceFlowAuthenticator) (a b : list Exchange) :
  backoffs this (a ++ b) = backoffs this a + backoffs this b.
Proof.
  unfold backoffs. rewrite filter_app, length_app. lia.
Qed.

Lemma backoffs_nonneg (this : DeviceFlowAuthenticator) (inbox : list Exchange) :
  0 <= backoffs this inbox.
Proof. unfold backoffs. lia. Qed.

Lemma doubling_nonneg (accessToken : JSValue) : 0 <= doubling accessToken.
Proof. unfold doubling. destruct (strict_eq_string _ _); lia. Qed.

Lemma backs_off_doubling (this : DeviceFlowAuthenticator) (x : Exchange) (v : JSValue) :
  poll_outcome (token_url this) (settlement x) = Return v ->
  (if backs_off this x then 1 else 0) = doubling v.
Proof. unfold backs_off, doubling. intros ->. reflexivity. Qed.

(** The [k]-th sleep of the loop, counted from 0: the interval the loop
    was entered with, doubled once for the status it was entered with if
    that was [BACKOFF], and once for each [BACKOFF] among the first [k]
    polls of the loop. *)
Lemma while_waiting_sleeps (inbox : list Exchange) :
  forall (this : DeviceFlowAuthenticator) (s : Z) (accessToken : JSValue)
         (k : nat) (ms : Num),
    nth_error (sleeps (trace (while_waiting inbox this (Int s) accessToken))) k = Some ms ->
    ms = Int (s * 2 ^ (doubling accessToken + backoffs this (firstn k inbox))).
Proof.
  induction inbox as [| x rest IH]; intros this s accessToken k ms.
  - destruct (still_waiting this accessToken) eqn:W.
    + rewrite while_waiting_starved by assumption.
      rewrite (next_interval_pow this) by assumption.
      cbn [trace sleeps]. destruct k as [| [| k]]; cbn; try discriminate.
      intros H; inversion H.
           unfold backoffs; cbn [firstn filter List.length Z.of_nat].
           rewrite Z.add_0_r; reflexivity.
    + rewrite while_waiting_done by assumption.
      destruct k; discriminate.
  - destruct (still_waiting this accessToken) eqn:W.
    + rewrite while_waiting_turn by assumption.
      rewrite (next_interval_pow this) by assumption.
      destruct (poll_outcome (token_url this) (settlement x)) as [v | e |] eqn:Hv;
        cbn [trace sleeps].
      * destruct k as [| k]; cbn [nth_error firstn].
        -- intros H; inversion H.
           unfold backoffs; cbn [firstn filter List.length Z.of_nat].
           rewrite Z.add_0_r; reflexivity.
        -- intros H. apply IH in H. subst ms.
           rewrite deliver_app, backoffs_deliver, backoffs_cons.
           rewrite (backs_off_doubling this x v Hv).
           pose proof (doubling_nonneg accessToken).
           pose proof (doubling_nonneg v).
           pose proof (backoffs_nonneg this (firstn k rest)).
           f_equal. rewrite <- Z.mul_assoc, <- Z.pow_add_r by lia. reflexivity.
      * destruct k as [| [| k]]; cbn; try discriminate.
        intros H; inversion H.
           unfold backoffs; cbn [firstn filter List.length Z.of_nat].
           rewrite Z.add_0_r; reflexivity.
      * destruct k as [| [| k]]; cbn; try discriminate.
        intros H; inversion H.
           unfold backoffs; cbn [firstn filter List.length Z.of_nat].
           rewrite Z.add_0_r; reflexivity.
    + rewrite while_waiting_done by assumption.
      destruct k; discriminate.
Qed.

(** The sleeps of a whole call are those of its loop. *)
Lemma WaitForPersonalAccessToken_sleeps (this : DeviceFlowAuthenticator)
    (inbox : list Exchange) (k : nat) (ms : Num) (s : Z) :
  interval this = Int s ->
  nth_error (sleeps (trace (WaitForPersonalAccessToken this inbox))) k = Some ms ->
  ms = Int (s * 2 ^ backoffs this (firstn (S k) inbox)).
Proof.
  intros Hi. unfold WaitForPersonalAccessToken.
  rewrite bind_trace. cbn [read_this completion self trace unread app].
  destruct (negb (truthy (deviceCode this))); [destruct k; discriminate |].
  rewrite bind_trace, sleeps_app.
  replace (sleeps match completion (polling this this inbox) with
                  | Return a => trace (after_waiting a (self (polling this this inbox))
                                         (unread (polling this this inbox)))
                  | _ => []
                  end) with (@nil Num)
    by (destruct (completion (polling this this inbox));
        [rewrite after_waiting_no_sleep |..]; reflexivity).
  rewrite app_nil_r.
  unfold polling. rewrite bind_trace, Hi.
  destruct inbox as [| x rest].
  - rewrite poll_run_nil. cbn. destruct k; discriminate.
  - rewrite poll_run. cbn [completion self trace unread app sleeps].
    destruct (poll_outcome (token_url this) (settlement x)) as [v | e |] eqn:Hv;
      [| destruct k; discriminate ..].
    intros H. apply while_waiting_sleeps in H. subst ms.
    rewrite deliver_app, backoffs_deliver.
    cbn [firstn]. rewrite backoffs_cons, (backs_off_doubling this x v Hv).
    reflexivity.
Qed.

Lemma firstn_snoc {A} (l : list A) :
  forall (n : nat) (x : A),
    nth_error l n = Some x -> firstn (S n) l = (firstn n l ++ [x])%list.
Proof.
  induction l as [| y l IH]; intros n x H.
  - destruct n; discriminate.
  - destruct n as [| n].
    + inversion H; subst; reflexivity.
    + cbn [nth_error] in H. change (firstn (S (S n)) (y :: l)) with (y :: firstn (S n) l).
      rewrite (IH n x H). reflexivity.
Qed.

Lemma firstn_more {A} (l : list A) :
  forall (j k : nat), (j <= k)%nat ->
    exists more, firstn k l = (firstn j l ++ more)%list.
Proof.
  induction l as [| y l IH]; intros j k Hjk.
  - exists []. rewrite !firstn_nil. reflexivity.
  - destruct j as [| j].
    + exists (firstn k (y :: l)). reflexivity.
    + destruct k as [| k]; [lia |].
      destruct (IH j k ltac:(lia)) as [more Hmore].
      exists more. cbn [firstn]. rewrite Hmore. reflexivity.
Qed.


(** *** Tenant resolution *)

Lemma getTenantId_run (this : DeviceFlowAuthenticator) (x : Exchange)
    (rest : list Exchange) :
  getTenantId this (x :: rest)
  = {| completion := andThen (header_read (settlement x))
                             (tenant_of_header (resourceUri this));
       self := deliver (in_flight x) (deliver (before x) this);
       trace := [Requested (headOptions this)];
       unread := rest |}.
Proof.
  unfold getTenantId, catch, bind, read_this, request, lift, header_read.
  cbn [completion self trace unread app].
  destruct (settlement x) as [body | error]; cbn [completion self trace unread app].
  - destruct (resourcetenant_of body) as [v | e |];
      cbn [completion self trace unread app andThen]; try reflexivity.
    destruct (resourcetenant_of e); reflexivity.
  - destruct (resourcetenant_of error); reflexivity.
Qed.

Lemma getTenantId_starved (this : DeviceFlowAuthenticator) :
  getTenantId this []
  = {| completion := Awaiting; self := this;
       trace := [Requested (headOptions this)]; unread := [] |}.
Proof. reflexivity. Qed.

Lemma getTenantId_trace (this : DeviceFlowAuthenticator) (inbox : list Exchange) :
  trace (getTenantId this inbox) = [Requested (headOptions this)].
Proof.
  destruct inbox; [rewrite getTenantId_starved | rewrite getTenantId_run]; reflexivity.
Qed.

Lemma GetDeviceFlowDetails_aborts (this : DeviceFlowAuthenticator)
    (inbox : list Exchange) (e : JSValue) :
  completion (getTenantId this inbox) = Throw e ->
  completion (GetDeviceFlowDetails this inbox) = Throw e
  /\ trace (GetDeviceFlowDetails this inbox) = [Requested (headOptions this)]
  /\ unread (GetDeviceFlowDetails this inbox) = unread (getTenantId this inbox).
Proof.
  intros H. unfold GetDeviceFlowDetails.
  destruct (bind_throws getTenantId
              (fun tenant => assign (with_tenantId (Some tenant)) ;;; issueDeviceCode)
              this inbox e H) as (E1 & _ & E3 & E4).
  rewrite E1, E3, E4, getTenantId_trace. repeat split.
Qed.

(** When a response object is there on the path taken and has no tenant
    header, the flow ends with the error of [getTenantId], after the probe
    alone. *)
Lemma tenant_header_absent (this : DeviceFlowAuthenticator) (x : Exchange)
    (rest : list Exchange) :
  header_read (settlement x) = Return JUndefined ->
  let r := GetDeviceFlowDetails this (x :: rest) in
  completion r = Throw (Error ("Did not receive tenant id from " ++ resourceUri this))
  /\ trace r = [Requested (headOptions this)]
  /\ unread r = rest.
Proof.
  intros H r.
  assert (E : completion (getTenantId this (x :: rest))
              = Throw (Error ("Did not receive tenant id from " ++ resourceUri this)))
    by (rewrite getTenantId_run; cbn [completion]; rewrite H; reflexivity).
  destruct (GetDeviceFlowDetails_aborts this (x :: rest) _ E) as (H1 & H2 & H3).
  repeat split; try assumption.
  subst r. rewrite H3, getTenantId_run. reflexivity.
Qed.

(** C9, at the input where the code leaves it.  A probe that is rejected
    without a response object (the request never got an answer) makes
    [getTenantId] read a property of [undefined] inside its [catch]: what
    comes out is that [TypeError], not the error that reports a missing
    tenant id.  The flow still ends there, after the probe alone. *)
Theorem tenant_probe_without_response (this : DeviceFlowAuthenticator)
    (calls_before calls_in_flight : list (option bool)) (cause : string)
    (rest : list Exchange) :
  let x := {| before := calls_before; in_flight := calls_in_flight;
              settlement := Rejected (RequestError cause) |} in
  completion (getTenantId this (x :: rest)) = Throw TypeError
  /\ completion (GetDeviceFlowDetails this (x :: rest)) = Throw TypeError
  /\ trace (GetDeviceFlowDetails this (x :: rest)) = [Requested (headOptions this)]
  /\ TypeError <> Error ("Did not receive tenant id from " ++ resourceUri this).
Proof.
  intros x.
  assert (E : completion (getTenantId this (x :: rest)) = Throw TypeError)
    by (rewrite getTenantId_run; reflexivity).
  destruct (GetDeviceFlowDetails_aborts this (x :: rest) _ E) as (H1 & H2 & _).
  repeat split; try assumption. discriminate.
Qed.

(** C7, at the request that breaks it.  The tenant probe is the first
    request of [GetDeviceFlowDetails]; its [headers] option is the method
    [getUserAgentHeaders] itself, not the object the method returns, so
    the request has no [User-Agent] header to send. *)
Theorem tenant_probe_has_no_user_agent (this : DeviceFlowAuthenticator)
    (inbox : list Exchange) :
  exists later,
    trace (GetDeviceFlowDetails this inbox) = Requested (headOptions this) :: later
    /\ method (headOptions this) = HEAD
    /\ headers (headOptions this) = MethodValue "getUserAgentHeaders"
    /\ header "User-Agent" (headers (headOptions this)) = None
    /\ carries "User-Agent" (headOptions this) = false.
Proof.
  unfold GetDeviceFlowDetails. rewrite bind_trace.
  destruct inbox as [| x rest];
    [rewrite getTenantId_starved | rewrite getTenantId_run];
    cbn [completion self trace unread app]; eexists; repeat split.
Qed.

(** The options every other request is built with do have the header. *)
Lemma other_requests_carry_user_agent (this : DeviceFlowAuthenticator)
    (code accessToken identityUrl userId : JSValue) :
  carries "User-Agent" (deviceCodeOptions this) = true
  /\ carries "User-Agent" (pollOptions this code) = true
  /\ carries "User-Agent" (connectionDataOptions this accessToken) = true
  /\ carries "User-Agent" (locationServiceOptions this accessToken) = true
  /\ carries "User-Agent" (sessionTokenOptions this identityUrl accessToken userId) = true.
Proof. repeat split. Qed.

(** *** The guard of [WaitForPersonalAccessToken] *)

Lemma get_twice (json v : JSValue) (k k' : string) :
  get json k = Return v -> exists v', get json k' = Return v'.
Proof.
  destruct json; cbn; intros H; try discriminate; eexists; reflexivity.
Qed.

Lemma store_details_keeps_deviceCode (body : JSValue)
    (this : DeviceFlowAuthenticator) (inbox : list Exchange) :
  succeeded (completion (store_details body this inbox)) = false ->
  deviceCode (self (store_details body this inbox)) = deviceCode this.
Proof.
  unfold store_details, parse, ret.
  destruct (JSON_parse body) as [json |]; [| reflexivity].
  rewrite bind_lift_return.
  destruct (get json "device_code") as [code | e |] eqn:Hg; [| reflexivity ..].
  rewrite bind_lift_return, bind_assign.
  destruct (get_twice json code "device_code" "interval" Hg) as [v1 ->].
  rewrite bind_lift_return, bind_assign.
  destruct (get_twice json code "device_code" "expires_in" Hg) as [v2 ->].
  rewrite bind_lift_return, bind_assign.
  destruct (get_twice json code "device_code" "message" Hg) as [v3 ->].
  rewrite bind_lift_return.
  destruct (get_twice json code "device_code" "user_code" Hg) as [v4 ->].
  rewrite bind_lift_return.
  destruct (get_twice json code "device_code" "verification_url" Hg) as [v5 ->].
  rewrite bind_lift_return.
  cbn [lift completion succeeded]. discriminate.
Qed.

Lemma issueDeviceCode_keeps_deviceCode (this : DeviceFlowAuthenticator)
    (inbox : list Exchange) :
  succeeded (completion (issueDeviceCode this inbox)) = false ->
  deviceCode (self (issueDeviceCode this inbox)) = deviceCode this.
Proof.
  unfold issueDeviceCode. rewrite bind_read_this. cbv beta.
  destruct inbox as [| x rest]; [reflexivity |].
  destruct (deliver_keeps (before x ++ in_flight x) this) as (_ & K & _).
  rewrite <- deliver_app in K.
  destruct (settlement x) as [body | err] eqn:Hs.
  - destruct (bind_returns (request (deviceCodeOptions this))
                (fun body => store_details body) this (x :: rest) body) as (E1 & E2 & _);
      [cbn [request completion]; rewrite Hs; reflexivity |].
    rewrite E1, E2. cbn [request self unread].
    intros H. rewrite (store_details_keeps_deviceCode _ _ _ H). exact K.
  - destruct (bind_throws (request (deviceCodeOptions this))
                (fun body => store_details body) this (x :: rest) err) as (_ & E2 & _);
      [cbn [request completion]; rewrite Hs; reflexivity |].
    rewrite E2. intros _. exact K.
Qed.

Lemma GetDeviceFlowDetails_keeps_deviceCode (this : DeviceFlowAuthenticator)
    (inbox : list Exchange) :
  succeeded (completion (GetDeviceFlowDetails this inbox)) = false ->
  deviceCode (self (GetDeviceFlowDetails this inbox)) = deviceCode this.
Proof.
  assert (K : deviceCode (self (getTenantId this inbox)) = deviceCode this).
  { destruct inbox as [| x rest];
      [rewrite getTenantId_starved; reflexivity | rewrite getTenantId_run].
    cbn [self]. rewrite deliver_app.
    apply (deliver_keeps (before x ++ in_flight x) this). }
  pose (k := fun tenant : string =>
               assign (with_tenantId (Some tenant)) ;;; issueDeviceCode).
  change GetDeviceFlowDetails with (bind getTenantId k).
  destruct (completion (getTenantId this inbox)) as [tenant | e |] eqn:Hc.
  - destruct (bind_returns getTenantId k this inbox tenant Hc) as (E1 & E2 & _).
    rewrite E1, E2. unfold k. rewrite bind_assign. intros H.
    rewrite (issueDeviceCode_keeps_deviceCode _ _ H). exact K.
  - destruct (bind_throws getTenantId k this inbox e Hc) as (_ & E2 & _).
    rewrite E2. intros _. exact K.
  - destruct (bind_awaits getTenantId k this inbox Hc) as (_ & E2 & _).
    rewrite E2. intros _. exact K.
Qed.

(** C5.  While the session holds no device code (the field is undefined,
    or otherwise falsy), [WaitForPersonalAccessToken] throws the error of
    its guard, sends nothing, reads nothing and leaves the receiver as it
    was.  That is the state of a freshly constructed authenticator, and it
    stays so after a [GetDeviceFlowDetails] that did not succeed. *)
Theorem wait_needs_a_device_code :
  (forall (this : DeviceFlowAuthenticator) (inbox : list Exchange),
      truthy (deviceCode this) = false ->
      WaitForPersonalAccessToken this inbox
      = {| completion :=
             Throw (Error ("Valid device code not found for " ++ resourceUri this
                           ++ ". Ensure that a device code was requested."));
           self := this; trace := []; unread := inbox |})
  /\ (forall resourceUri authOptions tokenOptions this,
      constructor resourceUri authOptions tokenOptions = Return this ->
      truthy (deviceCode this) = false)
  /\ (forall (this : DeviceFlowAuthenticator) (inbox : list Exchange),
      truthy (deviceCode this) = false ->
      succeeded (completion (GetDeviceFlowDetails this inbox)) = false ->
      truthy (deviceCode (self (GetDeviceFlowDetails this inbox))) = false).
Proof.
  split; [| split].
  - intros this inbox H.
    unfold WaitForPersonalAccessToken, bind, read_this, throw, lift.
    cbn [completion self trace unread]. rewrite H. reflexivity.
  - intros uri authOptions tokenOptions this.
    unfold constructor.
    destruct (String.eqb uri ""); [discriminate |].
    destruct (String.eqb _ ""); [discriminate |].
    destruct (String.eqb _ ""); [discriminate |].
    destruct tokenOptions; [| discriminate].
    intros H; inversion H; reflexivity.
  - intros this inbox H Hfail.
    rewrite (GetDeviceFlowDetails_keeps_deviceCode this inbox Hfail). exact H.
Qed.

(** *** Cancellation *)

Lemma still_waiting_not_canceled (this : DeviceFlowAuthenticator) (accessToken : JSValue) :
  still_waiting this accessToken = true -> cancelFlag this = false.
Proof.
  unfold still_waiting. destruct (cancelFlag this); [discriminate | reflexivity].
Qed.

Lemma canceled_stops_waiting (this : DeviceFlowAuthenticator) (accessToken : JSValue) :
  cancelFlag this = true -> still_waiting this accessToken = false.
Proof. unfold still_waiting. intros ->. reflexivity. Qed.

Lemma keeps_waiting_still (this : DeviceFlowAuthenticator) (x : Exchange) :
  cancelFlag this = false ->
  keeps_waiting this x = true ->
  exists status,
    poll_outcome (token_url this) (settlement x) = Return status
    /\ still_waiting this status = true.
Proof.
  unfold keeps_waiting, still_waiting. intros Hc H.
  destruct (poll_outcome (token_url this) (settlement x)) as [status | |];
    try discriminate.
  exists status. split; [reflexivity |]. rewrite Hc, H.
  destruct status as [| | | | s | |]; try discriminate.
  cbn in H |- *.
  destruct (String.eqb s DeviceCodeStatus.PENDING) eqn:Hp.
  - apply String.eqb_eq in Hp; subst s. reflexivity.
  - cbn in H. apply String.eqb_eq in H; subst s. reflexivity.
Qed.

Lemma undisturbed_self (this : DeviceFlowAuthenticator) (x : Exchange) :
  undisturbed x = true ->
  deliver (in_flight x) (deliver (before x) this) = this.
Proof.
  unfold undisturbed.
  destruct (before x); [| discriminate]. destruct (in_flight x); [| discriminate].
  reflexivity.
Qed.

Lemma after_waiting_canceled (accessToken : JSValue) (this : DeviceFlowAuthenticator)
    (inbox : list Exchange) :
  cancelFlag this = true ->
  strict_eq_string accessToken DeviceCodeStatus.EXPIRED = false ->
  strict_eq_string accessToken DeviceCodeStatus.BADCODE = false ->
  after_waiting accessToken this inbox
  = {| completion := canceled this; self := this; trace := []; unread := inbox |}.
Proof.
  intros Hc He Hb. unfold after_waiting, bind, read_this, canceled.
  cbn [completion self trace unread]. rewrite He, Hb, Hc.
  destruct (throwExceptionOnCancel this) as [[|] |]; reflexivity.
Qed.

Lemma while_waiting_requests (inbox : list Exchange) :
  forall (this : DeviceFlowAuthenticator) (s : Num) (accessToken : JSValue),
    Forall (fun q => q = pollOptions this (deviceCode this))
           (requests (trace (while_waiting inbox this s accessToken))).
Proof.
  induction inbox as [| x rest IH]; intros this s accessToken;
    destruct (still_waiting this accessToken) eqn:W.
  - rewrite while_waiting_starved by assumption. cbn. auto.
  - rewrite while_waiting_done by assumption. constructor.
  - rewrite while_waiting_turn by assumption.
    destruct (poll_outcome (token_url this) (settlement x)); cbn; auto.
    constructor; [reflexivity |].
    specialize (IH (deliver (in_flight x) (deliver (before x) this))
                   (next_interval s accessToken) a).
    rewrite deliver_app in IH |- *. rewrite pollOptions_deliver in IH.
    destruct (deliver_keeps (before x ++ in_flight x) this) as (_ & K & _).
    rewrite K in IH. exact IH.
  - rewrite while_waiting_done by assumption. constructor.
Qed.

Lemma polling_requests (this : DeviceFlowAuthenticator) (inbox : list Exchange) :
  Forall (fun q => q = pollOptions this (deviceCode this))
         (requests (trace (polling this this inbox))).
Proof.
  unfold polling. rewrite bind_trace, requests_app.
  destruct inbox as [| x rest].
  - rewrite poll_run_nil. cbn. auto.
  - rewrite poll_run. cbn [completion self trace unread requests app].
    constructor; [reflexivity |].
    destruct (poll_outcome (token_url this) (settlement x)); [| constructor ..].
    pose proof (while_waiting_requests rest
                  (deliver (in_flight x) (deliver (before x) this)) (interval this) a) as H.
    rewrite deliver_app in H |- *. rewrite pollOptions_deliver in H.
    destruct (deliver_keeps (before x ++ in_flight x) this) as (_ & K & _).
    rewrite K in H. exact H.
Qed.

(** C10.  When the first poll and the loop end with the flag set and the
    value in hand is a bearer token (anything but the four status strings,
    which is how the code tells a token from a status), the call ends as a
    canceled one: it throws "Request canceled by user." when the flag to
    throw is set and returns [undefined] otherwise, and it sends nothing
    after the polls, so the token goes unused. *)
Theorem cancellation_discards_the_token (this : DeviceFlowAuthenticator)
    (inbox : list Exchange) (token : JSValue) :
  truthy (deviceCode this) = true ->
  let polled := polling this this inbox in
  completion polled = Return token ->
  cancelFlag (self polled) = true ->
  is_status token = false ->
  let r := WaitForPersonalAccessToken this inbox in
  completion r = match throwExceptionOnCancel (self polled) with
                 | Some true => Throw (Error "Request canceled by user.")
                 | _ => Return JUndefined
                 end
  /\ trace r = trace polled
  /\ Forall (fun q => q = pollOptions this (deviceCode this)) (requests (trace r))
  /\ unread r = unread polled
  /\ self r = self polled.
Proof.
  intros Hd polled Hp Hc Ht r.
  assert (E : r = {| completion := canceled (self polled); self := self polled;
                     trace := trace polled; unread := unread polled |}).
  { subst r. unfold WaitForPersonalAccessToken.
    unfold bind at 1. cbn [read_this completion self trace unread app].
    rewrite Hd. cbn [negb].
    unfold bind. fold polled. rewrite Hp.
    unfold is_status in Ht.
    apply orb_false_iff in Ht as [Ht He].
    apply orb_false_iff in Ht as [_ Hb].
    rewrite (after_waiting_canceled token _ _ Hc He Hb).
    cbn [completion self trace unread]. rewrite app_nil_r. reflexivity. }
  rewrite E. cbn [completion self trace unread].
  repeat split. apply polling_requests.
Qed.

(** The loop over turns nobody disturbs, up to the turn [x] into which
    [Cancel] calls fall: the poll of [x] is sent and its value kept, and
    the loop ends there. *)
Lemma while_waiting_until_cancel (waited : list Exchange) :
  forall (this : DeviceFlowAuthenticator) (s : Num) (accessToken : JSValue)
         (x : Exchange) (rest : list Exchange)
         (calls : list (option bool)) (arg : option bool) (v : JSValue),
    still_waiting this accessToken = true ->
    forallb (fun y => undisturbed y && keeps_waiting this y)%bool waited = true ->
    (before x ++ in_flight x)%list = (calls ++ [arg])%list ->
    poll_outcome (token_url this) (settlement x) = Return v ->
    let r := while_waiting (waited ++ x :: rest) this s accessToken in
    completion r = Return v
    /\ self r = deliver (calls ++ [arg]) this
    /\ unread r = rest
    /\ requests (trace r)
       = repeat (pollOptions this (deviceCode this)) (S (List.length waited))
    /\ List.length (sleeps (trace r)) = S (List.length waited).
Proof.
  induction waited as [| y waited IH];
    intros this s accessToken x rest calls arg v W Hq Hcalls Hv.
  - cbv zeta. cbn [app].
    rewrite while_waiting_turn by assumption. rewrite Hv.
    rewrite deliver_app, Hcalls.
    rewrite while_waiting_done
      by (apply canceled_stops_waiting; apply (deliver_snoc calls arg this)).
    cbn. repeat split.
  - cbn [forallb] in Hq. apply andb_true_iff in Hq as [Hy Hq].
    apply andb_true_iff in Hy as [Hu Hk].
    destruct (keeps_waiting_still this y (still_waiting_not_canceled _ _ W) Hk)
      as (status & Hs & W').
    cbv zeta. cbn [app].
    rewrite while_waiting_turn by assumption. rewrite Hs.
    rewrite (undisturbed_self this y Hu).
    destruct (IH this (next_interval s accessToken) status x rest calls arg v
                 W' Hq Hcalls Hv) as (H1 & H2 & H3 & H4 & H5).
    cbn [completion self trace unread requests sleeps List.length repeat].
    rewrite H4, H5. repeat split; assumption.
Qed.

(** C3, as the code has it.  The polls so far said [PENDING] or [BACKOFF]
    and nobody called [Cancel]; then, during a turn (while the loop sleeps
    or while its poll is in flight, or around the first poll), [Cancel] is
    called, the last time with [arg].  The poll of that turn is still sent
    and awaited, and no sleep or request follows it.  If that poll says
    neither [EXPIRED] nor [BADCODE], the call throws "Request canceled by
    user." when [arg] is [true], and returns [undefined] without
    throwing when it is [false] or left out. *)
Theorem cancellation_at_the_boundary (this : DeviceFlowAuthenticator)
    (waited : list Exchange) (x : Exchange) (rest : list Exchange)
    (calls : list (option bool)) (arg : option bool) (v : JSValue) :
  truthy (deviceCode this) = true ->
  cancelFlag this = false ->
  forallb (fun y => undisturbed y && keeps_waiting this y)%bool waited = true ->
  (before x ++ in_flight x)%list = (calls ++ [arg])%list ->
  poll_outcome (token_url this) (settlement x) = Return v ->
  strict_eq_string v DeviceCodeStatus.EXPIRED = false ->
  strict_eq_string v DeviceCodeStatus.BADCODE = false ->
  let r := WaitForPersonalAccessToken this (waited ++ x :: rest)%list in
  completion r = match arg with
                 | Some true => Throw (Error "Request canceled by user.")
                 | _ => Return JUndefined
                 end
  /\ requests (trace r)
     = repeat (pollOptions this (deviceCode this)) (S (List.length waited))
  /\ List.length (sleeps (trace r)) = List.length waited
  /\ unread r = rest.
Proof.
  intros Hd Hc Hq Hcalls Hv He Hb r.
  assert (P : let p := polling this this (waited ++ x :: rest)%list in
              completion p = Return v
              /\ self p = deliver (calls ++ [arg]) this
              /\ unread p = rest
              /\ requests (trace p)
                 = repeat (pollOptions this (deviceCode this)) (S (List.length waited))
              /\ List.length (sleeps (trace p)) = List.length waited).
  { unfold polling, bind. destruct waited as [| y waited]; cbn [app].
    - rewrite poll_run, Hv. cbn [completion self trace unread].
      rewrite deliver_app, Hcalls.
      rewrite while_waiting_done
        by (apply canceled_stops_waiting; apply (deliver_snoc calls arg this)).
      cbn. repeat split.
    - cbn [forallb] in Hq. apply andb_true_iff in Hq as [Hy Hq].
      apply andb_true_iff in Hy as [Hu Hk].
      destruct (keeps_waiting_still this y Hc Hk) as (status & Hs & W).
      rewrite poll_run, Hs. cbn [completion self trace unread].
      rewrite (undisturbed_self this y Hu).
      destruct (while_waiting_until_cancel waited this (interval this) status
                  x rest calls arg v W Hq Hcalls Hv) as (H1 & H2 & H3 & H4 & H5).
      cbn [completion self trace unread requests sleeps List.length repeat app].
      rewrite H4, H5. repeat split; assumption. }
  destruct P as (P1 & P2 & P3 & P4 & P5).
  destruct (deliver_snoc calls arg this) as [Hflag Harg].
  assert (E : r = {| completion := canceled (deliver (calls ++ [arg]) this);
                     self := deliver (calls ++ [arg]) this;
                     trace := trace (polling this this (waited ++ x :: rest)%list);
                     unread := rest |}).
  { subst r. unfold WaitForPersonalAccessToken.
    unfold bind at 1. cbn [read_this completion self trace unread app].
    rewrite Hd. cbn [negb]. unfold bind. rewrite P1, P2, P3.
    rewrite (after_waiting_canceled v (deliver (calls ++ [arg]) this) rest Hflag He Hb).
    cbn [completion self trace unread]. rewrite app_nil_r. reflexivity. }
  rewrite E. cbn [completion self trace unread].
  unfold canceled. rewrite Harg.
  repeat split; assumption.
Qed.

(** *** The tenant header *)

Lemma split_nonempty (sep : ascii) (s : string) : split sep s <> [].
Proof.
  destruct s as [| c rest]; cbn; [discriminate |].
  destruct (Ascii.eqb c sep); [discriminate |].
  destruct (split sep rest); discriminate.
Qed.

(** [split] cuts at the separators and nowhere else: joining the pieces
    with the separator gives the text back. *)
Lemma concat_split (sep : ascii) (s : string) :
  String.concat (String sep EmptyString) (split sep s) = s.
Proof.
  induction s as [| c rest IH]; [reflexivity |].
  cbn [split]. pose proof (split_nonempty sep rest) as Hne.
  destruct (Ascii.eqb c sep) eqn:Hc.
  - apply Ascii.eqb_eq in Hc; subst c.
    destruct (split sep rest) as [| piece pieces]; [congruence |].
    cbn [String.concat] in IH |- *. rewrite IH. reflexivity.
  - destruct (split sep rest) as [| piece pieces]; [congruence |].
    destruct pieces as [| piece' pieces].
    + cbn [String.concat] in IH |- *. rewrite IH. reflexivity.
    + change (String.concat (String sep "") (String c piece :: piece' :: pieces))
        with (String c (piece ++ String sep ""
                        ++ String.concat (String sep "") (piece' :: pieces))).
      change (String.concat (String sep "") (piece :: piece' :: pieces))
        with (piece ++ String sep ""
              ++ String.concat (String sep "") (piece' :: pieces)) in IH.
      rewrite IH. reflexivity.
Qed.

Lemma first_other_than_found (skip : string) (skipped : list string) :
  forall (id : string) (later : list string),
    Forall (fun i => i = skip) skipped ->
    id <> skip ->
    first_other_than skip (skipped ++ id :: later) = Some id.
Proof.
  induction skipped as [| i skipped IH]; intros id later Hall Hid; cbn.
  - apply String.eqb_neq in Hid. rewrite Hid. reflexivity.
  - inversion Hall; subst. rewrite String.eqb_refl. apply IH; assumption.
Qed.

Lemma first_other_than_none (skip : string) (ids : list string) :
  Forall (fun i => i = skip) ids -> first_other_than skip ids = None.
Proof.
  induction 1 as [| i ids Hi _ IH]; [reflexivity |].
  subst i. cbn [first_other_than]. rewrite String.eqb_refl. exact IH.
Qed.


(** Several ids, every one the all-zero id as it stands: the loop assigns
    nothing and [tenantId.trim()] throws. *)
Lemma tenant_of_header_all_empty (resourceUri : string) (value : string) :
  value <> "" ->
  (1 < List.length (split "," value))%nat ->
  Forall (fun i => i = EmptyGuid) (split "," value) ->
  tenant_of_header resourceUri (JString value) = Throw TypeError.
Proof.
  intros Hvalue Hmany Hall.
  apply String.eqb_neq in Hvalue. apply Nat.ltb_lt in Hmany.
  unfold tenant_of_header. cbn [truthy]. rewrite Hvalue, Hmany. cbn [negb].
  rewrite (first_other_than_none EmptyGuid _ Hall). reflexivity.
Qed.

(** *** Construction *)

(** With an (empty) token-options object, the three token fields get
    their defaults. *)
Lemma construction_defaults (uri : string)
    (authOptions : IDeviceFlowAuthenticationOptions.t) :
  uri <> "" ->
  IDeviceFlowAuthenticationOptions.clientId authOptions <> "" ->
  IDeviceFlowAuthenticationOptions.redirectUri authOptions <> "" ->
  exists this,
    constructor uri authOptions
      (Some {| IDeviceFlowTokenOptions.grantType := None;
               IDeviceFlowTokenOptions.tokenScope := None;
               IDeviceFlowTokenOptions.tokenDescription := None |})
    = Return this
    /\ grantType this = "device_code"
    /\ tokenScope this = ""
    /\ tokenDescription this = "vsts-device-flow-auth Personal Access Token".
Proof.
  intros H1 H2 H3.
  apply String.eqb_neq in H1, H2, H3.
  unfold constructor. rewrite H1, H2, H3.
  eexists; repeat split.
Qed.

(** C6, at the input where the code leaves it.  With the third argument
    left out the constructor never returns an object; with a valid account
    endpoint and valid authentication options it throws the [TypeError] of
    reading [grantType] of [undefined]. *)
Theorem construction_without_token_options (uri : string)
    (authOptions : IDeviceFlowAuthenticationOptions.t) :
  succeeded (constructor uri authOptions None) = false
  /\ constructor "https://acct.example.com"
       {| IDeviceFlowAuthenticationOptions.authorityHost := None;
          IDeviceFlowAuthenticationOptions.clientId :=
            "00000000-0000-0000-0000-000000000000";
          IDeviceFlowAuthenticationOptions.redirectUri := "https://some-url.com";
          IDeviceFlowAuthenticationOptions.userAgent := None |}
       None
     = Throw TypeError.
Proof.
  split; [| reflexivity].
  unfold constructor.
  destruct (String.eqb uri ""); [reflexivity |].
  destruct (String.eqb _ ""); [reflexivity |].
  destruct (String.eqb _ ""); reflexivity.
Qed.

(** *** The token-creation request *)

Lemma getIdentityServiceUrl_run (accessToken : JSValue)
    (this : DeviceFlowAuthenticator) (inbox : list Exchange) :
  exists lookup_options,
    trace (getIdentityServiceUrl accessToken this inbox) = [Requested lookup_options]
    /\ method lookup_options = GET
    /\ tokenScope (self (getIdentityServiceUrl accessToken this inbox)) = tokenScope this
    /\ tokenDescription (self (getIdentityServiceUrl accessToken this inbox))
       = tokenDescription this.
Proof.
  unfold getIdentityServiceUrl, bind, read_this, request, lift.
  cbn [completion self trace unread app].
  eexists. destruct inbox as [| x rest]; cbn [completion self trace unread app].
  - repeat split.
  - destruct (deliver_keeps (before x ++ in_flight x) this)
      as (_ & _ & _ & _ & _ & _ & _ & K1 & K2).
    rewrite <- deliver_app in K1, K2.
    destruct (settlement x); cbn [completion self trace unread app];
      repeat split; assumption.
Qed.

(** C8, as the code has it.  The token-creation request is the one POST
    of [getScopedCompactAccessToken].  Its body has the configured scope,
    the token description as [displayName], and as [targetAccounts] a
    string: the identity id between double quotes and square brackets,
    which is the text of a one-element array, not an array. *)
Theorem token_request_body (accessToken userId : JSValue)
    (this : DeviceFlowAuthenticator) (inbox : list Exchange)
    (options : RequestOptions) :
  In options (requests (trace (getScopedCompactAccessToken accessToken userId this inbox))) ->
  method options = POST ->
  payload options
  = JsonBody
      [ ("scope", JString (tokenScope this));
        ("targetAccounts",
         JString ("[" ++ double_quote ++ ToString userId ++ double_quote ++ "]"));
        ("displayName", JString (tokenDescription this)) ].
Proof.
  unfold getScopedCompactAccessToken. rewrite bind_trace, requests_app.
  destruct (getIdentityServiceUrl_run accessToken this inbox)
    as (lookup_options & Htrace & Hget & Hscope & Hdesc).
  rewrite Htrace. cbn [requests app].
  intros [H | H] Hpost; [subst options; congruence |].
  destruct (completion (getIdentityServiceUrl accessToken this inbox))
    as [identityUrl | |]; try contradiction.
  rewrite bind_trace in H. cbn [read_this completion self trace unread app] in H.
  rewrite bind_trace, request_trace in H.
  rewrite requests_app in H. cbn [requests app] in H.
  destruct H as [H | H].
  - subst options. cbn [sessionTokenOptions payload]. rewrite Hscope, Hdesc.
    reflexivity.
  - destruct (completion (request _ _ _)); contradiction.
Qed.
(* ================================================================== *)
(** ** Further properties of the methods *)

(** *** The account endpoint and the constructor *)

Lemma last_char_snoc (s : string) (c : ascii) :
  last_char (s ++ String c EmptyString) = Some c.
Proof.
  induction s as [| d s IH]; [reflexivity |].
  cbn [append last_char]. rewrite IH.
  destruct (s ++ String c EmptyString) eqn:E; [| reflexivity].
  destruct s; discriminate.
Qed.

Lemma addTrailingSeparator_ends (path : string) (separator : ascii) :
  last_char (addTrailingSeparator path separator) = Some separator.
Proof.
  unfold addTrailingSeparator.
  destruct (last_char path) as [c |] eqn:E; [| apply last_char_snoc].
  destruct (Ascii.eqb c separator) eqn:Ec; [| apply last_char_snoc].
  apply Ascii.eqb_eq in Ec. congruence.
Qed.

(** [addTrailingSeparator]: the result ends with the separator; a path
    that ends with it comes back as it is, any other path (the empty one
    too) gets the one character appended; applying it again changes
    nothing. *)
Theorem addTrailingSeparator_normalizes (path : string) (separator : ascii) :
  last_char (addTrailingSeparator path separator) = Some separator
  /\ (last_char path = Some separator ->
      addTrailingSeparator path separator = path)
  /\ (last_char path <> Some separator ->
      addTrailingSeparator path separator = path ++ String separator EmptyString)
  /\ addTrailingSeparator (addTrailingSeparator path separator) separator
     = addTrailingSeparator path separator.
Proof.
  pose proof (addTrailingSeparator_ends path separator) as ends.
  split; [exact ends |]. split; [| split].
  - intros H. unfold addTrailingSeparator. rewrite H, Ascii.eqb_refl. reflexivity.
  - intros H. unfold addTrailingSeparator.
    destruct (last_char path) as [c |]; [| reflexivity].
    destruct (Ascii.eqb c separator) eqn:Ec; [| reflexivity].
    apply Ascii.eqb_eq in Ec. congruence.
  - unfold addTrailingSeparator at 1. rewrite ends, Ascii.eqb_refl. reflexivity.
Qed.

(** The constructor tests the account endpoint first, then the client id,
    then the redirect URI, and only then touches the token options.  It
    returns an object exactly when the three strings are non-empty and the
    token options are there. *)
Theorem constructor_validates (uri : string)
    (authOptions : IDeviceFlowAuthenticationOptions.t)
    (tokenOptions : option IDeviceFlowTokenOptions.t) :
  let built := constructor uri authOptions tokenOptions in
  (uri = "" -> built = Throw (Error "resourceUri must have a value"))
  /\ (uri <> "" ->
      IDeviceFlowAuthenticationOptions.clientId authOptions = "" ->
      built = Throw (Error "authOptions.clientId must have a value"))
  /\ (uri <> "" ->
      IDeviceFlowAuthenticationOptions.clientId authOptions <> "" ->
      IDeviceFlowAuthenticationOptions.redirectUri authOptions = "" ->
      built = Throw (Error "authOptions.redirectUri must have a value"))
  /\ (succeeded built = true <->
      uri <> ""
      /\ IDeviceFlowAuthenticationOptions.clientId authOptions <> ""
      /\ IDeviceFlowAuthenticationOptions.redirectUri authOptions <> ""
      /\ tokenOptions <> None).
Proof.
  cbv zeta. unfold constructor.
  destruct (String.eqb_spec uri "") as [Hu | Hu].
  { repeat split; try congruence; try discriminate. intros (H & _); congruence. }
  destruct (String.eqb_spec (IDeviceFlowAuthenticationOptions.clientId authOptions) "")
    as [Hc | Hc].
  { repeat split; try congruence; try discriminate. intros (_ & H & _); congruence. }
  destruct (String.eqb_spec (IDeviceFlowAuthenticationOptions.redirectUri authOptions) "")
    as [Hr | Hr].
  { repeat split; try congruence; try discriminate. intros (_ & _ & H & _); congruence. }
  destruct tokenOptions as [tokenOptions |].
  - repeat split; try congruence; try discriminate.
  - repeat split; try congruence; try discriminate. intros (_ & _ & _ & H); congruence.
Qed.

Lemma or_else_spec (a : option string) (b : string) :
  (forall s, a = Some s -> s <> "" -> or_else a b = s)
  /\ (a = None \/ a = Some "" -> or_else a b = b).
Proof.
  split.
  - intros s -> Hs. unfold or_else. apply String.eqb_neq in Hs. rewrite Hs. reflexivity.
  - intros [-> | ->]; reflexivity.
Qed.

(** What the constructor builds: the endpoint with its separator, the
    required strings as given, each optional string as given when it is
    there and not empty and its default otherwise (an empty string counts
    as left out), and an empty session: no tenant, no device code, 5 s
    between polls, the flag down. *)
Theorem constructor_builds (uri : string)
    (authOptions : IDeviceFlowAuthenticationOptions.t)
    (tokenOptions : option IDeviceFlowTokenOptions.t)
    (this : DeviceFlowAuthenticator) :
  constructor uri authOptions tokenOptions = Return this ->
  exists options,
    tokenOptions = Some options
    /\ resourceUri this = addTrailingSeparator uri "/"
    /\ last_char (resourceUri this) = Some "/"%char
    /\ clientId this = IDeviceFlowAuthenticationOptions.clientId authOptions
    /\ redirectUri this = IDeviceFlowAuthenticationOptions.redirectUri authOptions
    /\ authorityHost this
       = or_else (IDeviceFlowAuthenticationOptions.authorityHost authOptions)
                 "https://management.core.windows.net/"
    /\ userAgent this
       = or_else (IDeviceFlowAuthenticationOptions.userAgent authOptions)
                 getDefaultUserAgent
    /\ grantType this
       = or_else (IDeviceFlowTokenOptions.grantType options) "device_code"
    /\ tokenScope this = or_else (IDeviceFlowTokenOptions.tokenScope options) ""
    /\ tokenDescription this
       = or_else (IDeviceFlowTokenOptions.tokenDescription options)
                 "vsts-device-flow-auth Personal Access Token"
    /\ tenantId this = None /\ deviceCode this = JUndefined
    /\ interval this = Int 5000 /\ expiresIn this = Int 900000
    /\ cancelFlag this = false /\ throwExceptionOnCancel this = Some false.
Proof.
  unfold constructor.
  destruct (String.eqb uri ""); [discriminate |].
  destruct (String.eqb _ ""); [discriminate |].
  destruct (String.eqb _ ""); [discriminate |].
  destruct tokenOptions as [options |]; [| discriminate].
  intros H; inversion H; subst; clear H. exists options.
  cbn [resourceUri clientId redirectUri authorityHost userAgent grantType tokenScope
       tokenDescription tenantId deviceCode interval expiresIn cancelFlag
       throwExceptionOnCancel].
  repeat split.
  apply addTrailingSeparator_ends.
Qed.
(** *** What a method may change in the receiver *)

Section Preserved.

(** A relation between the receiver before and after, kept by [Cancel]. *)
Variable R : DeviceFlowAuthenticator -> DeviceFlowAuthenticator -> Prop.
Hypothesis R_refl : forall a, R a a.
Hypothesis R_trans : forall a b c, R a b -> R b c -> R a c.
Hypothesis R_Cancel : forall arg a, R a (Cancel arg a).

Definition preserves {A} (m : Async A) : Prop :=
  forall this inbox, R this (self (m this inbox)).

Lemma R_deliver (calls : list (option bool)) :
  forall a, R a (deliver calls a).
Proof.
  induction calls as [| arg calls IH]; intros a; [apply R_refl |].
  rewrite deliver_cons. eapply R_trans; [apply R_Cancel | apply IH].
Qed.

Lemma preserves_lift {A} (c : Completion A) : preserves (lift c).
Proof. intros this inbox. apply R_refl. Qed.

Lemma preserves_read_this : preserves read_this.
Proof. intros this inbox. apply R_refl. Qed.

Lemma preserves_sleep (ms : Num) : preserves (sleep ms).
Proof. intros this inbox. apply R_refl. Qed.

Lemma preserves_request (options : RequestOptions) : preserves (request options).
Proof.
  intros this [| x rest]; cbn [request self]; [apply R_refl |].
  eapply R_trans; apply R_deliver.
Qed.

Lemma preserves_bind {A B} (m : Async A) (k : A -> Async B) :
  preserves m -> (forall a, preserves (k a)) -> preserves (bind m k).
Proof.
  intros Hm Hk this inbox.
  destruct (completion (m this inbox)) as [a | e |] eqn:E.
  - destruct (bind_returns m k this inbox a E) as (_ & -> & _).
    eapply R_trans; [apply Hm | apply Hk].
  - destruct (bind_throws m k this inbox e E) as (_ & -> & _). apply Hm.
  - destruct (bind_awaits m k this inbox E) as (_ & -> & _). apply Hm.
Qed.

Lemma preserves_catch {A} (m : Async A) (handler : JSValue -> Async A) :
  preserves m -> (forall e, preserves (handler e)) -> preserves (catch m handler).
Proof.
  intros Hm Hh this inbox. unfold catch.
  destruct (completion (m this inbox)) as [a | e |] eqn:E; try apply Hm.
  cbn [self]. eapply R_trans; [apply Hm | apply Hh].
Qed.

Ltac preserving :=
  repeat lazymatch goal with
  | |- preserves (bind _ _) => apply preserves_bind; [| intros ?; cbv beta zeta]
  | |- preserves (catch _ _) => apply preserves_catch; [| intros ?; cbv beta zeta]
  | |- preserves (lift _) => apply preserves_lift
  | |- preserves read_this => apply preserves_read_this
  | |- preserves (request _) => apply preserves_request
  | |- preserves (sleep _) => apply preserves_sleep
  | |- preserves (if ?b then _ else _) => destruct b
  | |- preserves (match ?x with _ => _ end) => destruct x
  end.

Lemma preserves_getTenantId : preserves getTenantId.
Proof. unfold getTenantId. preserving. Qed.

Lemma preserves_waitOnResponseAccessToken (code : JSValue) :
  preserves (waitOnResponseAccessToken code).
Proof. unfold waitOnResponseAccessToken. preserving. Qed.

Lemma preserves_while_waiting (inbox : list Exchange) :
  forall (this : DeviceFlowAuthenticator) (s : Num) (accessToken : JSValue),
    R this (self (while_waiting inbox this s accessToken)).
Proof.
  induction inbox as [| x rest IH]; intros this s accessToken;
    destruct (still_waiting this accessToken) eqn:W.
  - rewrite while_waiting_starved by assumption. apply R_refl.
  - rewrite while_waiting_done by assumption. apply R_refl.
  - rewrite while_waiting_turn by assumption.
    destruct (poll_outcome (token_url this) (settlement x)); cbn [self];
      try (eapply R_trans; apply R_deliver).
    eapply R_trans; [| apply IH]. eapply R_trans; apply R_deliver.
  - rewrite while_waiting_done by assumption. apply R_refl.
Qed.

Lemma preserves_polling (entered : DeviceFlowAuthenticator) :
  preserves (polling entered).
Proof.
  unfold polling. cbv zeta. apply preserves_bind.
  - apply preserves_waitOnResponseAccessToken.
  - intros accessToken this inbox. apply preserves_while_waiting.
Qed.

Lemma preserves_getAuthenticatedUserId (accessToken : JSValue) :
  preserves (getAuthenticatedUserId accessToken).
Proof. unfold getAuthenticatedUserId. preserving. Qed.

Lemma preserves_getIdentityServiceUrl (accessToken : JSValue) :
  preserves (getIdentityServiceUrl accessToken).
Proof. unfold getIdentityServiceUrl. preserving. Qed.

Lemma preserves_getScopedCompactAccessToken (accessToken userId : JSValue) :
  preserves (getScopedCompactAccessToken accessToken userId).
Proof.
  unfold getScopedCompactAccessToken.
  apply preserves_bind; [apply preserves_getIdentityServiceUrl |].
  intros identityUrl. preserving.
Qed.

Lemma preserves_after_waiting (accessToken : JSValue) :
  preserves (after_waiting accessToken).
Proof.
  unfold after_waiting, throw, ret.
  apply preserves_bind; [apply preserves_read_this |].
  intros this. cbv beta.
  destruct (strict_eq_string accessToken DeviceCodeStatus.EXPIRED);
    [apply preserves_lift |].
  destruct (strict_eq_string accessToken DeviceCodeStatus.BADCODE);
    [apply preserves_lift |].
  destruct (cancelFlag this).
  - destruct (throwExceptionOnCancel this) as [[|] |]; apply preserves_lift.
  - apply preserves_bind; [apply preserves_getAuthenticatedUserId |].
    intros userId.
    apply preserves_bind; [apply preserves_getScopedCompactAccessToken |].
    intros token. apply preserves_lift.
Qed.

Lemma preserves_WaitForPersonalAccessToken : preserves WaitForPersonalAccessToken.
Proof.
  unfold WaitForPersonalAccessToken, throw.
  apply preserves_bind; [apply preserves_read_this |].
  intros this. cbv beta.
  destruct (negb (truthy (deviceCode this))); [apply preserves_lift |].
  apply preserves_bind; [apply preserves_polling |].
  intros accessToken. apply preserves_after_waiting.
Qed.

(** The assignments of [GetDeviceFlowDetails] need the relation to allow
    them. *)
Hypothesis R_assigned :
  forall a,
    (forall v, R a (with_tenantId v a))
    /\ (forall v, R a (with_deviceCode v a))
    /\ (forall v, R a (with_interval v a))
    /\ (forall v, R a (with_expiresIn v a)).

Lemma preserves_GetDeviceFlowDetails : preserves GetDeviceFlowDetails.
Proof.
  assert (assigned : forall f,
             (forall a, R a (f a)) -> preserves (assign f))
    by (intros f Hf this inbox; apply Hf).
  unfold GetDeviceFlowDetails.
  apply preserves_bind; [apply preserves_getTenantId |].
  intros tenant.
  apply preserves_bind; [apply assigned; intros a; apply (R_assigned a) |].
  intros _. unfold issueDeviceCode.
  apply preserves_bind; [apply preserves_read_this |].
  intros this. apply preserves_bind; [apply preserves_request |].
  intros body. unfold store_details, ret.
  apply preserves_bind; [apply preserves_lift |]. intros json.
  apply preserves_bind; [apply preserves_lift |]. intros code.
  apply preserves_bind; [apply assigned; intros a; apply (R_assigned a) |]. intros _.
  apply preserves_bind; [apply preserves_lift |]. intros seconds.
  apply preserves_bind; [apply assigned; intros a; apply (R_assigned a) |]. intros _.
  apply preserves_bind; [apply preserves_lift |]. intros expires_in.
  apply preserves_bind; [apply assigned; intros a; apply (R_assigned a) |]. intros _.
  preserving.
Qed.

End Preserved.
(** *** The receiver after a wait *)

(** [WaitForPersonalAccessToken] leaves the session as it found it: what
    differs afterwards is what the [Cancel] calls made meanwhile have set.
    The interval in particular is not touched: the back-off lives in a
    local variable, and a later call starts again from the stored
    interval, with the same device code. *)
Theorem wait_keeps_the_session (this : DeviceFlowAuthenticator)
    (inbox : list Exchange) :
  let after := self (WaitForPersonalAccessToken this inbox) in
  (exists calls, after = deliver calls this)
  /\ interval after = interval this
  /\ deviceCode after = deviceCode this
  /\ tenantId after = tenantId this
  /\ resourceUri after = resourceUri this.
Proof.
  cbv zeta.
  destruct (preserves_WaitForPersonalAccessToken
              (fun a b => exists calls, b = deliver calls a)
              (fun a => ex_intro _ [] eq_refl)
              (fun a b c '(ex_intro _ c1 H1) '(ex_intro _ c2 H2) =>
                 ex_intro _ (c1 ++ c2)%list
                   (eq_trans H2 (eq_trans (f_equal (deliver c2) H1) (deliver_app c1 c2 a))))
              (fun arg a => ex_intro _ [arg] eq_refl)
              this inbox) as [calls E].
  split; [exists calls; exact E |].
  rewrite E.
  destruct (deliver_keeps calls this) as (Ht & Hd & Hr & _ & _ & _ & Hi & _).
  repeat split; assumption.
Qed.

Lemma deliver_stays_canceled (calls : list (option bool)) :
  forall this, cancelFlag this = true -> cancelFlag (deliver calls this) = true.
Proof.
  induction calls as [| arg calls IH]; intros this H; [exact H |].
  rewrite deliver_cons. apply IH. reflexivity.
Qed.

Lemma after_waiting_when_canceled (accessToken : JSValue)
    (this : DeviceFlowAuthenticator) (inbox : list Exchange) :
  cancelFlag this = true ->
  trace (after_waiting accessToken this inbox) = []
  /\ (forall v, completion (after_waiting accessToken this inbox) = Return v ->
                v = JUndefined).
Proof.
  intros Hc. unfold after_waiting, throw, ret. rewrite bind_read_this. cbv beta.
  destruct (strict_eq_string accessToken DeviceCodeStatus.EXPIRED);
    [split; [reflexivity | discriminate] |].
  destruct (strict_eq_string accessToken DeviceCodeStatus.BADCODE);
    [split; [reflexivity | discriminate] |].
  rewrite Hc.
  destruct (throwExceptionOnCancel this) as [[|] |]; cbn [lift completion trace];
    (split; [reflexivity |]); intros v H; inversion H; reflexivity.
Qed.

Lemma polling_when_canceled (this : DeviceFlowAuthenticator) (inbox : list Exchange) :
  cancelFlag this = true ->
  trace (polling this this inbox) = [Requested (pollOptions this (deviceCode this))]
  /\ cancelFlag (self (polling this this inbox)) = true.
Proof.
  intros Hc.
  pose (k := fun (accessToken : JSValue) (this' : DeviceFlowAuthenticator)
                 (inbox' : list Exchange) =>
               while_waiting inbox' this' (interval this) accessToken).
  change (polling this) with (bind (waitOnResponseAccessToken (deviceCode this)) k).
  destruct inbox as [| x rest].
  - destruct (bind_awaits (waitOnResponseAccessToken (deviceCode this)) k this [])
      as (_ & -> & -> & _); [rewrite poll_run_nil; reflexivity |].
    rewrite poll_run_nil. split; [reflexivity | exact Hc].
  - assert (Hc' : cancelFlag (deliver (in_flight x) (deliver (before x) this)) = true)
      by (do 2 apply deliver_stays_canceled; exact Hc).
    destruct (poll_outcome (token_url this) (settlement x)) as [v | e |] eqn:Hv.
    + destruct (bind_returns (waitOnResponseAccessToken (deviceCode this)) k
                  this (x :: rest) v) as (_ & -> & -> & _);
        [rewrite poll_run; exact Hv |].
      rewrite poll_run. cbn [self unread trace]. unfold k.
      rewrite while_waiting_done by (apply canceled_stops_waiting; exact Hc').
      split; [reflexivity | exact Hc'].
    + destruct (bind_throws (waitOnResponseAccessToken (deviceCode this)) k
                  this (x :: rest) e) as (_ & -> & -> & _);
        [rewrite poll_run; exact Hv |].
      rewrite poll_run. split; [reflexivity | exact Hc'].
    + destruct (bind_awaits (waitOnResponseAccessToken (deviceCode this)) k
                  this (x :: rest)) as (_ & -> & -> & _);
        [rewrite poll_run; exact Hv |].
      rewrite poll_run. split; [reflexivity | exact Hc'].
Qed.

(** Nothing lowers the flag again: [GetDeviceFlowDetails] and
    [WaitForPersonalAccessToken] both leave it up.  So on an authenticator
    on which [Cancel] has been called, every later wait sends its first
    poll, never sleeps, sends nothing else, and never returns a token: it
    throws, or returns [undefined]. *)
Theorem canceled_for_good (this : DeviceFlowAuthenticator)
    (inbox : list Exchange) :
  cancelFlag this = true ->
  cancelFlag (self (GetDeviceFlowDetails this inbox)) = true
  /\ cancelFlag (self (WaitForPersonalAccessToken this inbox)) = true
  /\ (truthy (deviceCode this) = true ->
      trace (WaitForPersonalAccessToken this inbox)
      = [Requested (pollOptions this (deviceCode this))]
      /\ (forall v, completion (WaitForPersonalAccessToken this inbox) = Return v ->
                    v = JUndefined)).
Proof.
  intros Hc.
  pose (R := fun a b : DeviceFlowAuthenticator =>
               cancelFlag a = true -> cancelFlag b = true).
  assert (R_refl : forall a, R a a) by (intros a H; exact H).
  assert (R_trans : forall a b c, R a b -> R b c -> R a c)
    by (intros a b c H1 H2 H; apply H2, H1, H).
  assert (R_Cancel : forall arg a, R a (Cancel arg a)) by (intros arg a _; reflexivity).
  assert (R_assigned : forall a,
             (forall v, R a (with_tenantId v a))
             /\ (forall v, R a (with_deviceCode v a))
             /\ (forall v, R a (with_interval v a))
             /\ (forall v, R a (with_expiresIn v a)))
    by (intros a; repeat split; intros v H; exact H).
  split; [| split].
  - exact (preserves_GetDeviceFlowDetails R R_refl R_trans R_Cancel R_assigned
             this inbox Hc).
  - exact (preserves_WaitForPersonalAccessToken R R_refl R_trans R_Cancel
             this inbox Hc).
  - intros Hd.
    destruct (polling_when_canceled this inbox Hc) as [Ht Hf].
    pose (k := fun accessToken : JSValue => after_waiting accessToken).
    assert (E : WaitForPersonalAccessToken this inbox = bind (polling this) k this inbox).
    { unfold WaitForPersonalAccessToken. rewrite bind_read_this. cbv beta.
      rewrite Hd. reflexivity. }
    rewrite E.
    destruct (completion (polling this this inbox)) as [v | e |] eqn:Hp.
    + destruct (bind_returns (polling this) k this inbox v Hp) as (-> & _ & -> & _).
      unfold k.
      destruct (after_waiting_when_canceled v _ (unread (polling this this inbox)) Hf)
        as [Hnone Hret].
      rewrite Hnone, Ht. split; [reflexivity | exact Hret].
    + destruct (bind_throws (polling this) k this inbox e Hp) as (-> & _ & -> & _).
      rewrite Ht. split; [reflexivity | discriminate].
    + destruct (bind_awaits (polling this) k this inbox Hp) as (-> & _ & -> & _).
      rewrite Ht. split; [reflexivity | discriminate].
Qed.

(** *** The shape of the polling *)

Lemma while_waiting_shape (inbox : list Exchange) :
  forall (this : DeviceFlowAuthenticator) (s : Num) (accessToken : JSValue),
    trace (while_waiting inbox this s accessToken)
    = flat_map (fun ms => [Slept ms; Requested (pollOptions this (deviceCode this))])
               (sleeps (trace (while_waiting inbox this s accessToken))).
Proof.
  induction inbox as [| x rest IH]; intros this s accessToken;
    destruct (still_waiting this accessToken) eqn:W.
  - rewrite while_waiting_starved by assumption. reflexivity.
  - rewrite while_waiting_done by assumption. reflexivity.
  - rewrite while_waiting_turn by assumption.
    destruct (poll_outcome (token_url this) (settlement x)) as [v | e |];
      try reflexivity.
    cbn [trace sleeps flat_map app]. do 2 f_equal.
    rewrite IH at 1.
    rewrite deliver_app, pollOptions_deliver.
    destruct (deliver_keeps (before x ++ in_flight x) this) as (_ & -> & _).
    reflexivity.
  - rewrite while_waiting_done by assumption. reflexivity.
Qed.

Lemma WaitForPersonalAccessToken_trace (this : DeviceFlowAuthenticator)
    (inbox : list Exchange) :
  truthy (deviceCode this) = true ->
  trace (WaitForPersonalAccessToken this inbox)
  = (trace (polling this this inbox)
     ++ match completion (polling this this inbox) with
        | Return accessToken =>
            trace (after_waiting accessToken (self (polling this this inbox))
                     (unread (polling this this inbox)))
        | _ => []
        end)%list.
Proof.
  intros Hd. unfold WaitForPersonalAccessToken. rewrite bind_read_this. cbv beta.
  rewrite Hd. cbn [negb]. apply bind_trace.
Qed.

Lemma polling_shape (this : DeviceFlowAuthenticator) (inbox : list Exchange) :
  trace (polling this this inbox)
  = Requested (pollOptions this (deviceCode this))
    :: flat_map (fun ms => [Slept ms; Requested (pollOptions this (deviceCode this))])
                (sleeps (trace (polling this this inbox))).
Proof.
  unfold polling. cbv zeta. rewrite bind_trace.
  destruct inbox as [| x rest]; [rewrite poll_run_nil; reflexivity |].
  rewrite poll_run. cbn [completion self trace unread app sleeps].
  f_equal.
  destruct (poll_outcome (token_url this) (settlement x)) as [v | e |];
    try reflexivity.
  rewrite while_waiting_shape at 1.
  rewrite deliver_app, pollOptions_deliver.
  destruct (deliver_keeps (before x ++ in_flight x) this) as (_ & -> & _).
  reflexivity.
Qed.

(** The trace of a wait that passed its guard: the first poll, then a
    sleep and a poll for every turn of the loop, every poll with the same
    options, then what follows the loop, in which nothing sleeps.  So two
    polls are never sent without a sleep between them, and a sleep is
    always followed by a poll. *)
Theorem wait_polls_between_sleeps (this : DeviceFlowAuthenticator)
    (inbox : list Exchange) :
  truthy (deviceCode this) = true ->
  let r := WaitForPersonalAccessToken this inbox in
  let poll := Requested (pollOptions this (deviceCode this)) in
  exists later,
    trace r = (poll :: flat_map (fun ms => [Slept ms; poll]) (sleeps (trace r))
               ++ later)%list
    /\ sleeps later = [].
Proof.
  intros Hd r poll. subst r.
  rewrite (WaitForPersonalAccessToken_trace this inbox Hd).
  set (later := match completion (polling this this inbox) with
                | Return accessToken =>
                    trace (after_waiting accessToken (self (polling this this inbox))
                             (unread (polling this this inbox)))
                | _ => []
                end).
  assert (Hl : sleeps later = []).
  { subst later. destruct (completion (polling this this inbox));
      [apply after_waiting_no_sleep | reflexivity ..]. }
  exists later. split; [| exact Hl].
  rewrite sleeps_app, Hl, app_nil_r. rewrite polling_shape at 1. reflexivity.
Qed.
(** *** How a wait ends *)

(** The loop over turns nobody disturbs, up to a turn whose poll ends it:
    a poll that fails, or a value with which the guard, read after the
    [Cancel] calls of the turn, no longer holds. *)
Lemma while_waiting_ends_at (waited : list Exchange) :
  forall (this : DeviceFlowAuthenticator) (s : Num) (accessToken : JSValue)
         (x : Exchange) (rest : list Exchange),
    still_waiting this accessToken = true ->
    forallb (fun y => undisturbed y && keeps_waiting this y)%bool waited = true ->
    (forall v, poll_outcome (token_url this) (settlement x) = Return v ->
               still_waiting (deliver (in_flight x) (deliver (before x) this)) v = false) ->
    let r := while_waiting (waited ++ x :: rest) this s accessToken in
    completion r = poll_outcome (token_url this) (settlement x)
    /\ self r = deliver (in_flight x) (deliver (before x) this)
    /\ unread r = rest
    /\ requests (trace r)
       = repeat (pollOptions this (deviceCode this)) (S (List.length waited))
    /\ List.length (sleeps (trace r)) = S (List.length waited).
Proof.
  induction waited as [| y waited IH]; intros this s accessToken x rest W Hq Hend.
  - cbv zeta. cbn [app].
    rewrite while_waiting_turn by assumption.
    destruct (poll_outcome (token_url this) (settlement x)) as [v | e |] eqn:Hv;
      [rewrite while_waiting_done by (apply Hend; reflexivity) | |];
      cbn; repeat split.
  - cbn [forallb] in Hq. apply andb_true_iff in Hq as [Hy Hq].
    apply andb_true_iff in Hy as [Hu Hk].
    destruct (keeps_waiting_still this y (still_waiting_not_canceled _ _ W) Hk)
      as (status & Hs & W').
    cbv zeta. cbn [app].
    rewrite while_waiting_turn by assumption. rewrite Hs.
    rewrite (undisturbed_self this y Hu).
    destruct (IH this (next_interval s accessToken) status x rest W' Hq Hend)
      as (H1 & H2 & H3 & H4 & H5).
    cbn [completion self trace unread requests sleeps List.length repeat].
    rewrite H4, H5. repeat split; assumption.
Qed.

Lemma polling_ends_at (this : DeviceFlowAuthenticator) (waited : list Exchange)
    (x : Exchange) (rest : list Exchange) :
  cancelFlag this = false ->
  forallb (fun y => undisturbed y && keeps_waiting this y)%bool waited = true ->
  (forall v, poll_outcome (token_url this) (settlement x) = Return v ->
             still_waiting (deliver (in_flight x) (deliver (before x) this)) v = false) ->
  let p := polling this this (waited ++ x :: rest)%list in
  completion p = poll_outcome (token_url this) (settlement x)
  /\ self p = deliver (in_flight x) (deliver (before x) this)
  /\ unread p = rest
  /\ requests (trace p)
     = repeat (pollOptions this (deviceCode this)) (S (List.length waited))
  /\ List.length (sleeps (trace p)) = List.length waited.
Proof.
  intros Hc Hq Hend. unfold polling, bind. destruct waited as [| y waited]; cbn [app].
  - rewrite poll_run. cbn [completion self trace unread].
    destruct (poll_outcome (token_url this) (settlement x)) as [v | e |] eqn:Hv;
      [rewrite while_waiting_done by (apply Hend; reflexivity) | |];
      cbn; repeat split.
  - cbn [forallb] in Hq. apply andb_true_iff in Hq as [Hy Hq].
    apply andb_true_iff in Hy as [Hu Hk].
    destruct (keeps_waiting_still this y Hc Hk) as (status & Hs & W).
    rewrite poll_run, Hs. cbn [completion self trace unread].
    rewrite (undisturbed_self this y Hu).
    destruct (while_waiting_ends_at waited this (interval this) status x rest
                W Hq Hend) as (H1 & H2 & H3 & H4 & H5).
    cbn [completion self trace unread requests sleeps List.length repeat app].
    rewrite H4, H5. repeat split; assumption.
Qed.

Lemma while_waiting_starves (waited : list Exchange) :
  forall (this : DeviceFlowAuthenticator) (s : Num) (accessToken : JSValue),
    still_waiting this accessToken = true ->
    forallb (fun y => undisturbed y && keeps_waiting this y)%bool waited = true ->
    let r := while_waiting waited this s accessToken in
    completion r = Awaiting
    /\ requests (trace r)
       = repeat (pollOptions this (deviceCode this)) (S (List.length waited))
    /\ List.length (sleeps (trace r)) = S (List.length waited).
Proof.
  induction waited as [| y waited IH]; intros this s accessToken W Hq.
  - cbv zeta. rewrite while_waiting_starved by assumption. repeat split.
  - cbn [forallb] in Hq. apply andb_true_iff in Hq as [Hy Hq].
    apply andb_true_iff in Hy as [Hu Hk].
    destruct (keeps_waiting_still this y (still_waiting_not_canceled _ _ W) Hk)
      as (status & Hs & W').
    cbv zeta. rewrite while_waiting_turn by assumption. rewrite Hs.
    rewrite (undisturbed_self this y Hu).
    destruct (IH this (next_interval s accessToken) status W' Hq) as (H1 & H2 & H3).
    cbn [completion self trace unread requests sleeps List.length repeat].
    rewrite H2, H3. repeat split; assumption.
Qed.

Lemma WaitForPersonalAccessToken_bind (this : DeviceFlowAuthenticator)
    (inbox : list Exchange) :
  truthy (deviceCode this) = true ->
  WaitForPersonalAccessToken this inbox
  = bind (polling this) (fun accessToken => after_waiting accessToken) this inbox.
Proof.
  intros Hd. unfold WaitForPersonalAccessToken. rewrite bind_read_this. cbv beta.
  rewrite Hd. reflexivity.
Qed.

(** An expired or a wrong code ends the wait with its own error, after
    the poll that reported it, whether or not [Cancel] was called during
    that turn: one poll per answer received, one sleep between two polls,
    and nothing read or sent afterwards. *)
Theorem wait_reports_expiry_and_bad_code (this : DeviceFlowAuthenticator)
    (waited : list Exchange) (x : Exchange) (rest : list Exchange)
    (status : JSValue) :
  truthy (deviceCode this) = true ->
  cancelFlag this = false ->
  forallb (fun y => undisturbed y && keeps_waiting this y)%bool waited = true ->
  poll_outcome (token_url this) (settlement x) = Return status ->
  (strict_eq_string status DeviceCodeStatus.EXPIRED
   || strict_eq_string status DeviceCodeStatus.BADCODE)%bool = true ->
  let r := WaitForPersonalAccessToken this (waited ++ x :: rest)%list in
  completion r
  = Throw (Error ((if strict_eq_string status DeviceCodeStatus.EXPIRED
                   then "Verification code expired for "
                   else "Incorrect verification code entered for ")
                  ++ resourceUri this ++ ". Could not get an access token."))
  /\ requests (trace r)
     = repeat (pollOptions this (deviceCode this)) (S (List.length waited))
  /\ List.length (sleeps (trace r)) = List.length waited
  /\ unread r = rest.
Proof.
  intros Hd Hc Hq Hv Hs r. subst r.
  assert (Hend : forall v, poll_outcome (token_url this) (settlement x) = Return v ->
                   still_waiting (deliver (in_flight x) (deliver (before x) this)) v
                   = false).
  { intros v Hv'. rewrite Hv in Hv'. inversion Hv'; subst v.
    unfold still_waiting.
    destruct status as [| | | | s | |]; try discriminate.
    cbn in Hs |- *.
    destruct (String.eqb s DeviceCodeStatus.EXPIRED) eqn:E1;
      [rewrite andb_false_r; reflexivity |].
    cbn in Hs. apply String.eqb_eq in Hs; subst s.
    rewrite andb_false_r. reflexivity. }
  destruct (polling_ends_at this waited x rest Hc Hq Hend) as (P1 & P2 & P3 & P4 & P5).
  rewrite Hv in P1.
  rewrite (WaitForPersonalAccessToken_bind _ _ Hd).
  destruct (bind_returns (polling this) (fun accessToken => after_waiting accessToken)
              this (waited ++ x :: rest)%list status P1) as (-> & _ & -> & ->).
  rewrite P2, P3.
  assert (E : after_waiting status (deliver (in_flight x) (deliver (before x) this)) rest
              = {| completion :=
                     Throw (Error ((if strict_eq_string status DeviceCodeStatus.EXPIRED
                                    then "Verification code expired for "
                                    else "Incorrect verification code entered for ")
                                   ++ resourceUri this
                                   ++ ". Could not get an access token."));
                   self := deliver (in_flight x) (deliver (before x) this);
                   trace := []; unread := rest |}).
  { unfold after_waiting, throw. rewrite bind_read_this. cbv beta.
    rewrite deliver_app.
    destruct (deliver_keeps (before x ++ in_flight x) this) as (_ & _ & -> & _).
    destruct (strict_eq_string status DeviceCodeStatus.EXPIRED); [reflexivity |].
    cbn [orb] in Hs. rewrite Hs. reflexivity. }
  rewrite E. cbn [completion self trace unread].
  rewrite requests_app, sleeps_app, length_app, P4, P5. cbn.
  rewrite app_nil_r, Nat.add_0_r. repeat split.
Qed.

(** A poll that fails ends the wait with that failure as it is; the wait
    does not poll again and sends nothing else. *)
Theorem wait_hands_on_a_failed_poll (this : DeviceFlowAuthenticator)
    (waited : list Exchange) (x : Exchange) (rest : list Exchange)
    (failure : JSValue) :
  truthy (deviceCode this) = true ->
  cancelFlag this = false ->
  forallb (fun y => undisturbed y && keeps_waiting this y)%bool waited = true ->
  poll_outcome (token_url this) (settlement x) = Throw failure ->
  let r := WaitForPersonalAccessToken this (waited ++ x :: rest)%list in
  completion r = Throw failure
  /\ requests (trace r)
     = repeat (pollOptions this (deviceCode this)) (S (List.length waited))
  /\ List.length (sleeps (trace r)) = List.length waited
  /\ unread r = rest.
Proof.
  intros Hd Hc Hq Hv r. subst r.
  assert (Hend : forall v, poll_outcome (token_url this) (settlement x) = Return v ->
                   still_waiting (deliver (in_flight x) (deliver (before x) this)) v
                   = false)
    by (intros v Hv'; rewrite Hv in Hv'; discriminate).
  destruct (polling_ends_at this waited x rest Hc Hq Hend) as (P1 & P2 & P3 & P4 & P5).
  rewrite Hv in P1.
  rewrite (WaitForPersonalAccessToken_bind _ _ Hd).
  destruct (bind_throws (polling this) (fun accessToken => after_waiting accessToken)
              this (waited ++ x :: rest)%list failure P1) as (-> & _ & -> & ->).
  rewrite P3, P4, P5. repeat split.
Qed.

(** The wait has no time limit of its own: [expiresIn] is stored and
    never read.  Whatever its value, as long as every answer is [PENDING]
    or [BACKOFF] and nobody cancels, the wait goes on: after [n] answers
    it has sent [n + 1] polls, slept [n] times, and is waiting for the
    next answer. *)
Theorem wait_has_no_time_limit (this : DeviceFlowAuthenticator)
    (limit : Num) (waited : list Exchange) :
  truthy (deviceCode this) = true ->
  cancelFlag this = false ->
  forallb (fun y => undisturbed y && keeps_waiting this y)%bool waited = true ->
  let r := WaitForPersonalAccessToken (with_expiresIn limit this) waited in
  completion r = Awaiting
  /\ requests (trace r)
     = repeat (pollOptions this (deviceCode this)) (S (List.length waited))
  /\ List.length (sleeps (trace r)) = List.length waited.
Proof.
  intros Hd Hc Hq r. subst r.
  set (this' := with_expiresIn limit this).
  assert (Hq' : forallb (fun y => undisturbed y && keeps_waiting this' y)%bool waited
                = true) by exact Hq.
  change (pollOptions this (deviceCode this))
    with (pollOptions this' (deviceCode this')).
  assert (P : completion (polling this' this' waited) = Awaiting
              /\ requests (trace (polling this' this' waited))
                 = repeat (pollOptions this' (deviceCode this')) (S (List.length waited))
              /\ List.length (sleeps (trace (polling this' this' waited)))
                 = List.length waited).
  { unfold polling, bind. destruct waited as [| y waited].
    - rewrite poll_run_nil. repeat split.
    - cbn [forallb] in Hq'. apply andb_true_iff in Hq' as [Hy Hq'].
      apply andb_true_iff in Hy as [Hu Hk].
      destruct (keeps_waiting_still this' y Hc Hk) as (status & Hs & W).
      rewrite poll_run, Hs. cbn [completion self trace unread].
      rewrite (undisturbed_self this' y Hu).
      destruct (while_waiting_starves waited this' (interval this') status W Hq')
        as (H1 & H2 & H3).
      cbn [completion self trace unread requests sleeps List.length repeat app].
      rewrite H2, H3. repeat split; assumption. }
  destruct P as (P1 & P2 & P3).
  rewrite (WaitForPersonalAccessToken_bind this' waited Hd).
  destruct (bind_awaits (polling this') (fun accessToken => after_waiting accessToken)
              this' waited P1) as (-> & _ & -> & _).
  rewrite P2, P3. repeat split.
Qed.
(** *** The calls to the service *)

Lemma then_run (options : RequestOptions) (callback : JSValue -> Completion JSValue)
    (this : DeviceFlowAuthenticator) (x : Exchange) (rest : list Exchange) :
  bind (request options) (fun body => lift (callback body)) this (x :: rest)
  = {| completion := match settlement x with
                     | Resolved body => callback body
                     | Rejected e => Throw e
                     end;
       self := deliver (in_flight x) (deliver (before x) this);
       trace := [Requested options];
       unread := rest |}.
Proof.
  unfold bind, request, lift. cbn [completion self trace unread].
  destruct (settlement x) as [body | e]; cbn [completion self trace unread app];
    [destruct (callback body) |]; reflexivity.
Qed.

Lemma getAuthenticatedUserId_settled (accessToken : JSValue)
    (this : DeviceFlowAuthenticator) (x : Exchange) (rest : list Exchange) :
  getAuthenticatedUserId accessToken this (x :: rest)
  = {| completion :=
         match settlement x with
         | Resolved body =>
             userId_of_body (url (connectionDataOptions this accessToken)) body
         | Rejected e => Throw e
         end;
       self := deliver (in_flight x) (deliver (before x) this);
       trace := [Requested (connectionDataOptions this accessToken)];
       unread := rest |}.
Proof.
  unfold getAuthenticatedUserId. rewrite bind_read_this. cbv beta zeta.
  apply then_run.
Qed.

Lemma getIdentityServiceUrl_settled (accessToken : JSValue)
    (this : DeviceFlowAuthenticator) (x : Exchange) (rest : list Exchange) :
  getIdentityServiceUrl accessToken this (x :: rest)
  = {| completion :=
         match settlement x with
         | Resolved body =>
             location_of_body (url (locationServiceOptions this accessToken)) body
         | Rejected e => Throw e
         end;
       self := deliver (in_flight x) (deliver (before x) this);
       trace := [Requested (locationServiceOptions this accessToken)];
       unread := rest |}.
Proof.
  unfold getIdentityServiceUrl. rewrite bind_read_this. cbv beta zeta.
  apply then_run.
Qed.

Lemma service_options_deliver (calls : list (option bool))
    (this : DeviceFlowAuthenticator) (accessToken identityUrl userId : JSValue) :
  connectionDataOptions (deliver calls this) accessToken
  = connectionDataOptions this accessToken
  /\ locationServiceOptions (deliver calls this) accessToken
     = locationServiceOptions this accessToken
  /\ sessionTokenOptions (deliver calls this) identityUrl accessToken userId
     = sessionTokenOptions this identityUrl accessToken userId.
Proof.
  destruct (deliver_keeps calls this) as (_ & _ & Hr & Hu & _ & _ & _ & Hs & Hd).
  unfold connectionDataOptions, locationServiceOptions, sessionTokenOptions,
    getAuthorizationHeaders.
  rewrite Hr, Hu, Hs, Hd. repeat split.
Qed.

Lemma getScopedCompactAccessToken_settled (accessToken userId identityUrl : JSValue)
    (this : DeviceFlowAuthenticator) (x y : Exchange) (rest : list Exchange)
    (body : JSValue) :
  settlement x = Resolved body ->
  location_of_body (url (locationServiceOptions this accessToken)) body
  = Return identityUrl ->
  getScopedCompactAccessToken accessToken userId this (x :: y :: rest)
  = {| completion := match settlement y with
                     | Resolved answer => get answer "token"
                     | Rejected e => Throw e
                     end;
       self := deliver (in_flight y) (deliver (before y)
                 (deliver (in_flight x) (deliver (before x) this)));
       trace := [ Requested (locationServiceOptions this accessToken);
                  Requested (sessionTokenOptions this identityUrl accessToken userId) ];
       unread := rest |}.
Proof.
  intros Hx Hloc. unfold getScopedCompactAccessToken, bind at 1.
  rewrite getIdentityServiceUrl_settled, Hx, Hloc.
  cbn [completion self trace unread].
  rewrite bind_read_this. cbv beta. rewrite then_run.
  cbn [completion self trace unread app].
  rewrite (deliver_app (before x) (in_flight x)).
  destruct (service_options_deliver (before x ++ in_flight x) this
              accessToken identityUrl userId) as (_ & _ & ->).
  reflexivity.
Qed.

(** [getAuthenticatedUserId] sends one GET for the connection data of the
    account, with the token as credential.  What it returns is never
    falsy: it is the [id] of the [authenticatedUser] of the parsed body,
    and a body that parses but has no such user, or a user without [id],
    makes it throw the error that quotes the address and the body. *)
Theorem getAuthenticatedUserId_returns_the_id (accessToken : JSValue)
    (this : DeviceFlowAuthenticator) (x : Exchange) (rest : list Exchange) :
  let r := getAuthenticatedUserId accessToken this (x :: rest) in
  let address := (resourceUri this ++ "_apis/connectionData")%string in
  requests (trace r)
  = [ {| method := GET; url := address;
         headers := HeadersObject (getAuthorizationHeaders this accessToken);
         payload := NoPayload |} ]
  /\ (forall id,
      completion r = Return id ->
      truthy id = true
      /\ exists body json user,
          settlement x = Resolved body /\ JSON_parse body = Some json
          /\ get json "authenticatedUser" = Return user
          /\ get user "id" = Return id)
  /\ (forall body json user,
      settlement x = Resolved body -> JSON_parse body = Some json ->
      get json "authenticatedUser" = Return user ->
      truthy user = false \/ (exists id, get user "id" = Return id /\ truthy id = false) ->
      completion r
      = Throw (Error ("Did not receive an authenticatedUser or authenticatedUser.id for "
                      ++ address ++ ". Body: " ++ ToString body))).
Proof.
  cbv zeta. rewrite getAuthenticatedUserId_settled. cbn [completion trace requests].
  split; [reflexivity |]. split.
  - intros id. destruct (settlement x) as [body | e]; [| discriminate].
    unfold userId_of_body, parse.
    destruct (JSON_parse body) as [json |] eqn:Hp; cbn [andThen]; [| discriminate].
    destruct (get json "authenticatedUser") as [user | |] eqn:Hu; cbn [andThen];
      try discriminate.
    destruct (truthy user); [| discriminate].
    destruct (get user "id") as [id' | |] eqn:Hi; cbn [andThen]; try discriminate.
    destruct (truthy id') eqn:Ht; [| discriminate].
    intros H; inversion H; subst id'. split; [exact Ht |].
    exists body, json, user. repeat split; assumption.
  - intros body json user -> Hp Hu Hno.
    unfold userId_of_body, parse. rewrite Hp. cbn [andThen]. rewrite Hu. cbn [andThen].
    destruct Hno as [Hf | (id & Hi & Hf)].
    + rewrite Hf. reflexivity.
    + destruct (truthy user); [| reflexivity].
      rewrite Hi. cbn [andThen]. rewrite Hf. reflexivity.
Qed.

(** [getIdentityServiceUrl] consults the first location mapping only, and
    what it returns is never falsy.  Its test on the length of the
    mappings holds for every array, the empty one included: with no
    mapping at all the method does not throw its own error but the
    [TypeError] of reading [location] of [undefined].  Without a
    [locationMappings] member it does throw its own error. *)
Theorem getIdentityServiceUrl_reads_the_first_mapping (accessToken : JSValue)
    (this : DeviceFlowAuthenticator) (x : Exchange) (rest : list Exchange)
    (body json : JSValue) :
  settlement x = Resolved body ->
  JSON_parse body = Some json ->
  let r := getIdentityServiceUrl accessToken this (x :: rest) in
  (forall location, completion r = Return location -> truthy location = true)
  /\ (forall first others location,
      get json "locationMappings" = Return (JArray (first :: others)) ->
      get first "location" = Return location -> truthy location = true ->
      completion r = Return location)
  /\ (get json "locationMappings" = Return (JArray []) ->
      completion r = Throw TypeError)
  /\ (get json "locationMappings" = Return JUndefined ->
      completion r
      = Throw (Error ("Did not receive locationMappings or location from "
                      ++ url (locationServiceOptions this accessToken)
                      ++ ". Body: " ++ ToString body))).
Proof.
  intros Hs Hp. cbv zeta. rewrite getIdentityServiceUrl_settled, Hs.
  cbn [completion]. unfold location_of_body, parse. rewrite Hp. cbn [andThen].
  split; [| split; [| split]].
  - intros location.
    destruct (get json "locationMappings") as [mappings | |]; cbn [andThen];
      try discriminate.
    destruct (truthy mappings); [| discriminate].
    destruct (get_length mappings) as [len | |]; cbn [andThen]; try discriminate.
    destruct (ge_zero len); [| discriminate].
    destruct (get_first mappings) as [first | |]; cbn [andThen]; try discriminate.
    destruct (get first "location") as [l | |]; cbn [andThen]; try discriminate.
    destruct (truthy l) eqn:Ht; [| discriminate].
    intros H; inversion H; subst; exact Ht.
  - intros first others location -> Hl Ht.
    cbn [andThen truthy get_length get_first hd].
    unfold ge_zero, ToNumber.
    replace (0 <=? Z.of_nat (List.length (first :: others))) with true
      by (symmetry; apply Z.leb_le; lia).
    rewrite Hl. cbn [andThen]. rewrite Ht. reflexivity.
  - intros ->. reflexivity.
  - intros ->. reflexivity.
Qed.
(** *** From the token to the personal access token *)

(** The receiver differs by [Cancel] calls only. *)
Definition only_flags (a b : DeviceFlowAuthenticator) : Prop :=
  exists calls, b = deliver calls a.

Lemma only_flags_refl (a : DeviceFlowAuthenticator) : only_flags a a.
Proof. exists []. reflexivity. Qed.

Lemma only_flags_trans (a b c : DeviceFlowAuthenticator) :
  only_flags a b -> only_flags b c -> only_flags a c.
Proof.
  intros [c1 ->] [c2 ->]. exists (c1 ++ c2)%list. apply deliver_app.
Qed.

Lemma only_flags_Cancel (arg : option bool) (a : DeviceFlowAuthenticator) :
  only_flags a (Cancel arg a).
Proof. exists [arg]. reflexivity. Qed.

Lemma token_ends_waiting (this : DeviceFlowAuthenticator) (token : JSValue) :
  is_status token = false -> still_waiting this token = false.
Proof.
  unfold is_status, still_waiting. intros H.
  apply orb_false_iff in H as [H _].
  apply orb_false_iff in H as [H _].
  apply orb_false_iff in H as [H1 H2].
  rewrite H1, H2, andb_false_r. reflexivity.
Qed.

Lemma after_waiting_with_a_token (token : JSValue) (this : DeviceFlowAuthenticator)
    (inbox : list Exchange) :
  cancelFlag this = false ->
  is_status token = false ->
  after_waiting token this inbox
  = bind (getAuthenticatedUserId token)
         (fun userId => bind (getScopedCompactAccessToken token userId)
                             (fun minted => ret minted))
         this inbox.
Proof.
  intros Hc Ht. unfold is_status in Ht.
  apply orb_false_iff in Ht as [Ht He].
  apply orb_false_iff in Ht as [_ Hb].
  unfold after_waiting. rewrite bind_read_this. cbv beta.
  rewrite He, Hb, Hc. reflexivity.
Qed.

Lemma after_waiting_mints (token userId identityUrl : JSValue)
    (this : DeviceFlowAuthenticator) (x1 x2 x3 : Exchange) (rest : list Exchange)
    (body1 body2 : JSValue) :
  cancelFlag this = false ->
  is_status token = false ->
  settlement x1 = Resolved body1 ->
  userId_of_body (url (connectionDataOptions this token)) body1 = Return userId ->
  settlement x2 = Resolved body2 ->
  location_of_body (url (locationServiceOptions this token)) body2 = Return identityUrl ->
  let r := after_waiting token this (x1 :: x2 :: x3 :: rest) in
  completion r = match settlement x3 with
                 | Resolved answer => get answer "token"
                 | Rejected e => Throw e
                 end
  /\ trace r = [ Requested (connectionDataOptions this token);
                 Requested (locationServiceOptions this token);
                 Requested (sessionTokenOptions this identityUrl token userId) ]
  /\ unread r = rest.
Proof.
  intros Hc Ht H1 Hu H2 Hl. cbv zeta.
  rewrite (after_waiting_with_a_token token this _ Hc Ht).
  set (k := fun userId => bind (getScopedCompactAccessToken token userId)
                               (fun minted => ret minted)).
  assert (E1 : completion (getAuthenticatedUserId token this (x1 :: x2 :: x3 :: rest))
               = Return userId)
    by (rewrite getAuthenticatedUserId_settled; cbn [completion]; rewrite H1; exact Hu).
  destruct (bind_returns (getAuthenticatedUserId token) k this _ userId E1)
    as (-> & _ & -> & ->).
  rewrite getAuthenticatedUserId_settled. cbn [self unread trace].
  set (this1 := deliver (in_flight x1) (deliver (before x1) this)).
  assert (S1 : forall loc uid,
             locationServiceOptions this1 token = locationServiceOptions this token
             /\ sessionTokenOptions this1 loc token uid
                = sessionTokenOptions this loc token uid).
  { intros loc uid. subst this1. rewrite deliver_app.
    destruct (service_options_deliver (before x1 ++ in_flight x1) this token loc uid)
      as (_ & A & B). split; assumption. }
  destruct (S1 identityUrl userId) as [SA SB].
  assert (E2 : getScopedCompactAccessToken token userId this1 (x2 :: x3 :: rest)
               = {| completion := match settlement x3 with
                                  | Resolved answer => get answer "token"
                                  | Rejected e => Throw e
                                  end;
                    self := deliver (in_flight x3) (deliver (before x3)
                              (deliver (in_flight x2) (deliver (before x2) this1)));
                    trace := [ Requested (locationServiceOptions this token);
                               Requested (sessionTokenOptions this identityUrl
                                            token userId) ];
                    unread := rest |}).
  { rewrite (getScopedCompactAccessToken_settled token userId identityUrl this1
               x2 x3 rest body2 H2) by (rewrite SA; exact Hl).
    rewrite SA, SB. reflexivity. }
  unfold k, bind, ret, lift. rewrite E2. cbn [completion self trace unread].
  destruct (match settlement x3 with
            | Resolved answer => get answer "token"
            | Rejected e => Throw e
            end); cbn [completion self trace unread app]; repeat split.
Qed.

(** The whole wait when it succeeds.  The polls so far said [PENDING] or
    [BACKOFF], nobody has called [Cancel], and the next poll brings a
    token.  Then the wait asks for the connection data, for the location
    of the identity service and for the session token, in that order and
    with that token, and returns the [token] member of the last answer as
    it is (a failure of that request is thrown on).  A [Cancel] call made
    once the token is there changes nothing any more. *)
Theorem wait_mints_the_token (this : DeviceFlowAuthenticator)
    (waited : list Exchange) (x x1 x2 x3 : Exchange) (rest : list Exchange)
    (token userId identityUrl body1 body2 : JSValue) :
  truthy (deviceCode this) = true ->
  cancelFlag this = false ->
  forallb (fun y => undisturbed y && keeps_waiting this y)%bool waited = true ->
  undisturbed x = true ->
  poll_outcome (token_url this) (settlement x) = Return token ->
  is_status token = false ->
  settlement x1 = Resolved body1 ->
  userId_of_body (url (connectionDataOptions this token)) body1 = Return userId ->
  settlement x2 = Resolved body2 ->
  location_of_body (url (locationServiceOptions this token)) body2 = Return identityUrl ->
  let r := WaitForPersonalAccessToken this
             (waited ++ x :: x1 :: x2 :: x3 :: rest)%list in
  completion r = match settlement x3 with
                 | Resolved answer => get answer "token"
                 | Rejected e => Throw e
                 end
  /\ requests (trace r)
     = (repeat (pollOptions this (deviceCode this)) (S (List.length waited))
        ++ [ connectionDataOptions this token;
             locationServiceOptions this token;
             sessionTokenOptions this identityUrl token userId ])%list
  /\ List.length (sleeps (trace r)) = List.length waited
  /\ unread r = rest.
Proof.
  intros Hd Hc Hq Hx Hv Ht H1 Hu H2 Hl r. subst r.
  assert (Hend : forall v, poll_outcome (token_url this) (settlement x) = Return v ->
                   still_waiting (deliver (in_flight x) (deliver (before x) this)) v
                   = false).
  { intros v Hv'. rewrite Hv in Hv'. inversion Hv'; subst v.
    apply token_ends_waiting; exact Ht. }
  destruct (polling_ends_at this waited x (x1 :: x2 :: x3 :: rest) Hc Hq Hend)
    as (P1 & P2 & P3 & P4 & P5).
  rewrite Hv in P1. rewrite (undisturbed_self this x Hx) in P2.
  rewrite (WaitForPersonalAccessToken_bind _ _ Hd).
  destruct (bind_returns (polling this) (fun accessToken => after_waiting accessToken)
              this _ token P1) as (-> & _ & -> & ->).
  rewrite P2, P3.
  destruct (after_waiting_mints token userId identityUrl this x1 x2 x3 rest
              body1 body2 Hc Ht H1 Hu H2 Hl) as (A1 & A2 & A3).
  rewrite A1, A2, A3, requests_app, sleeps_app, length_app, P4, P5.
  cbn [requests sleeps List.length]. rewrite Nat.add_0_r. repeat split.
Qed.

(** [getScopedCompactAccessToken] does not check what it returns: the
    [token] member of the answer, [undefined] when the answer is an object
    without that member or is text, and the [TypeError] of the read when
    there is no answer body. *)
Theorem minted_token_is_not_checked (accessToken userId identityUrl : JSValue)
    (this : DeviceFlowAuthenticator) (x y : Exchange) (rest : list Exchange)
    (body answer : JSValue) :
  settlement x = Resolved body ->
  location_of_body (url (locationServiceOptions this accessToken)) body
  = Return identityUrl ->
  settlement y = Resolved answer ->
  let r := getScopedCompactAccessToken accessToken userId this (x :: y :: rest) in
  completion r = get answer "token"
  /\ (forall props, answer = JObject props -> lookup "token" props = JUndefined ->
                    completion r = Return JUndefined)
  /\ (forall text, answer = JString text -> completion r = Return JUndefined)
  /\ (answer = JUndefined \/ answer = JNull -> completion r = Throw TypeError)
  /\ List.map url (requests (trace r))
     = [ url (locationServiceOptions this accessToken);
         (ToString identityUrl
          ++ "_apis/token/sessiontokens?api-version=1.0&tokentype=compact")%string ].
Proof.
  intros Hx Hl Hy. cbv zeta.
  rewrite (getScopedCompactAccessToken_settled accessToken userId identityUrl this
             x y rest body Hx Hl).
  cbn [completion trace requests List.map]. rewrite Hy.
  split; [reflexivity |]. split; [| split; [| split]].
  - intros props -> Hno. cbn [get]. rewrite Hno. reflexivity.
  - intros text ->. reflexivity.
  - intros [-> | ->]; reflexivity.
  - reflexivity.
Qed.

Lemma service_traces (accessToken : JSValue) (this : DeviceFlowAuthenticator)
    (inbox : list Exchange) :
  trace (getAuthenticatedUserId accessToken this inbox)
  = [Requested (connectionDataOptions this accessToken)]
  /\ trace (getIdentityServiceUrl accessToken this inbox)
     = [Requested (locationServiceOptions this accessToken)].
Proof.
  unfold getAuthenticatedUserId, getIdentityServiceUrl.
  rewrite !bind_read_this. cbv beta zeta.
  rewrite !bind_trace, !request_trace.
  split; destruct (completion (request _ this inbox)); reflexivity.
Qed.

Lemma after_waiting_requests (accessToken : JSValue) (this : DeviceFlowAuthenticator)
    (inbox : list Exchange) (options : RequestOptions) :
  In options (requests (trace (after_waiting accessToken this inbox))) ->
  options = connectionDataOptions this accessToken
  \/ options = locationServiceOptions this accessToken
  \/ exists identityUrl userId,
       options = sessionTokenOptions this identityUrl accessToken userId.
Proof.
  unfold after_waiting, throw, ret. rewrite bind_read_this. cbv beta.
  destruct (strict_eq_string accessToken DeviceCodeStatus.EXPIRED); [intros [] |].
  destruct (strict_eq_string accessToken DeviceCodeStatus.BADCODE); [intros [] |].
  destruct (cancelFlag this).
  { destruct (throwExceptionOnCancel this) as [[|] |]; intros []. }
  rewrite bind_trace, requests_app.
  destruct (service_traces accessToken this inbox) as [T1 _]. rewrite T1.
  cbn [requests app]. intros [H | H]; [left; congruence |].
  destruct (completion (getAuthenticatedUserId accessToken this inbox))
    as [userId | |]; try contradiction.
  destruct (preserves_getAuthenticatedUserId only_flags only_flags_refl
              only_flags_trans only_flags_Cancel accessToken this inbox)
    as [calls1 E1].
  rewrite E1 in H.
  rewrite bind_trace, requests_app in H. apply in_app_or in H as [H | H].
  - unfold getScopedCompactAccessToken in H.
    rewrite bind_trace, requests_app in H.
    destruct (service_traces accessToken (deliver calls1 this)
                (unread (getAuthenticatedUserId accessToken this inbox))) as [_ T2].
    rewrite T2 in H. cbn [requests app] in H.
    destruct (service_options_deliver calls1 this accessToken JUndefined JUndefined)
      as (_ & S2 & _).
    destruct H as [H | H]; [right; left; congruence |].
    destruct (completion (getIdentityServiceUrl accessToken (deliver calls1 this) _))
      as [identityUrl | |]; try contradiction.
    destruct (preserves_getIdentityServiceUrl only_flags only_flags_refl
                only_flags_trans only_flags_Cancel accessToken (deliver calls1 this)
                (unread (getAuthenticatedUserId accessToken this inbox)))
      as [calls2 E2].
    rewrite E2, bind_read_this in H. cbv beta in H.
    rewrite bind_trace, request_trace, requests_app in H. cbn [requests app] in H.
    destruct H as [H | H].
    + right; right. exists identityUrl, userId. rewrite <- H.
      rewrite deliver_app.
      apply (service_options_deliver (calls1 ++ calls2) this accessToken
               identityUrl userId).
    + destruct (completion (request _ _ _)); contradiction.
  - destruct (completion (getScopedCompactAccessToken _ _ _ _)); contradiction.
Qed.

(** Where the bearer token travels.  Every request made after the loop
    carries it as the password of a Basic credential for the user [PAT],
    together with the header that suppresses the federated-auth redirect
    and the user agent.  The tenant probe, the device-code request and the
    polls carry no [Authorization] header. *)
Theorem token_travels_as_basic_credential (accessToken code : JSValue)
    (this : DeviceFlowAuthenticator) (inbox : list Exchange) :
  (forall options,
      In options (requests (trace (after_waiting accessToken this inbox))) ->
      header "Authorization" (headers options)
      = Some ("Basic " ++ base64 ("PAT:" ++ ToString accessToken))%string
      /\ header "X-TFS-FedAuthRedirect" (headers options) = Some "Suppress"
      /\ header "User-Agent" (headers options) = Some (userAgent this))
  /\ header "Authorization" (headers (headOptions this)) = None
  /\ header "Authorization" (headers (deviceCodeOptions this)) = None
  /\ header "Authorization" (headers (pollOptions this code)) = None.
Proof.
  split; [| repeat split].
  intros options H.
  destruct (after_waiting_requests accessToken this inbox options H)
    as [-> | [-> | (identityUrl & userId & ->)]]; repeat split.
Qed.
(** *** Asking for the device code *)

Lemma deliver_keeps_hosts (calls : list (option bool)) :
  forall this,
    authorityHost (deliver calls this) = authorityHost this
    /\ redirectUri (deliver calls this) = redirectUri this
    /\ expiresIn (deliver calls this) = expiresIn this.
Proof.
  induction calls as [| arg calls IH]; intros this.
  - repeat split.
  - rewrite deliver_cons. apply (IH (Cancel arg this)).
Qed.

Lemma deviceCodeOptions_with_tenant (calls : list (option bool))
    (this : DeviceFlowAuthenticator) (tenant : option string) :
  deviceCodeOptions (with_tenantId tenant (deliver calls this))
  = deviceCodeOptions (with_tenantId tenant this).
Proof.
  destruct (deliver_keeps calls this) as (_ & _ & _ & Hu & Hc & _).
  destruct (deliver_keeps_hosts calls this) as (Ha & Hr & _).
  unfold deviceCodeOptions, devicecode_url, msa_backed, tenantId_text,
    getUserAgentHeaders, with_tenantId.
  cbn [tenantId userAgent clientId authorityHost redirectUri].
  rewrite Hu, Hc, Ha, Hr. reflexivity.
Qed.

(** The session after the three assignments of the [.then] callback, for
    an answer that parsed to an object with the members [props]. *)
Definition stored (props : list (string * JSValue)) (this : DeviceFlowAuthenticator)
  : DeviceFlowAuthenticator :=
  with_expiresIn (Num_mul (Number_parseInt (lookup "expires_in" props)) 1000)
    (with_interval (Num_mul (Number_parseInt (lookup "interval" props)) 1000)
       (with_deviceCode (lookup "device_code" props) this)).

Lemma store_details_run (body : JSValue) (props : list (string * JSValue))
    (this : DeviceFlowAuthenticator) (inbox : list Exchange) :
  JSON_parse body = Some (JObject props) ->
  store_details body this inbox
  = {| completion := Return {| Message := lookup "message" props;
                               UserCode := lookup "user_code" props;
                               VerificationUrl := lookup "verification_url" props |};
       self := stored props this;
       trace := [];
       unread := inbox |}.
Proof.
  intros Hp. unfold store_details, parse, ret. rewrite Hp.
  rewrite bind_lift_return. cbn [get].
  rewrite bind_lift_return, bind_assign, bind_lift_return, bind_assign,
    bind_lift_return, bind_assign, !bind_lift_return.
  reflexivity.
Qed.

Lemma issueDeviceCode_run (this : DeviceFlowAuthenticator) (x : Exchange)
    (rest : list Exchange) :
  issueDeviceCode this (x :: rest)
  = match settlement x with
    | Resolved body =>
        let r := store_details body (deliver (in_flight x) (deliver (before x) this))
                   rest in
        {| completion := completion r; self := self r;
           trace := Requested (deviceCodeOptions this) :: trace r;
           unread := unread r |}
    | Rejected e =>
        {| completion := Throw e;
           self := deliver (in_flight x) (deliver (before x) this);
           trace := [Requested (deviceCodeOptions this)];
           unread := rest |}
    end.
Proof.
  unfold issueDeviceCode. rewrite bind_read_this. cbv beta.
  unfold bind, request. cbn [completion self trace unread].
  destruct (settlement x); reflexivity.
Qed.

Lemma GetDeviceFlowDetails_with_tenant (this : DeviceFlowAuthenticator)
    (x : Exchange) (rest : list Exchange) (header : JSValue) (tenant : string) :
  header_read (settlement x) = Return header ->
  tenant_of_header (resourceUri this) header = Return tenant ->
  let this1 := with_tenantId (Some tenant)
                 (deliver (in_flight x) (deliver (before x) this)) in
  let r := GetDeviceFlowDetails this (x :: rest) in
  completion r = completion (issueDeviceCode this1 rest)
  /\ self r = self (issueDeviceCode this1 rest)
  /\ trace r = Requested (headOptions this) :: trace (issueDeviceCode this1 rest)
  /\ unread r = unread (issueDeviceCode this1 rest).
Proof.
  intros Hh Ht. cbv zeta.
  pose (k := fun tenant : string =>
               assign (with_tenantId (Some tenant)) ;;; issueDeviceCode).
  change GetDeviceFlowDetails with (bind getTenantId k).
  assert (Hc : completion (getTenantId this (x :: rest)) = Return tenant)
    by (rewrite getTenantId_run; cbn [completion]; rewrite Hh; exact Ht).
  destruct (bind_returns getTenantId k this (x :: rest) tenant Hc)
    as (-> & -> & -> & ->).
  rewrite getTenantId_run. cbn [self trace unread app]. unfold k.
  rewrite bind_assign. repeat split.
Qed.

(** [GetDeviceFlowDetails] when both requests are answered and the second
    answer parses to an object: it makes the tenant probe and the
    device-code request (for the tenant just resolved), stores the tenant,
    the device code and the two durations (seconds from the service,
    milliseconds in the session) and returns the three texts for the user.
    No member of the answer is checked: a missing one is stored, or
    returned, as [undefined], and a duration that is no number as [NaN]. *)
Theorem details_are_stored (this : DeviceFlowAuthenticator)
    (x1 x2 : Exchange) (rest : list Exchange) (header body : JSValue)
    (tenant : string) (props : list (string * JSValue)) :
  header_read (settlement x1) = Return header ->
  tenant_of_header (resourceUri this) header = Return tenant ->
  settlement x2 = Resolved body ->
  JSON_parse body = Some (JObject props) ->
  let r := GetDeviceFlowDetails this (x1 :: x2 :: rest) in
  completion r = Return {| Message := lookup "message" props;
                           UserCode := lookup "user_code" props;
                           VerificationUrl := lookup "verification_url" props |}
  /\ requests (trace r)
     = [ headOptions this; deviceCodeOptions (with_tenantId (Some tenant) this) ]
  /\ tenantId (self r) = Some tenant
  /\ deviceCode (self r) = lookup "device_code" props
  /\ interval (self r) = Num_mul (Number_parseInt (lookup "interval" props)) 1000
  /\ expiresIn (self r) = Num_mul (Number_parseInt (lookup "expires_in" props)) 1000
  /\ resourceUri (self r) = resourceUri this
  /\ unread r = rest.
Proof.
  intros Hh Ht Hs Hp. cbv zeta.
  destruct (GetDeviceFlowDetails_with_tenant this x1 (x2 :: rest) header tenant Hh Ht)
    as (-> & -> & -> & ->).
  rewrite issueDeviceCode_run, Hs. cbv zeta.
  rewrite (store_details_run body props _ rest Hp).
  cbn [completion self trace unread requests].
  rewrite (deliver_app (before x1) (in_flight x1)).
  rewrite (deviceCodeOptions_with_tenant (before x1 ++ in_flight x1) this (Some tenant)).
  split; [reflexivity |]. split; [reflexivity |].
  unfold stored.
  cbn [with_expiresIn with_interval with_deviceCode tenantId deviceCode interval
       expiresIn resourceUri].
  rewrite (deliver_app (before x2) (in_flight x2)).
  destruct (deliver_keeps (before x2 ++ in_flight x2)
              (with_tenantId (Some tenant) (deliver (before x1 ++ in_flight x1) this)))
    as (K1 & _ & K3 & _).
  destruct (deliver_keeps (before x1 ++ in_flight x1) this) as (_ & _ & K3' & _).
  rewrite K1, K3. cbn [with_tenantId tenantId resourceUri]. rewrite K3'.
  repeat split.
Qed.

(** When the device-code request fails, or its answer is no JSON, the
    failure is thrown on as it is; the tenant resolved before it stays in
    the session, and the device code and the interval are what they
    were. *)
Theorem device_code_failure_keeps_the_tenant (this : DeviceFlowAuthenticator)
    (x1 x2 : Exchange) (rest : list Exchange) (header : JSValue) (tenant : string) :
  header_read (settlement x1) = Return header ->
  tenant_of_header (resourceUri this) header = Return tenant ->
  let r := GetDeviceFlowDetails this (x1 :: x2 :: rest) in
  (forall e, settlement x2 = Rejected e -> completion r = Throw e)
  /\ (forall body, settlement x2 = Resolved body -> JSON_parse body = None ->
                   completion r = Throw SyntaxError)
  /\ (succeeded (completion r) = false ->
      tenantId (self r) = Some tenant
      /\ deviceCode (self r) = deviceCode this
      /\ requests (trace r)
         = [ headOptions this; deviceCodeOptions (with_tenantId (Some tenant) this) ]).
Proof.
  intros Hh Ht. cbv zeta.
  destruct (GetDeviceFlowDetails_with_tenant this x1 (x2 :: rest) header tenant Hh Ht)
    as (E1 & E2 & E3 & _).
  rewrite E1, E2, E3.
  set (this1 := with_tenantId (Some tenant)
                  (deliver (in_flight x1) (deliver (before x1) this))).
  assert (O : deviceCodeOptions this1
              = deviceCodeOptions (with_tenantId (Some tenant) this)).
  { subst this1. rewrite (deliver_app (before x1) (in_flight x1)).
    apply deviceCodeOptions_with_tenant. }
  assert (D : deviceCode this1 = deviceCode this).
  { subst this1. cbn [with_tenantId deviceCode].
    rewrite (deliver_app (before x1) (in_flight x1)).
    apply (deliver_keeps (before x1 ++ in_flight x1) this). }
  split; [| split].
  - intros e Hs. rewrite issueDeviceCode_run, Hs. reflexivity.
  - intros body Hs Hp. rewrite issueDeviceCode_run, Hs. cbv zeta.
    cbn [completion]. unfold store_details, parse. rewrite Hp. reflexivity.
  - intros Hf.
    pose proof (issueDeviceCode_keeps_deviceCode this1 (x2 :: rest) Hf) as K.
    rewrite K, D. split; [| split; [reflexivity |]].
    + revert Hf. rewrite issueDeviceCode_run.
      destruct (settlement x2) as [body | e]; cbv zeta; cbn [completion self].
      * unfold store_details, parse.
        destruct (JSON_parse body) as [json |]; [| intros _].
        -- rewrite bind_lift_return.
           destruct json; cbn [get];
             try (rewrite bind_lift_return, bind_assign, bind_lift_return,
                    bind_assign, bind_lift_return, bind_assign, !bind_lift_return;
                  cbn [ret lift completion succeeded]; discriminate);
             intros _; cbn [bind lift completion self];
             rewrite (deliver_app (before x2) (in_flight x2));
             rewrite (proj1 (deliver_keeps (before x2 ++ in_flight x2) this1));
             reflexivity.
        -- cbn [bind lift completion self].
           rewrite (deliver_app (before x2) (in_flight x2)).
           rewrite (proj1 (deliver_keeps (before x2 ++ in_flight x2) this1)).
           reflexivity.
      * intros _. rewrite (deliver_app (before x2) (in_flight x2)).
        rewrite (proj1 (deliver_keeps (before x2 ++ in_flight x2) this1)).
        reflexivity.
    + rewrite issueDeviceCode_run, <- O.
      destruct (settlement x2) as [body | e]; cbv zeta; cbn [trace requests];
        [| reflexivity].
      unfold store_details, parse.
      destruct (JSON_parse body) as [json |]; [| reflexivity].
      rewrite bind_lift_return.
      destruct json; cbn [get];
        try (rewrite bind_lift_return, bind_assign, bind_lift_return,
               bind_assign, bind_lift_return, bind_assign, !bind_lift_return);
        reflexivity.
Qed.
(** *** From the details to the wait *)

Lemma GetDeviceFlowDetails_session (this : DeviceFlowAuthenticator)
    (x1 x2 : Exchange) (rest : list Exchange) (header body : JSValue)
    (tenant : string) (props : list (string * JSValue)) :
  header_read (settlement x1) = Return header ->
  tenant_of_header (resourceUri this) header = Return tenant ->
  settlement x2 = Resolved body ->
  JSON_parse body = Some (JObject props) ->
  let r := GetDeviceFlowDetails this (x1 :: x2 :: rest) in
  succeeded (completion r) = true
  /\ self r
     = stored props
         (deliver (in_flight x2)
            (deliver (before x2)
               (with_tenantId (Some tenant)
                  (deliver (in_flight x1) (deliver (before x1) this))))).
Proof.
  intros Hh Ht Hs Hp. cbv zeta.
  destruct (GetDeviceFlowDetails_with_tenant this x1 (x2 :: rest) header tenant Hh Ht)
    as (-> & -> & _).
  rewrite issueDeviceCode_run, Hs. cbv zeta.
  rewrite (store_details_run body props _ rest Hp).
  split; reflexivity.
Qed.

Lemma while_waiting_sleeps_NaN (inbox : list Exchange) :
  forall (this : DeviceFlowAuthenticator) (accessToken : JSValue),
    Forall (eq NaN) (sleeps (trace (while_waiting inbox this NaN accessToken))).
Proof.
  assert (N : forall v, next_interval NaN v = NaN)
    by (intros v; unfold next_interval; destruct (strict_eq_string v _); reflexivity).
  induction inbox as [| x rest IH]; intros this accessToken;
    destruct (still_waiting this accessToken) eqn:W.
  - rewrite while_waiting_starved, N by assumption.
    cbn [trace sleeps]. repeat constructor.
  - rewrite while_waiting_done by assumption. constructor.
  - rewrite while_waiting_turn, N by assumption.
    destruct (poll_outcome (token_url this) (settlement x)) as [v | e |];
      cbn [trace sleeps]; repeat constructor.
    apply IH.
  - rewrite while_waiting_done by assumption. constructor.
Qed.

Lemma WaitForPersonalAccessToken_sleeps_NaN (this : DeviceFlowAuthenticator)
    (inbox : list Exchange) :
  interval this = NaN ->
  Forall (eq NaN) (sleeps (trace (WaitForPersonalAccessToken this inbox))).
Proof.
  intros Hi. unfold WaitForPersonalAccessToken.
  rewrite bind_trace. cbn [read_this completion self trace unread app].
  destruct (negb (truthy (deviceCode this))); [constructor |].
  rewrite bind_trace, sleeps_app.
  replace (sleeps match completion (polling this this inbox) with
                  | Return a => trace (after_waiting a (self (polling this this inbox))
                                         (unread (polling this this inbox)))
                  | _ => []
                  end) with (@nil Num)
    by (destruct (completion (polling this this inbox));
        [rewrite after_waiting_no_sleep |..]; reflexivity).
  rewrite app_nil_r.
  unfold polling. rewrite bind_trace, Hi, sleeps_app.
  apply Forall_app. split.
  - destruct inbox as [| x rest]; [rewrite poll_run_nil | rewrite poll_run];
      constructor.
  - destruct (completion (waitOnResponseAccessToken (deviceCode this) this inbox));
      [apply while_waiting_sleeps_NaN | constructor ..].
Qed.

(** The interval the service names, in seconds, paces the wait that
    follows on the same session: the sleep before poll [k + 2] lasts that
    many thousand milliseconds, doubled once for every [BACKOFF] among the
    answers so far.  When the answer names no interval, or one that is no
    number, every sleep of that wait is for [NaN] milliseconds. *)
Theorem issued_interval_paces_the_wait (this : DeviceFlowAuthenticator)
    (x1 x2 : Exchange) (rest : list Exchange) (header body : JSValue)
    (tenant : string) (props : list (string * JSValue)) :
  header_read (settlement x1) = Return header ->
  tenant_of_header (resourceUri this) header = Return tenant ->
  settlement x2 = Resolved body ->
  JSON_parse body = Some (JObject props) ->
  let session := self (GetDeviceFlowDetails this (x1 :: x2 :: rest)) in
  (forall (seconds : Z) (inbox : list Exchange) (k : nat) (ms : Num),
      Number_parseInt (lookup "interval" props) = Int seconds ->
      nth_error (sleeps (trace (WaitForPersonalAccessToken session inbox))) k = Some ms ->
      ms = Int (seconds * 1000 * 2 ^ backoffs session (firstn (S k) inbox)))
  /\ (forall inbox : list Exchange,
         Number_parseInt (lookup "interval" props) = NaN ->
         Forall (eq NaN) (sleeps (trace (WaitForPersonalAccessToken session inbox)))).
Proof.
  intros Hh Ht Hs Hp session.
  destruct (GetDeviceFlowDetails_session this x1 x2 rest header body tenant props
              Hh Ht Hs Hp) as [_ E].
  assert (I : interval session
              = Num_mul (Number_parseInt (lookup "interval" props)) 1000)
    by (subst session; rewrite E; reflexivity).
  split.
  - intros seconds inbox k ms Hn H.
    apply (WaitForPersonalAccessToken_sleeps session inbox k ms (seconds * 1000));
      [rewrite I, Hn; reflexivity | exact H].
  - intros inbox Hn.
    apply WaitForPersonalAccessToken_sleeps_NaN. rewrite I, Hn. reflexivity.
Qed.

(** The answer to the device-code request is not checked for a device
    code.  When it has none, [GetDeviceFlowDetails] still returns its
    details; it is the wait on that session that fails, at its guard and
    before any request. *)
Theorem details_without_a_device_code (this : DeviceFlowAuthenticator)
    (x1 x2 : Exchange) (rest : list Exchange) (header body : JSValue)
    (tenant : string) (props : list (string * JSValue)) :
  header_read (settlement x1) = Return header ->
  tenant_of_header (resourceUri this) header = Return tenant ->
  settlement x2 = Resolved body ->
  JSON_parse body = Some (JObject props) ->
  truthy (lookup "device_code" props) = false ->
  let r := GetDeviceFlowDetails this (x1 :: x2 :: rest) in
  succeeded (completion r) = true
  /\ forall inbox : list Exchange,
       let w := WaitForPersonalAccessToken (self r) inbox in
       completion w
       = Throw (Error ("Valid device code not found for " ++ resourceUri this
                       ++ ". Ensure that a device code was requested."))
       /\ trace w = []
       /\ unread w = inbox.
Proof.
  intros Hh Ht Hs Hp Hd r.
  destruct (GetDeviceFlowDetails_session this x1 x2 rest header body tenant props
              Hh Ht Hs Hp) as [Hok E].
  split; [exact Hok |]. intros inbox w. subst w r. rewrite E.
  set (session := stored props _).
  assert (D : deviceCode session = lookup "device_code" props) by reflexivity.
  assert (U : resourceUri session = resourceUri this).
  { subst session. unfold stored.
    cbn [with_expiresIn with_interval with_deviceCode resourceUri].
    rewrite !deliver_app.
    rewrite (proj1 (proj2 (proj2 (deliver_keeps (before x2 ++ in_flight x2) _)))).
    cbn [with_tenantId resourceUri].
    apply (deliver_keeps (before x1 ++ in_flight x1) this). }
  unfold WaitForPersonalAccessToken. rewrite bind_read_this. cbv beta.
  rewrite D, Hd, U. repeat split.
Qed.
(** *** What a resolved tenant looks like *)

(** [s.includes(c)] for one character. *)
Fixpoint includes (c : ascii) (s : string) : bool :=
  match s with
  | EmptyString => false
  | String d rest => (Ascii.eqb d c || includes c rest)%bool
  end.

(** Empty, or starting with a character that is no white space. *)
Definition headed (s : string) : bool :=
  match s with
  | EmptyString => true
  | String c _ => negb (is_white_space c)
  end.

Lemma split_pieces_free (sep : ascii) (s : string) :
  Forall (fun piece => includes sep piece = false) (split sep s).
Proof.
  induction s as [| c rest IH]; cbn [split].
  - repeat constructor.
  - destruct (Ascii.eqb c sep) eqn:Hc.
    + constructor; [reflexivity | exact IH].
    + destruct (split sep rest) as [| piece pieces].
      * repeat constructor. cbn [includes]. rewrite Hc. reflexivity.
      * inversion IH as [| ? ? Hp Hps]; subst.
        constructor; [| exact Hps]. cbn [includes]. rewrite Hc, Hp. reflexivity.
Qed.

Lemma trimStart_free (c : ascii) (s : string) :
  includes c s = false -> includes c (trimStart s) = false.
Proof.
  induction s as [| d rest IH]; [reflexivity |].
  intros H. cbn [trimStart]. destruct (is_white_space d); [| exact H].
  cbn [includes] in H. apply orb_false_iff in H as [_ H]. exact (IH H).
Qed.

Lemma trimEnd_cons (c : ascii) (rest : string) :
  trimEnd (String c rest)
  = match trimEnd rest with
    | EmptyString => if is_white_space c then EmptyString else String c EmptyString
    | kept => String c kept
    end.
Proof. reflexivity. Qed.

Lemma trimEnd_free (c : ascii) (s : string) :
  includes c s = false -> includes c (trimEnd s) = false.
Proof.
  induction s as [| d rest IH]; [reflexivity |].
  intros H. cbn [includes] in H. apply orb_false_iff in H as [Hd H].
  specialize (IH H). rewrite trimEnd_cons.
  destruct (trimEnd rest) as [| e kept].
  - destruct (is_white_space d); [reflexivity |].
    cbn [includes]. rewrite Hd. reflexivity.
  - cbn [includes] in IH |- *. rewrite Hd. exact IH.
Qed.

Lemma trimStart_headed (s : string) : headed (trimStart s) = true.
Proof.
  induction s as [| c rest IH]; [reflexivity |].
  cbn [trimStart]. destruct (is_white_space c) eqn:Hc; [exact IH |].
  cbn [headed]. rewrite Hc. reflexivity.
Qed.

Lemma trimStart_of_headed (s : string) : headed s = true -> trimStart s = s.
Proof.
  destruct s as [| c rest]; [reflexivity |].
  cbn [headed trimStart]. destruct (is_white_space c); [discriminate | reflexivity].
Qed.

Lemma trimEnd_headed (s : string) : headed s = true -> headed (trimEnd s) = true.
Proof.
  destruct s as [| c rest]; [reflexivity |].
  rewrite trimEnd_cons. cbn [headed]. intros H.
  destruct (trimEnd rest); [| exact H].
  destruct (is_white_space c) eqn:Hc; [reflexivity |].
  cbn [headed]. rewrite Hc. reflexivity.
Qed.

Lemma trimEnd_twice (s : string) : trimEnd (trimEnd s) = trimEnd s.
Proof.
  induction s as [| c rest IH]; [reflexivity |].
  rewrite trimEnd_cons.
  destruct (trimEnd rest) as [| d kept] eqn:E.
  - destruct (is_white_space c) eqn:Hc; [reflexivity |].
    rewrite trimEnd_cons. cbn [trimEnd]. rewrite Hc. reflexivity.
  - rewrite trimEnd_cons, IH. reflexivity.
Qed.

Lemma trim_twice (s : string) : trim (trim s) = trim s.
Proof.
  unfold trim.
  rewrite (trimStart_of_headed (trimEnd (trimStart s)))
    by (apply trimEnd_headed, trimStart_headed).
  apply trimEnd_twice.
Qed.

Lemma first_other_than_In (skip : string) (ids : list string) (id : string) :
  first_other_than skip ids = Some id -> In id ids /\ id <> skip.
Proof.
  induction ids as [| i ids IH]; cbn [first_other_than]; [discriminate |].
  destruct (String.eqb i skip) eqn:E.
  - intros H. destruct (IH H). split; [right |]; assumption.
  - intros H. inversion H; subst i. apply String.eqb_neq in E.
    split; [left; reflexivity | exact E].
Qed.

Lemma tenant_of_header_returned (resourceUri : string) (resourceTenant : JSValue)
    (tenant : string) :
  tenant_of_header resourceUri resourceTenant = Return tenant ->
  exists value piece,
    resourceTenant = JString value
    /\ In piece (split "," value)
    /\ tenant = trim piece.
Proof.
  unfold tenant_of_header.
  destruct (truthy resourceTenant); [| discriminate].
  destruct resourceTenant as [| | b | n | value | elems | props]; try discriminate.
  destruct (1 <? List.length (split "," value))%nat.
  - destruct (first_other_than EmptyGuid (split "," value)) as [id |] eqn:E;
      [| discriminate].
    intros H. inversion H. exists value, id.
    destruct (first_other_than_In _ _ _ E) as [Hin _]. repeat split. exact Hin.
  - destruct (split "," value) as [| id ids] eqn:E; [discriminate |].
    cbn [hd_error]. intros H. inversion H. exists value, id.
    repeat split. rewrite E. left. reflexivity.
Qed.

(** Whenever [getTenantId] returns, the header it read was text, and the
    tenant returned is one of the pieces between the commas of that text,
    trimmed: it has no comma in it and no white space around it (it can be
    empty). *)
Theorem resolved_tenant_is_clean (this : DeviceFlowAuthenticator)
    (inbox : list Exchange) (tenant : string) :
  completion (getTenantId this inbox) = Return tenant ->
  trim tenant = tenant
  /\ includes "," tenant = false
  /\ exists x rest value piece,
       inbox = x :: rest
       /\ header_read (settlement x) = Return (JString value)
       /\ In piece (split "," value)
       /\ tenant = trim piece.
Proof.
  destruct inbox as [| x rest]; [rewrite getTenantId_starved; discriminate |].
  rewrite getTenantId_run. cbn [completion].
  destruct (header_read (settlement x)) as [header | e |] eqn:Hh; try discriminate.
  cbn [andThen]. intros H.
  destruct (tenant_of_header_returned _ _ _ H) as (value & piece & -> & Hin & ->).
  split; [apply trim_twice |]. split.
  - unfold trim. apply trimEnd_free, trimStart_free.
    pose proof (split_pieces_free "," value) as F.
    rewrite Forall_forall in F. apply F. exact Hin.
  - exists x, rest, value, piece. repeat split; assumption.
Qed.

(** The device-code request and the polls go to the same authority: the
    consumer one when the session has no tenant, an empty one or the
    all-zero id, and otherwise the one of the organisation, under the
    tenant as it is stored. *)
Theorem endpoints_agree (this : DeviceFlowAuthenticator) (code : JSValue) :
  exists authority : string,
    url (deviceCodeOptions this) = (authority ++ "/oauth2/devicecode")%string
    /\ url (pollOptions this code) = (authority ++ "/oauth2/token")%string
    /\ (tenantId this = None \/ tenantId this = Some EmptyString
        \/ tenantId this = Some EmptyGuid ->
        authority = "https://login.microsoftonline.com/live.com")
    /\ (forall tenant, tenantId this = Some tenant ->
                       String.eqb tenant "" = false ->
                       String.eqb tenant EmptyGuid = false ->
                       authority = ("https://login.microsoft.com/" ++ tenant)%string).
Proof.
  unfold deviceCodeOptions, pollOptions, devicecode_url, token_url, msa_backed,
    tenantId_text. cbn [url].
  destruct (tenantId this) as [tenant |].
  - destruct (String.eqb tenant "" || String.eqb tenant EmptyGuid)%bool eqn:E.
    + exists "https://login.microsoftonline.com/live.com".
      split; [reflexivity |]. split; [reflexivity |]. split; [reflexivity |].
      intros t Ht H1 H2. inversion Ht; subst t. rewrite H1, H2 in E. discriminate.
    + exists ("https://login.microsoft.com/" ++ tenant)%string.
      split; [reflexivity |]. split; [reflexivity |]. split.
      * apply orb_false_iff in E as [E1 E2].
        intros [H | [H | H]]; [discriminate | |]; inversion H; subst tenant;
          discriminate.
      * intros t Ht _ _. inversion Ht. reflexivity.
  - exists "https://login.microsoftonline.com/live.com".
    split; [reflexivity |]. split; [reflexivity |]. split; [reflexivity |].
    intros t Ht. discriminate.
Qed.
(** *** A fresh authenticator *)

(** An authenticator as the constructor returns it has no device code: a
    wait on it fails at the guard, naming the endpoint with its trailing
    separator, and sends nothing.  [GetDeviceFlowDetails] on it starts
    with the probe of that endpoint. *)
Theorem fresh_authenticator_cannot_wait (uri : string)
    (authOptions : IDeviceFlowAuthenticationOptions.t)
    (tokenOptions : option IDeviceFlowTokenOptions.t)
    (this : DeviceFlowAuthenticator) (inbox : list Exchange) :
  constructor uri authOptions tokenOptions = Return this ->
  let w := WaitForPersonalAccessToken this inbox in
  let d := GetDeviceFlowDetails this inbox in
  completion w
  = Throw (Error ("Valid device code not found for " ++ addTrailingSeparator uri "/"
                  ++ ". Ensure that a device code was requested."))
  /\ trace w = []
  /\ unread w = inbox
  /\ (exists more,
         requests (trace d)
         = {| method := HEAD; url := addTrailingSeparator uri "/";
              headers := MethodValue "getUserAgentHeaders";
              payload := NoPayload |} :: more)
  /\ last_char (addTrailingSeparator uri "/") = Some "/"%char.
Proof.
  intros Hb.
  destruct (constructor_builds uri authOptions tokenOptions this Hb)
    as (options & _ & Hu & Hl & _ & _ & _ & _ & _ & _ & _ & _ & Hd & _).
  cbv zeta. rewrite <- Hu.
  split; [| split; [| split; [| split]]].
  - unfold WaitForPersonalAccessToken. rewrite bind_read_this. cbv beta.
    rewrite Hd. reflexivity.
  - unfold WaitForPersonalAccessToken. rewrite bind_read_this. cbv beta.
    rewrite Hd. reflexivity.
  - unfold WaitForPersonalAccessToken. rewrite bind_read_this. cbv beta.
    rewrite Hd. reflexivity.
  - unfold GetDeviceFlowDetails. rewrite bind_trace, getTenantId_trace.
    cbn [app requests]. eexists. reflexivity.
  - exact Hl.
Qed.

(** *** The sleeps of a wait *)

Lemma while_waiting_sleeps_at_least (rest waited : list Exchange) :
  forall (this : DeviceFlowAuthenticator) (s : Num) (accessToken : JSValue),
    still_waiting this accessToken = true ->
    forallb (fun y => undisturbed y && keeps_waiting this y)%bool waited = true ->
    (S (List.length waited)
     <= List.length (sleeps (trace (while_waiting (waited ++ rest)%list this s accessToken))))%nat.
Proof.
  induction waited as [| y waited IH]; intros this s accessToken W Hq.
  - cbn [app List.length]. destruct rest as [| x rest].
    + rewrite while_waiting_starved by assumption. cbn. lia.
    + rewrite while_waiting_turn by assumption.
      destruct (poll_outcome (token_url this) (settlement x));
        cbn [trace sleeps List.length]; lia.
  - cbn [forallb] in Hq. apply andb_true_iff in Hq as [Hy Hq].
    apply andb_true_iff in Hy as [Hu Hk].
    destruct (keeps_waiting_still this y (still_waiting_not_canceled _ _ W) Hk)
      as (status & Hs & W').
    cbn [app]. rewrite while_waiting_turn by assumption. rewrite Hs.
    rewrite (undisturbed_self this y Hu).
    pose proof (IH this (next_interval s accessToken) status W' Hq).
    cbn [trace sleeps List.length]. lia.
Qed.

(** As long as the answers say [PENDING] or [BACKOFF] and nobody cancels,
    the wait sleeps once after each of them. *)
Lemma WaitForPersonalAccessToken_sleeps_at_least (this : DeviceFlowAuthenticator)
    (waited rest : list Exchange) :
  truthy (deviceCode this) = true ->
  cancelFlag this = false ->
  forallb (fun y => undisturbed y && keeps_waiting this y)%bool waited = true ->
  (List.length waited
   <= List.length (sleeps (trace (WaitForPersonalAccessToken this (waited ++ rest)%list))))%nat.
Proof.
  intros Hd Hc Hq.
  rewrite (WaitForPersonalAccessToken_trace this _ Hd), sleeps_app, length_app.
  apply Nat.le_trans
    with (List.length (sleeps (trace (polling this this (waited ++ rest)%list)))); [| lia].
  unfold polling. rewrite bind_trace, sleeps_app, length_app.
  destruct waited as [| y waited]; [cbn [List.length]; lia |].
  cbn [forallb] in Hq. apply andb_true_iff in Hq as [Hy Hq].
  apply andb_true_iff in Hy as [Hu Hk].
  destruct (keeps_waiting_still this y Hc Hk) as (status & Hs & W).
  cbn [app]. rewrite poll_run. cbn [completion self trace unread].
  rewrite Hs, (undisturbed_self this y Hu).
  pose proof (while_waiting_sleeps_at_least rest waited this (interval this) status W Hq).
  cbn [sleeps List.length] in *. lia.
Qed.

(** C2.  In a call that starts from an interval of 5000 ms, the [k]-th
    sleep lasts 5000 ms doubled once for every [BACKOFF] among the polls
    made before it: 10000 ms after one, 20000 ms after two.  From one sleep
    to the next the interval is doubled when the poll between them said
    [BACKOFF] and kept when it said [PENDING]; it never decreases.  And the
    sleeps are made: while the answers say [PENDING] or [BACKOFF] and
    nobody cancels, the wait sleeps after each answer, for the current
    interval (5000 ms at first, then that of the sleep before) as it is
    on [PENDING] and doubled on [BACKOFF]. *)
Theorem backoff_doubles_the_sleep (this : DeviceFlowAuthenticator)
    (inbox : list Exchange) :
  interval this = Int 5000 ->
  let slept := sleeps (trace (WaitForPersonalAccessToken this inbox)) in
  (forall k ms,
      nth_error slept k = Some ms ->
      ms = Int (5000 * 2 ^ backoffs this (firstn (S k) inbox))
      /\ (backoffs this (firstn (S k) inbox) = 0 -> ms = Int 5000)
      /\ (backoffs this (firstn (S k) inbox) = 1 -> ms = Int 10000)
      /\ (backoffs this (firstn (S k) inbox) = 2 -> ms = Int 20000))
  /\ (forall k a b x,
      nth_error slept k = Some a ->
      nth_error slept (S k) = Some b ->
      nth_error inbox (S k) = Some x ->
      b = if backs_off this x then Num_mul a 2 else a)
  /\ (forall j k a b,
      (j <= k)%nat ->
      nth_error slept j = Some a ->
      nth_error slept k = Some b ->
      exists m n, a = Int m /\ b = Int n /\ m <= n)
  /\ (truthy (deviceCode this) = true ->
      cancelFlag this = false ->
      forall k x,
        nth_error inbox k = Some x ->
        forallb (fun y => undisturbed y && keeps_waiting this y)%bool
                (firstn (S k) inbox) = true ->
        let current := Int (5000 * 2 ^ backoffs this (firstn k inbox)) in
        nth_error slept k
        = Some (if backs_off this x then Num_mul current 2 else current)
        /\ (k = 0%nat -> current = Int 5000)
        /\ (forall j, k = S j -> nth_error slept j = Some current)).
Proof.
  intros Hi slept.
  assert (closed : forall k ms, nth_error slept k = Some ms ->
                     ms = Int (5000 * 2 ^ backoffs this (firstn (S k) inbox)))
    by (intros k ms H; exact (WaitForPersonalAccessToken_sleeps this inbox k ms 5000 Hi H)).
  split; [| split; [| split]].
  - intros k ms H. pose proof (closed k ms H) as E.
    split; [exact E |].
    repeat split; intros B; rewrite B in E; exact E.
  - intros k a b x Ha Hb Hx.
    rewrite (closed _ _ Ha), (closed _ _ Hb).
    rewrite (firstn_snoc inbox (S k) x Hx), backoffs_app, backoffs_cons.
    pose proof (backoffs_nonneg this (firstn (S k) inbox)).
    change (backoffs this []) with 0.
    destruct (backs_off this x); cbn [Num_mul]; f_equal.
    + rewrite Z.add_0_r, Z.pow_add_r by lia. lia.
    + rewrite !Z.add_0_r. reflexivity.
  - intros j k a b Hjk Ha Hb.
    rewrite (closed _ _ Ha), (closed _ _ Hb).
    do 2 eexists; split; [reflexivity | split; [reflexivity |]].
    destruct (firstn_more inbox (S j) (S k) ltac:(lia)) as [more Hmore].
    rewrite Hmore, backoffs_app.
    pose proof (backoffs_nonneg this (firstn (S j) inbox)).
    pose proof (backoffs_nonneg this more).
    apply Z.mul_le_mono_nonneg_l; [lia |].
    apply Z.pow_le_mono_r; lia.
  - intros Hd Hc k x Hx Hq current.
    assert (Hk : (k < List.length inbox)%nat)
      by (apply nth_error_Some; rewrite Hx; discriminate).
    assert (enough : (S k <= List.length slept)%nat).
    { pose proof (WaitForPersonalAccessToken_sleeps_at_least this
                    (firstn (S k) inbox) (skipn (S k) inbox) Hd Hc Hq) as L.
      rewrite firstn_skipn, length_firstn in L. subst slept. lia. }
    assert (made : forall i, (i <= k)%nat ->
                     nth_error slept i
                     = Some (Int (5000 * 2 ^ backoffs this (firstn (S i) inbox)))).
    { intros i Hik.
      destruct (nth_error slept i) as [ms |] eqn:E.
      - rewrite (closed i ms E). reflexivity.
      - apply nth_error_None in E. lia. }
    split; [| split].
    + rewrite (made k (Nat.le_refl k)). f_equal.
      rewrite (firstn_snoc inbox k x Hx), backoffs_app, backoffs_cons.
      pose proof (backoffs_nonneg this (firstn k inbox)).
      change (backoffs this []) with 0. subst current.
      destruct (backs_off this x); cbn [Num_mul]; f_equal.
      * rewrite Z.add_0_r, Z.pow_add_r by lia. lia.
      * rewrite !Z.add_0_r. reflexivity.
    + intros ->. reflexivity.
    + intros j ->. apply made. lia.
Qed.

(** *** Trimming, as the language defines it *)

(** The white space that [String.prototype.trim] removes, among the code
    units below 256: tab, line feed, vertical tab, form feed, carriage
    return, space and no-break space. *)
Definition WhiteSpace : list nat := [9; 10; 11; 12; 13; 32; 160]%nat.

Definition blank (c : ascii) : bool :=
  existsb (Nat.eqb (nat_of_ascii c)) WhiteSpace.

Fixpoint all_blank (s : string) : bool :=
  match s with
  | EmptyString => true
  | String c rest => (blank c && all_blank rest)%bool
  end.

(** [tenant] is [piece] without the white space at its two ends: what was
    cut off is white space only, and [tenant] neither starts nor ends with
    white space. *)
Definition trimmed_of (piece tenant : string) : Prop :=
  exists leading trailing : string,
    piece = (leading ++ tenant ++ trailing)%string
    /\ all_blank leading = true
    /\ all_blank trailing = true
    /\ (forall c rest, tenant = String c rest -> blank c = false)
    /\ (forall c, last_char tenant = Some c -> blank c = false).

Lemma is_white_space_blank (c : ascii) : is_white_space c = blank c.
Proof.
  unfold is_white_space, blank, WhiteSpace. cbn [existsb].
  rewrite orb_false_r, !orb_assoc. reflexivity.
Qed.

Lemma trimStart_cut (s : string) :
  exists leading, s = (leading ++ trimStart s)%string /\ all_blank leading = true.
Proof.
  induction s as [| c rest (leading & E & B)].
  - exists EmptyString. split; reflexivity.
  - cbn [trimStart]. destruct (is_white_space c) eqn:Hc.
    + exists (String c leading). split.
      * cbn [append]. rewrite <- E. reflexivity.
      * cbn [all_blank]. rewrite <- is_white_space_blank, Hc, B. reflexivity.
    + exists EmptyString. split; reflexivity.
Qed.

Lemma trimEnd_cut (s : string) :
  exists trailing, s = (trimEnd s ++ trailing)%string /\ all_blank trailing = true.
Proof.
  induction s as [| c rest (trailing & E & B)].
  - exists EmptyString. split; reflexivity.
  - rewrite trimEnd_cons. destruct (trimEnd rest) as [| d kept].
    + cbn [append] in E. destruct (is_white_space c) eqn:Hc.
      * exists (String c rest). split; [reflexivity |].
        cbn [all_blank]. rewrite <- is_white_space_blank, Hc, E, B. reflexivity.
      * exists rest. split; [reflexivity |]. rewrite E. exact B.
    + exists trailing. split; [| exact B].
      cbn [append] in E |- *. rewrite <- E. reflexivity.
Qed.

Lemma trimEnd_last (s : string) (c : ascii) :
  last_char (trimEnd s) = Some c -> blank c = false.
Proof.
  revert c. induction s as [| a rest IH]; intros c; [discriminate |].
  rewrite trimEnd_cons. destruct (trimEnd rest) as [| d kept].
  - destruct (is_white_space a) eqn:Ha; [discriminate |].
    cbn [last_char]. intros H. inversion H; subst.
    rewrite <- is_white_space_blank. exact Ha.
  - intros H. apply IH. exact H.
Qed.

(** The model of [trim] cuts white space, all of it and nothing else, at
    the two ends. *)
Lemma trim_trimmed (s : string) : trimmed_of s (trim s).
Proof.
  destruct (trimStart_cut s) as (leading & E1 & B1).
  destruct (trimEnd_cut (trimStart s)) as (trailing & E2 & B2).
  exists leading, trailing. unfold trim.
  split; [rewrite <- E2; exact E1 |].
  split; [exact B1 |]. split; [exact B2 |]. split.
  - intros c rest H.
    pose proof (trimEnd_headed _ (trimStart_headed s)) as Hh.
    rewrite H in Hh. cbn [headed] in Hh.
    rewrite <- is_white_space_blank. apply negb_true_iff. exact Hh.
  - intros c. apply trimEnd_last.
Qed.

(** C4.  The probe settled and the header value read is the non-empty
    text [value].  If the text holds one id (no comma), [getTenantId]
    returns that id trimmed, whatever it is.  If it holds several,
    [getTenantId] returns, trimmed, the first piece that is not the
    all-zero id as it stands between the commas.  Trimmed means: without
    the white space at its two ends, as [trimmed_of] says it. *)
Theorem tenant_from_the_header (this : DeviceFlowAuthenticator) (x : Exchange)
    (rest : list Exchange) (value : string) :
  header_read (settlement x) = Return (JString value) ->
  value <> "" ->
  (forall id,
      split "," value = [id] ->
      completion (getTenantId this (x :: rest)) = Return (trim id)
      /\ trimmed_of id (trim id))
  /\ (forall skipped id later,
      (1 < List.length (split "," value))%nat ->
      split "," value = (skipped ++ id :: later)%list ->
      Forall (fun i => i = EmptyGuid) skipped ->
      id <> EmptyGuid ->
      completion (getTenantId this (x :: rest)) = Return (trim id)
      /\ trimmed_of id (trim id)).
Proof.
  intros Hread Hvalue.
  apply String.eqb_neq in Hvalue.
  rewrite getTenantId_run. cbn [completion]. rewrite Hread. cbn [andThen].
  unfold tenant_of_header. cbn [truthy]. rewrite Hvalue. cbn [negb].
  split.
  - intros id Hsplit. rewrite Hsplit.
    split; [reflexivity | apply trim_trimmed].
  - intros skipped id later Hmany Hsplit Hall Hid.
    apply Nat.ltb_lt in Hmany. rewrite Hmany.
    rewrite Hsplit, (first_other_than_found EmptyGuid skipped id later Hall Hid).
    split; [reflexivity | apply trim_trimmed].
Qed.

End DeviceFlow.


(* ================================================================== *)
(** ** The methods on the sample data *)

Section Runs.

Let run_constructor := constructor "Linux" "6.1" "8.9.4".
Let run_GetDeviceFlowDetails := GetDeviceFlowDetails JSON_parse_fragment parseInt_decimal.
Let run_WaitForPersonalAccessToken :=
  WaitForPersonalAccessToken JSON_parse_fragment StringToNumber_decimal base64_ascii.
Let run_poll := waitOnResponseAccessToken JSON_parse_fragment.

(** The sample authenticator is what the constructor builds. *)
Example sample_constructed :
  run_constructor "https://acct.example.com"
    {| IDeviceFlowAuthenticationOptions.authorityHost := None;
       IDeviceFlowAuthenticationOptions.clientId :=
         "00000000-0000-0000-0000-000000000000";
       IDeviceFlowAuthenticationOptions.redirectUri := "https://some-url.com";
       IDeviceFlowAuthenticationOptions.userAgent := None |}
    (Some {| IDeviceFlowTokenOptions.grantType := None;
             IDeviceFlowTokenOptions.tokenScope := None;
             IDeviceFlowTokenOptions.tokenDescription := None |})
  = Return Sample.fresh.
Proof. reflexivity. Qed.

(** [GetDeviceFlowDetails] on a probe answered with two tenant ids and a
    device-code answer: the details, the session stored, two requests. *)
Example sample_details :
  let r := run_GetDeviceFlowDetails Sample.fresh
             [ Sample.probed (EmptyGuid ++ "," ++ Sample.tenant);
               Sample.deviceCodeIssued ] in
  completion r
  = Return {| Message := JString "To sign in, open https://aka.ms/devicelogin";
              UserCode := JString "BWYPRWXU8";
              VerificationUrl := JString "https://aka.ms/devicelogin" |}
  /\ self r = Sample.ready
  /\ List.map url (requests (trace r))
     = [ "https://acct.example.com/";
         "https://login.microsoft.com/11111111-1111-1111-1111-111111111111/oauth2/devicecode" ].
Proof. vm_compute. repeat split. Qed.

(** [PENDING] twice, then a token, then the identity, the location and
    the session token: the call returns the minted token after two sleeps
    of 5000 ms. *)
Example sample_flow :
  let r := run_WaitForPersonalAccessToken Sample.ready
             [ Sample.pending; Sample.pending; Sample.granted;
               Sample.connectionData; Sample.location; Sample.sessionToken ] in
  completion r = Return (JString "pat-52chars")
  /\ sleeps (trace r) = [Int 5000; Int 5000]
  /\ List.map method (requests (trace r)) = [POST; POST; POST; GET; GET; POST]
  /\ forallb (carries "User-Agent") (requests (trace r)) = true.
Proof. vm_compute. repeat split. Qed.

(** Two [BACKOFF] answers, then [PENDING], then the promise of the next
    poll is still open: three sleeps so far. *)
Example sample_backoff :
  let r := run_WaitForPersonalAccessToken Sample.ready
             [ Sample.slow_down; Sample.slow_down; Sample.pending ] in
  completion r = Awaiting
  /\ sleeps (trace r) = [Int 10000; Int 20000; Int 20000].
Proof. vm_compute. repeat split. Qed.

(** [Cancel(true)] while the second poll is in flight, and [Cancel()]
    during the first sleep: the poll of the turn is made, then the call
    throws, or returns [undefined]. *)
Example sample_cancel :
  let canceled_in_flight :=
    {| before := []; in_flight := [Some true];
       settlement := settlement Sample.pending |} in
  let canceled_asleep :=
    {| before := [None]; in_flight := [];
       settlement := settlement Sample.slow_down |} in
  let r1 := run_WaitForPersonalAccessToken Sample.ready
              [Sample.pending; canceled_in_flight; Sample.granted] in
  let r2 := run_WaitForPersonalAccessToken Sample.ready
              [Sample.pending; canceled_asleep; Sample.granted] in
  (completion r1 = Throw (Error "Request canceled by user.")
   /\ List.length (requests (trace r1)) = 2%nat
   /\ sleeps (trace r1) = [Int 5000])
  /\ (completion r2 = Return JUndefined
      /\ List.length (requests (trace r2)) = 2%nat
      /\ sleeps (trace r2) = [Int 5000]).
Proof. vm_compute. repeat split. Qed.

End Runs.

(* ================================================================== *)
(** ** The theorems at concrete inputs *)

(** [poll_classification] at the five sample answers. *)
Lemma poll_classification_witness :
  let poll x := completion (waitOnResponseAccessToken JSON_parse_fragment
                              (deviceCode Sample.ready) Sample.ready [x]) in
  let no_token := Sample.object [Sample.member "token_type" "Bearer"] in
  poll Sample.granted = Return (JString "eyJ0eXAi")
  /\ poll Sample.pending = Return (JString "PENDING")
  /\ poll Sample.slow_down = Return (JString "BACKOFF")
  /\ poll Sample.bad_code = Return (JString "BADCODE")
  /\ poll Sample.expired = Return (JString "EXPIRED")
  /\ poll (Sample.quiet (Resolved (JString no_token)))
     = Throw (Error ("Did not receive an access token from "
                     ++ token_url Sample.ready ++ ". Body: " ++ no_token))
  /\ poll (Sample.quiet (Resolved (JString "<html>Sign in</html>")))
     = Throw SyntaxError
  /\ poll (Sample.quiet (Sample.bad_request "null")) = Throw TypeError.
Proof.
  cbv zeta. split; [| split; [| split; [| split; [| split; [| split; [| split]]]]]].
  - eapply (proj1 (poll_classification JSON_parse_fragment Sample.ready
                     (deviceCode Sample.ready) Sample.granted []));
      [reflexivity | vm_compute; reflexivity | reflexivity | reflexivity].
  - eapply (proj1 (proj2 (poll_classification JSON_parse_fragment Sample.ready
                            (deviceCode Sample.ready) Sample.pending [])))
      with (code := "authorization_pending");
      [reflexivity | reflexivity | reflexivity | reflexivity
       | vm_compute; reflexivity | reflexivity | cbn; auto].
  - eapply (proj1 (proj2 (poll_classification JSON_parse_fragment Sample.ready
                            (deviceCode Sample.ready) Sample.slow_down [])))
      with (code := "slow_down");
      [reflexivity | reflexivity | reflexivity | reflexivity
       | vm_compute; reflexivity | reflexivity | cbn; auto].
  - eapply (proj1 (proj2 (poll_classification JSON_parse_fragment Sample.ready
                            (deviceCode Sample.ready) Sample.bad_code [])))
      with (code := "bad_verification_code");
      [reflexivity | reflexivity | reflexivity | reflexivity
       | vm_compute; reflexivity | reflexivity | cbn; auto].
  - eapply (proj1 (proj2 (poll_classification JSON_parse_fragment Sample.ready
                            (deviceCode Sample.ready) Sample.expired [])))
      with (code := "code_expired");
      [reflexivity | reflexivity | reflexivity | reflexivity
       | vm_compute; reflexivity | reflexivity | cbn; auto 6].
  - pose proof (poll_classification JSON_parse_fragment Sample.ready
                  (deviceCode Sample.ready)
                  (Sample.quiet (Resolved (JString
                     (Sample.object [Sample.member "token_type" "Bearer"])))) [])
      as (_ & _ & _ & _ & _ & _ & H & _).
    apply (H (JString (Sample.object [Sample.member "token_type" "Bearer"]))
             (JObject [("token_type", JString "Bearer")]) JUndefined);
      [reflexivity | vm_compute; reflexivity | reflexivity | reflexivity].
  - pose proof (poll_classification JSON_parse_fragment Sample.ready
                  (deviceCode Sample.ready)
                  (Sample.quiet (Resolved (JString "<html>Sign in</html>"))) [])
      as (_ & _ & _ & _ & _ & _ & _ & H & _).
    apply (H (JString "<html>Sign in</html>"));
      [reflexivity | vm_compute; reflexivity].
  - pose proof (poll_classification JSON_parse_fragment Sample.ready
                  (deviceCode Sample.ready)
                  (Sample.quiet (Sample.bad_request "null")) [])
      as (_ & _ & _ & _ & _ & _ & _ & _ & _ & H & _).
    apply (H (StatusCodeError 400 (JString "null") (JObject []))
             (JString "null") JNull TypeError);
      [reflexivity | reflexivity | reflexivity | reflexivity
       | vm_compute; reflexivity | reflexivity].
Defined.

(** C1 as stated fails twice.  A resolved response whose body has an
    [access_token] member, the empty string, gives no token: the poll
    throws.  A 400 whose body is not JSON does not hand on the rejection:
    the poll throws the [SyntaxError] of [JSON.parse]. *)
Lemma poll_classification_counterexample :
  let poll x := completion (waitOnResponseAccessToken JSON_parse_fragment
                              (deviceCode Sample.ready) Sample.ready [x]) in
  let empty_token := Sample.object [Sample.member "access_token" ""] in
  let page := "<html>Bad Request</html>" in
  (JSON_parse_fragment (JString empty_token)
   = Some (JObject [("access_token", JString "")])
   /\ poll (Sample.quiet (Resolved (JString empty_token)))
      = Throw (Error ("Did not receive an access token from "
                      ++ token_url Sample.ready ++ ". Body: " ++ empty_token)))
  /\ (JSON_parse_fragment (JString page) = None
      /\ poll (Sample.quiet (Sample.bad_request page)) = Throw SyntaxError
      /\ SyntaxError <> StatusCodeError 400 (JString page) (JObject [])).
Proof.
  cbv zeta. repeat split; try (vm_compute; reflexivity). discriminate.
Qed.

(** [backoff_doubles_the_sleep] on two [BACKOFF] answers and a [PENDING]:
    the sleeps last 10000, 20000 and again 20000 ms; and on a [PENDING]
    followed by a [BACKOFF]: 5000 and 10000 ms. *)
Lemma backoff_doubles_the_sleep_witness :
  let wait := WaitForPersonalAccessToken JSON_parse_fragment StringToNumber_decimal
                base64_ascii Sample.ready in
  let inbox := [Sample.slow_down; Sample.slow_down; Sample.pending] in
  let slept := sleeps (trace (wait inbox)) in
  let slept' := sleeps (trace (wait [Sample.pending; Sample.slow_down])) in
  interval Sample.ready = Int 5000
  /\ nth_error slept 0 = Some (Int 10000)
  /\ nth_error slept 1 = Some (Int 20000)
  /\ nth_error slept 2 = Some (Int 20000)
  /\ nth_error slept' 0 = Some (Int 5000)
  /\ nth_error slept' 1 = Some (Int 10000)
  /\ (Int 20000 = Int (5000 * 2 ^ backoffs JSON_parse_fragment Sample.ready
                                     (firstn 2 inbox))
      /\ (backoffs JSON_parse_fragment Sample.ready (firstn 2 inbox) = 0
          -> Int 20000 = Int 5000)
      /\ (backoffs JSON_parse_fragment Sample.ready (firstn 2 inbox) = 1
          -> Int 20000 = Int 10000)
      /\ (backoffs JSON_parse_fragment Sample.ready (firstn 2 inbox) = 2
          -> Int 20000 = Int 20000)).
Proof.
  cbv zeta.
  pose proof (backoff_doubles_the_sleep JSON_parse_fragment StringToNumber_decimal
                base64_ascii Sample.ready
                [Sample.slow_down; Sample.slow_down; Sample.pending] eq_refl)
    as (closed & _ & _ & made).
  pose proof (backoff_doubles_the_sleep JSON_parse_fragment StringToNumber_decimal
                base64_ascii Sample.ready
                [Sample.pending; Sample.slow_down] eq_refl)
    as (_ & _ & _ & made').
  specialize (made eq_refl eq_refl). specialize (made' eq_refl eq_refl).
  split; [reflexivity |].
  split; [refine (eq_trans (proj1 (made 0%nat Sample.slow_down eq_refl _)) _);
          vm_compute; reflexivity |].
  split; [refine (eq_trans (proj1 (made 1%nat Sample.slow_down eq_refl _)) _);
          vm_compute; reflexivity |].
  split; [refine (eq_trans (proj1 (made 2%nat Sample.pending eq_refl _)) _);
          vm_compute; reflexivity |].
  split; [refine (eq_trans (proj1 (made' 0%nat Sample.pending eq_refl _)) _);
          vm_compute; reflexivity |].
  split; [refine (eq_trans (proj1 (made' 1%nat Sample.slow_down eq_refl _)) _);
          vm_compute; reflexivity |].
  apply (closed 1%nat (Int 20000)).
  vm_compute; reflexivity.
Defined.

(** [cancellation_at_the_boundary]: after a [PENDING] and a [BACKOFF],
    [Cancel(false)] is called during the sleep of the next turn; the poll
    of that turn is sent and says [PENDING]; the call returns
    [undefined]. *)
Lemma cancellation_at_the_boundary_witness :
  let x := {| before := [Some false]; in_flight := [];
              settlement := settlement Sample.pending |} in
  let r := WaitForPersonalAccessToken JSON_parse_fragment StringToNumber_decimal
             base64_ascii Sample.ready
             ([Sample.pending; Sample.slow_down] ++ x :: [Sample.granted])%list in
  completion r = Return JUndefined
  /\ requests (trace r)
     = repeat (pollOptions Sample.ready (deviceCode Sample.ready)) 3
  /\ List.length (sleeps (trace r)) = 2%nat
  /\ unread r = [Sample.granted].
Proof.
  cbv zeta.
  apply (cancellation_at_the_boundary JSON_parse_fragment StringToNumber_decimal
           base64_ascii Sample.ready [Sample.pending; Sample.slow_down]
           {| before := [Some false]; in_flight := [];
              settlement := settlement Sample.pending |}
           [Sample.granted] [] (Some false) (JString "PENDING"));
    vm_compute; reflexivity.
Defined.

(** C3 as stated fails when the poll during which [Cancel] was called
    says [EXPIRED] (or [BADCODE]): the flag is set when the loop reads it,
    and the call throws the expiry error, whichever way [Cancel] was
    called. *)
Lemma cancellation_at_the_boundary_counterexample :
  let wait arg :=
    WaitForPersonalAccessToken JSON_parse_fragment StringToNumber_decimal
      base64_ascii Sample.ready
      [ {| before := []; in_flight := [arg];
           settlement := settlement Sample.expired |} ] in
  let expiry := Error "Verification code expired for https://acct.example.com/. Could not get an access token." in
  (cancelFlag (self (wait (Some false))) = true
   /\ completion (wait (Some false)) = Throw expiry
   /\ completion (wait (Some false)) <> Return JUndefined)
  /\ (cancelFlag (self (wait (Some true))) = true
      /\ completion (wait (Some true)) = Throw expiry
      /\ completion (wait (Some true)) <> Throw (Error "Request canceled by user.")).
Proof.
  cbv zeta. repeat split; try (vm_compute; reflexivity); vm_compute; discriminate.
Qed.

(** [tenant_from_the_header] on the two header values of the
    specification (the all-zero id followed by a tenant id, and the
    all-zero id alone), and on the same two with white space around the
    ids: a blank after the comma and one at the end, and a blank and a tab
    around the single id. *)
Lemma tenant_from_the_header_witness :
  let resolved value := completion (getTenantId Sample.fresh [Sample.probed value]) in
  let tab := String "009"%char EmptyString in
  resolved (EmptyGuid ++ "," ++ Sample.tenant) = Return Sample.tenant
  /\ resolved EmptyGuid = Return EmptyGuid
  /\ resolved (EmptyGuid ++ ", " ++ Sample.tenant ++ " ") = Return Sample.tenant
  /\ resolved (" " ++ EmptyGuid ++ tab) = Return EmptyGuid
  /\ trimmed_of (" " ++ Sample.tenant ++ " ") Sample.tenant
  /\ trimmed_of (" " ++ EmptyGuid ++ tab) EmptyGuid.
Proof.
  cbv zeta.
  pose proof (fun value (nonempty : value <> "") =>
                tenant_from_the_header Sample.fresh (Sample.probed value) [] value
                  eq_refl nonempty) as T.
  split; [| split; [| split; [| split; [| split]]]].
  - refine (proj1 (proj2 (T (EmptyGuid ++ "," ++ Sample.tenant)%string _)
                     [EmptyGuid] Sample.tenant [] _ _ _ _)).
    + discriminate.
    + vm_compute; lia.
    + vm_compute; reflexivity.
    + repeat constructor.
    + discriminate.
  - refine (proj1 (proj1 (T EmptyGuid _) EmptyGuid _)).
    + discriminate.
    + vm_compute; reflexivity.
  - refine (proj1 (proj2 (T (EmptyGuid ++ ", " ++ Sample.tenant ++ " ")%string _)
                     [EmptyGuid] (" " ++ Sample.tenant ++ " ")%string [] _ _ _ _)).
    + discriminate.
    + vm_compute; lia.
    + vm_compute; reflexivity.
    + repeat constructor.
    + discriminate.
  - refine (proj1 (proj1 (T (" " ++ EmptyGuid ++ String "009"%char EmptyString)%string _)
                     (" " ++ EmptyGuid ++ String "009"%char EmptyString)%string _)).
    + discriminate.
    + vm_compute; reflexivity.
  - refine (proj2 (proj2 (T (EmptyGuid ++ ", " ++ Sample.tenant ++ " ")%string _)
                     [EmptyGuid] (" " ++ Sample.tenant ++ " ")%string [] _ _ _ _)).
    + discriminate.
    + vm_compute; lia.
    + vm_compute; reflexivity.
    + repeat constructor.
    + discriminate.
  - refine (proj2 (proj1 (T (" " ++ EmptyGuid ++ String "009"%char EmptyString)%string _)
                     (" " ++ EmptyGuid ++ String "009"%char EmptyString)%string _)).
    + discriminate.
    + vm_compute; reflexivity.
Defined.

(** [wait_needs_a_device_code] on the sample authenticator: as
    constructed, and after a [GetDeviceFlowDetails] whose probe found no
    tenant header. *)
Lemma wait_needs_a_device_code_witness :
  let wait := WaitForPersonalAccessToken JSON_parse_fragment StringToNumber_decimal
                base64_ascii in
  let failed := GetDeviceFlowDetails JSON_parse_fragment parseInt_decimal
                  Sample.fresh
                  [Sample.quiet (Rejected (StatusCodeError 401 (JString "") (JObject [])))] in
  wait Sample.fresh [Sample.granted]
  = {| completion :=
         Throw (Error ("Valid device code not found for " ++ resourceUri Sample.fresh
                       ++ ". Ensure that a device code was requested."));
       self := Sample.fresh; trace := []; unread := [Sample.granted] |}
  /\ truthy (deviceCode Sample.fresh) = false
  /\ truthy (deviceCode (self failed)) = false.
Proof.
  cbv zeta.
  pose proof (wait_needs_a_device_code JSON_parse_fragment parseInt_decimal
                StringToNumber_decimal base64_ascii "Linux" "6.1" "8.9.4")
    as (Hguard & Hfresh & Hfailed).
  split; [| split].
  - apply Hguard. reflexivity.
  - apply (Hfresh "https://acct.example.com"
             {| IDeviceFlowAuthenticationOptions.authorityHost := None;
                IDeviceFlowAuthenticationOptions.clientId :=
                  "00000000-0000-0000-0000-000000000000";
                IDeviceFlowAuthenticationOptions.redirectUri := "https://some-url.com";
                IDeviceFlowAuthenticationOptions.userAgent := None |}
             (Some {| IDeviceFlowTokenOptions.grantType := None;
                      IDeviceFlowTokenOptions.tokenScope := None;
                      IDeviceFlowTokenOptions.tokenDescription := None |})).
    reflexivity.
  - apply Hfailed; vm_compute; reflexivity.
Defined.

(** [token_request_body] on the sample answers: the body of the POST. *)
Lemma token_request_body_witness :
  let r := getScopedCompactAccessToken JSON_parse_fragment StringToNumber_decimal
             base64_ascii (JString "eyJ0eXAi") (JString "826a066b-dce1")
             Sample.ready [Sample.location; Sample.sessionToken] in
  let options := sessionTokenOptions base64_ascii Sample.ready
                   (JString "https://sps.example.com/A0efb/")
                   (JString "eyJ0eXAi") (JString "826a066b-dce1") in
  completion r = Return (JString "pat-52chars")
  /\ In options (requests (trace r))
  /\ payload options
     = JsonBody
         [ ("scope", JString "");
           ("targetAccounts",
            JString ("[" ++ double_quote ++ "826a066b-dce1" ++ double_quote ++ "]"));
           ("displayName", JString "vsts-device-flow-auth Personal Access Token") ].
Proof.
  cbv zeta.
  split; [vm_compute; reflexivity |].
  split; [vm_compute; auto |].
  apply (token_request_body JSON_parse_fragment StringToNumber_decimal base64_ascii
           (JString "eyJ0eXAi") (JString "826a066b-dce1") Sample.ready
           [Sample.location; Sample.sessionToken]).
  - vm_compute; auto.
  - reflexivity.
Defined.

(** C8 as stated fails: the [targetAccounts] member of the body sent is a
    string, the text of the array, and not the array. *)
Lemma token_request_body_counterexample :
  let r := getScopedCompactAccessToken JSON_parse_fragment StringToNumber_decimal
             base64_ascii (JString "eyJ0eXAi") (JString "826a066b-dce1")
             Sample.ready [Sample.location; Sample.sessionToken] in
  let text := ("[" ++ double_quote ++ "826a066b-dce1" ++ double_quote ++ "]")%string in
  List.map payload (requests (trace r))
  = [ NoPayload;
      JsonBody
        [ ("scope", JString "");
          ("targetAccounts", JString text);
          ("displayName", JString "vsts-device-flow-auth Personal Access Token") ] ]
  /\ JSON_parse_fragment (JString text) = Some (JArray [JString "826a066b-dce1"])
  /\ JString text <> JArray [JString "826a066b-dce1"].
Proof.
  cbv zeta. repeat split; try (vm_compute; reflexivity). discriminate.
Qed.

(** [cancellation_discards_the_token]: [Cancel(true)] is called while the
    poll that brings the token is in flight; the call throws, and the one
    request made is that poll. *)
Lemma cancellation_discards_the_token_witness :
  let inbox := [ {| before := []; in_flight := [Some true];
                    settlement := settlement Sample.granted |};
                 Sample.connectionData; Sample.location; Sample.sessionToken ] in
  let r := WaitForPersonalAccessToken JSON_parse_fragment StringToNumber_decimal
             base64_ascii Sample.ready inbox in
  completion (polling JSON_parse_fragment Sample.ready Sample.ready inbox)
  = Return (JString "eyJ0eXAi")
  /\ completion r = Throw (Error "Request canceled by user.")
  /\ requests (trace r) = [pollOptions Sample.ready (deviceCode Sample.ready)]
  /\ unread r = [Sample.connectionData; Sample.location; Sample.sessionToken].
Proof.
  cbv zeta.
  pose proof (cancellation_discards_the_token JSON_parse_fragment
                StringToNumber_decimal base64_ascii Sample.ready
                [ {| before := []; in_flight := [Some true];
                     settlement := settlement Sample.granted |};
                  Sample.connectionData; Sample.location; Sample.sessionToken ]
                (JString "eyJ0eXAi")
                ltac:(reflexivity) ltac:(vm_compute; reflexivity)
                ltac:(vm_compute; reflexivity) ltac:(reflexivity))
    as (Hc & Ht & _ & Hu & _).
  split; [vm_compute; reflexivity |].
  split; [exact Hc |].
  split; [rewrite Ht; vm_compute; reflexivity | rewrite Hu; vm_compute; reflexivity].
Defined.

(** [fresh_authenticator_cannot_wait] on the sample authenticator, which
    is what the constructor returns. *)
Lemma fresh_authenticator_cannot_wait_witness :
  let w := WaitForPersonalAccessToken JSON_parse_fragment StringToNumber_decimal
             base64_ascii Sample.fresh [Sample.granted] in
  completion w
  = Throw (Error "Valid device code not found for https://acct.example.com/. Ensure that a device code was requested.")
  /\ trace w = []
  /\ unread w = [Sample.granted].
Proof.
  cbv zeta.
  pose proof (fresh_authenticator_cannot_wait JSON_parse_fragment parseInt_decimal
                StringToNumber_decimal base64_ascii "Linux" "6.1" "8.9.4"
                "https://acct.example.com"
                {| IDeviceFlowAuthenticationOptions.authorityHost := None;
                   IDeviceFlowAuthenticationOptions.clientId :=
                     "00000000-0000-0000-0000-000000000000";
                   IDeviceFlowAuthenticationOptions.redirectUri :=
                     "https://some-url.com";
                   IDeviceFlowAuthenticationOptions.userAgent := None |}
                (Some {| IDeviceFlowTokenOptions.grantType := None;
                         IDeviceFlowTokenOptions.tokenScope := None;
                         IDeviceFlowTokenOptions.tokenDescription := None |})
                Sample.fresh [Sample.granted] eq_refl) as (H1 & H2 & H3 & _).
  split; [exact H1 | split; [exact H2 | exact H3]].
Defined.

(** [canceled_for_good]: [Cancel()] was called before the wait; the token
    that the first poll brings is dropped. *)
Lemma canceled_for_good_witness :
  let this := Cancel None Sample.ready in
  let r := WaitForPersonalAccessToken JSON_parse_fragment StringToNumber_decimal
             base64_ascii this
             [Sample.granted; Sample.connectionData; Sample.location;
              Sample.sessionToken] in
  cancelFlag (self r) = true
  /\ trace r = [Requested (pollOptions this (deviceCode this))].
Proof.
  cbv zeta.
  pose proof (canceled_for_good JSON_parse_fragment parseInt_decimal
                StringToNumber_decimal base64_ascii (Cancel None Sample.ready)
                [Sample.granted; Sample.connectionData; Sample.location;
                 Sample.sessionToken] eq_refl) as (_ & H2 & H3).
  split; [exact H2 | exact (proj1 (H3 eq_refl))].
Defined.

(** [wait_polls_between_sleeps] on the whole sample flow. *)
Lemma wait_polls_between_sleeps_witness :
  let r := WaitForPersonalAccessToken JSON_parse_fragment StringToNumber_decimal
             base64_ascii Sample.ready
             [Sample.pending; Sample.slow_down; Sample.granted;
              Sample.connectionData; Sample.location; Sample.sessionToken] in
  let poll := Requested (pollOptions Sample.ready (deviceCode Sample.ready)) in
  exists later,
    trace r = (poll :: flat_map (fun ms => [Slept ms; poll]) (sleeps (trace r))
               ++ later)%list
    /\ sleeps later = [].
Proof.
  exact (wait_polls_between_sleeps JSON_parse_fragment StringToNumber_decimal
           base64_ascii Sample.ready
           [Sample.pending; Sample.slow_down; Sample.granted;
            Sample.connectionData; Sample.location; Sample.sessionToken] eq_refl).
Defined.

(** [wait_reports_expiry_and_bad_code]: [PENDING], [BACKOFF], then
    [EXPIRED]. *)
Lemma wait_reports_expiry_and_bad_code_witness :
  let r := WaitForPersonalAccessToken JSON_parse_fragment StringToNumber_decimal
             base64_ascii Sample.ready
             ([Sample.pending; Sample.slow_down]
              ++ Sample.expired :: [Sample.granted])%list in
  completion r
  = Throw (Error "Verification code expired for https://acct.example.com/. Could not get an access token.")
  /\ requests (trace r)
     = repeat (pollOptions Sample.ready (deviceCode Sample.ready)) 3
  /\ List.length (sleeps (trace r)) = 2%nat
  /\ unread r = [Sample.granted].
Proof.
  cbv zeta.
  apply (wait_reports_expiry_and_bad_code JSON_parse_fragment StringToNumber_decimal
           base64_ascii Sample.ready [Sample.pending; Sample.slow_down]
           Sample.expired [Sample.granted] (JString "EXPIRED"));
    vm_compute; reflexivity.
Defined.

(** [wait_hands_on_a_failed_poll]: [PENDING], then a 500. *)
Lemma wait_hands_on_a_failed_poll_witness :
  let failure := StatusCodeError 500 (JString "Internal Server Error") (JObject []) in
  let r := WaitForPersonalAccessToken JSON_parse_fragment StringToNumber_decimal
             base64_ascii Sample.ready
             ([Sample.pending]
              ++ Sample.quiet (Rejected failure) :: [Sample.granted])%list in
  completion r = Throw failure
  /\ requests (trace r)
     = repeat (pollOptions Sample.ready (deviceCode Sample.ready)) 2
  /\ List.length (sleeps (trace r)) = 1%nat
  /\ unread r = [Sample.granted].
Proof.
  cbv zeta.
  apply (wait_hands_on_a_failed_poll JSON_parse_fragment StringToNumber_decimal
           base64_ascii Sample.ready [Sample.pending]
           (Sample.quiet (Rejected (StatusCodeError 500
                                      (JString "Internal Server Error") (JObject []))))
           [Sample.granted]
           (StatusCodeError 500 (JString "Internal Server Error") (JObject [])));
    vm_compute; reflexivity.
Defined.

(** [wait_has_no_time_limit]: an expiry of zero milliseconds, and the
    wait is still polling after three answers. *)
Lemma wait_has_no_time_limit_witness :
  let r := WaitForPersonalAccessToken JSON_parse_fragment StringToNumber_decimal
             base64_ascii (with_expiresIn (Int 0) Sample.ready)
             [Sample.pending; Sample.slow_down; Sample.pending] in
  completion r = Awaiting
  /\ requests (trace r)
     = repeat (pollOptions Sample.ready (deviceCode Sample.ready)) 4
  /\ List.length (sleeps (trace r)) = 3%nat.
Proof.
  cbv zeta.
  apply (wait_has_no_time_limit JSON_parse_fragment StringToNumber_decimal
           base64_ascii Sample.ready (Int 0)
           [Sample.pending; Sample.slow_down; Sample.pending]);
    vm_compute; reflexivity.
Defined.

(** [getIdentityServiceUrl_reads_the_first_mapping] on the sample
    answer. *)
Lemma getIdentityServiceUrl_reads_the_first_mapping_witness :
  completion (getIdentityServiceUrl JSON_parse_fragment StringToNumber_decimal
                base64_ascii (JString "eyJ0eXAi") Sample.ready [Sample.location])
  = Return (JString "https://sps.example.com/A0efb/").
Proof.
  apply (proj1 (proj2 (getIdentityServiceUrl_reads_the_first_mapping
                         JSON_parse_fragment StringToNumber_decimal base64_ascii
                         (JString "eyJ0eXAi") Sample.ready Sample.location []
                         _
                         (JObject
                            [("locationMappings",
                              JArray
                                [JObject
                                   [("location",
                                     JString "https://sps.example.com/A0efb/")]])])
                         eq_refl ltac:(vm_compute; reflexivity)))
           (JObject [("location", JString "https://sps.example.com/A0efb/")]) []);
    reflexivity.
Defined.

(** [wait_mints_the_token] on the whole sample flow. *)
Lemma wait_mints_the_token_witness :
  let token := JString "eyJ0eXAi" in
  let r := WaitForPersonalAccessToken JSON_parse_fragment StringToNumber_decimal
             base64_ascii Sample.ready
             ([Sample.pending; Sample.pending]
              ++ Sample.granted :: Sample.connectionData :: Sample.location
                 :: Sample.sessionToken :: [])%list in
  completion r = Return (JString "pat-52chars")
  /\ requests (trace r)
     = (repeat (pollOptions Sample.ready (deviceCode Sample.ready)) 3
        ++ [ connectionDataOptions base64_ascii Sample.ready token;
             locationServiceOptions base64_ascii Sample.ready token;
             sessionTokenOptions base64_ascii Sample.ready
               (JString "https://sps.example.com/A0efb/") token
               (JString "826a066b-dce1") ])%list
  /\ List.length (sleeps (trace r)) = 2%nat
  /\ unread r = [].
Proof.
  cbv zeta.
  eapply (wait_mints_the_token JSON_parse_fragment StringToNumber_decimal
            base64_ascii Sample.ready [Sample.pending; Sample.pending]
            Sample.granted Sample.connectionData Sample.location
            Sample.sessionToken [] (JString "eyJ0eXAi") (JString "826a066b-dce1")
            (JString "https://sps.example.com/A0efb/") _ _);
    [ reflexivity | reflexivity | vm_compute; reflexivity | reflexivity
    | vm_compute; reflexivity | reflexivity | reflexivity
    | vm_compute; reflexivity | reflexivity | vm_compute; reflexivity ].
Defined.

(** [minted_token_is_not_checked]: the session-token request is answered
    with an object that has no [token], and the call returns
    [undefined]. *)
Lemma minted_token_is_not_checked_witness :
  let answer := JObject [("message", JString "denied")] in
  completion (getScopedCompactAccessToken JSON_parse_fragment StringToNumber_decimal
                base64_ascii (JString "eyJ0eXAi") (JString "826a066b-dce1")
                Sample.ready [Sample.location; Sample.quiet (Resolved answer)])
  = Return JUndefined.
Proof.
  cbv zeta.
  eapply (proj1 (proj2 (minted_token_is_not_checked JSON_parse_fragment
                          StringToNumber_decimal base64_ascii
                          (JString "eyJ0eXAi") (JString "826a066b-dce1")
                          (JString "https://sps.example.com/A0efb/") Sample.ready
                          Sample.location
                          (Sample.quiet (Resolved (JObject [("message", JString "denied")])))
                          [] _ (JObject [("message", JString "denied")])
                          eq_refl ltac:(vm_compute; reflexivity) eq_refl)));
    reflexivity.
Defined.

(** [details_are_stored] on the sample answers: the interval of 5 s is
    stored as 5000 ms. *)
Lemma details_are_stored_witness :
  let r := GetDeviceFlowDetails JSON_parse_fragment parseInt_decimal Sample.fresh
             [ Sample.probed (EmptyGuid ++ "," ++ Sample.tenant);
               Sample.deviceCodeIssued ] in
  tenantId (self r) = Some Sample.tenant
  /\ deviceCode (self r) = JString "BAQABAAEAAABnfiG"
  /\ interval (self r) = Int 5000
  /\ expiresIn (self r) = Int 900000.
Proof.
  cbv zeta.
  pose proof (details_are_stored JSON_parse_fragment parseInt_decimal Sample.fresh
                (Sample.probed (EmptyGuid ++ "," ++ Sample.tenant))
                Sample.deviceCodeIssued []
                (JString (EmptyGuid ++ "," ++ Sample.tenant)) _ Sample.tenant
                [ ("user_code", JString "BWYPRWXU8");
                  ("device_code", JString "BAQABAAEAAABnfiG");
                  ("verification_url", JString "https://aka.ms/devicelogin");
                  ("expires_in", JString "900"); ("interval", JString "5");
                  ("message", JString "To sign in, open https://aka.ms/devicelogin") ]
                eq_refl ltac:(vm_compute; reflexivity) eq_refl
                ltac:(vm_compute; reflexivity))
    as (_ & _ & H3 & H4 & H5 & H6 & _).
  split; [exact H3 | split; [exact H4 | split; [exact H5 | exact H6]]].
Defined.

(** [device_code_failure_keeps_the_tenant]: the connection drops on the
    device-code request. *)
Lemma device_code_failure_keeps_the_tenant_witness :
  let r := GetDeviceFlowDetails JSON_parse_fragment parseInt_decimal Sample.fresh
             [ Sample.probed Sample.tenant;
               Sample.quiet (Rejected (RequestError "ECONNRESET")) ] in
  completion r = Throw (RequestError "ECONNRESET")
  /\ tenantId (self r) = Some Sample.tenant
  /\ deviceCode (self r) = JUndefined.
Proof.
  cbv zeta.
  pose proof (device_code_failure_keeps_the_tenant JSON_parse_fragment
                parseInt_decimal Sample.fresh (Sample.probed Sample.tenant)
                (Sample.quiet (Rejected (RequestError "ECONNRESET"))) []
                (JString Sample.tenant) Sample.tenant
                eq_refl ltac:(vm_compute; reflexivity))
    as (H1 & _ & H3).
  pose proof (H1 (RequestError "ECONNRESET") eq_refl) as Hc.
  split; [exact Hc |].
  destruct (H3 ltac:(rewrite Hc; reflexivity)) as (K1 & K2 & _).
  split; [exact K1 | exact K2].
Defined.

(** [issued_interval_paces_the_wait]: the service says 5 s, the first
    answer of the wait is [BACKOFF], and the first sleep lasts 10000 ms. *)
Lemma issued_interval_paces_the_wait_witness :
  let session := self (GetDeviceFlowDetails JSON_parse_fragment parseInt_decimal
                         Sample.fresh
                         [ Sample.probed Sample.tenant; Sample.deviceCodeIssued ]) in
  let inbox := [Sample.slow_down; Sample.pending; Sample.granted] in
  nth_error (sleeps (trace (WaitForPersonalAccessToken JSON_parse_fragment
                              StringToNumber_decimal base64_ascii session inbox))) 0
  = Some (Int 10000)
  /\ Int 10000
     = Int (5 * 1000 * 2 ^ backoffs JSON_parse_fragment session (firstn 1 inbox)).
Proof.
  cbv zeta. split; [vm_compute; reflexivity |].
  apply (proj1 (issued_interval_paces_the_wait JSON_parse_fragment parseInt_decimal
                  StringToNumber_decimal base64_ascii Sample.fresh
                  (Sample.probed Sample.tenant) Sample.deviceCodeIssued []
                  (JString Sample.tenant) _ Sample.tenant
                  [ ("user_code", JString "BWYPRWXU8");
                    ("device_code", JString "BAQABAAEAAABnfiG");
                    ("verification_url", JString "https://aka.ms/devicelogin");
                    ("expires_in", JString "900"); ("interval", JString "5");
                    ("message",
                     JString "To sign in, open https://aka.ms/devicelogin") ]
                  eq_refl ltac:(vm_compute; reflexivity) eq_refl
                  ltac:(vm_compute; reflexivity))
           5 [Sample.slow_down; Sample.pending; Sample.granted] 0%nat (Int 10000));
    vm_compute; reflexivity.
Defined.

(** [details_without_a_device_code]: the device-code request is answered
    with a message only. *)
Lemma details_without_a_device_code_witness :
  let r := GetDeviceFlowDetails JSON_parse_fragment parseInt_decimal Sample.fresh
             [ Sample.probed Sample.tenant;
               Sample.quiet (Resolved (JString
                 (Sample.object [Sample.member "message" "try later"]))) ] in
  let w := WaitForPersonalAccessToken JSON_parse_fragment StringToNumber_decimal
             base64_ascii (self r) [Sample.granted] in
  succeeded (completion r) = true
  /\ completion w
     = Throw (Error "Valid device code not found for https://acct.example.com/. Ensure that a device code was requested.")
  /\ trace w = [].
Proof.
  cbv zeta.
  pose proof (details_without_a_device_code JSON_parse_fragment parseInt_decimal
                StringToNumber_decimal base64_ascii Sample.fresh
                (Sample.probed Sample.tenant)
                (Sample.quiet (Resolved (JString
                   (Sample.object [Sample.member "message" "try later"])))) []
                (JString Sample.tenant) _ Sample.tenant
                [("message", JString "try later")]
                eq_refl ltac:(vm_compute; reflexivity) eq_refl
                ltac:(vm_compute; reflexivity) eq_refl)
    as (H1 & H2).
  split; [exact H1 |].
  destruct (H2 [Sample.granted]) as (K1 & K2 & _).
  split; [exact K1 | exact K2].
Defined.

(** [resolved_tenant_is_clean]: the header holds a tenant id with blanks
    around it, then the all-zero id. *)
Lemma resolved_tenant_is_clean_witness :
  completion (getTenantId Sample.fresh
                [Sample.probed (" " ++ Sample.tenant ++ " ," ++ EmptyGuid)])
  = Return Sample.tenant
  /\ trim Sample.tenant = Sample.tenant
  /\ includes "," Sample.tenant = false.
Proof.
  split; [vm_compute; reflexivity |].
  pose proof (resolved_tenant_is_clean Sample.fresh
                [Sample.probed (" " ++ Sample.tenant ++ " ," ++ EmptyGuid)]
                Sample.tenant ltac:(vm_compute; reflexivity)) as (H1 & H2 & _).
  split; [exact H1 | exact H2].
Defined.

(** [addTrailingSeparator_normalizes] on the sample endpoint, with and
    without its separator. *)
Lemma addTrailingSeparator_normalizes_witness :
  addTrailingSeparator "https://acct.example.com" "/" = "https://acct.example.com/"
  /\ addTrailingSeparator "https://acct.example.com/" "/" = "https://acct.example.com/".
Proof.
  split.
  - apply (proj1 (proj2 (proj2 (addTrailingSeparator_normalizes
                                  "https://acct.example.com" "/")))).
    discriminate.
  - apply (proj1 (proj2 (addTrailingSeparator_normalizes
                           "https://acct.example.com/" "/"))).
    reflexivity.
Defined.

(** [constructor_validates]: no redirect URI, and no token options. *)
Lemma constructor_validates_witness :
  let build := constructor "Linux" "6.1" "8.9.4" "https://acct.example.com" in
  build {| IDeviceFlowAuthenticationOptions.authorityHost := None;
           IDeviceFlowAuthenticationOptions.clientId :=
             "00000000-0000-0000-0000-000000000000";
           IDeviceFlowAuthenticationOptions.redirectUri := "";
           IDeviceFlowAuthenticationOptions.userAgent := None |}
        None
  = Throw (Error "authOptions.redirectUri must have a value").
Proof.
  cbv zeta.
  apply (proj1 (proj2 (proj2 (constructor_validates "Linux" "6.1" "8.9.4"
                                "https://acct.example.com"
                                {| IDeviceFlowAuthenticationOptions.authorityHost := None;
                                   IDeviceFlowAuthenticationOptions.clientId :=
                                     "00000000-0000-0000-0000-000000000000";
                                   IDeviceFlowAuthenticationOptions.redirectUri := "";
                                   IDeviceFlowAuthenticationOptions.userAgent := None |}
                                None))));
    [discriminate | discriminate | reflexivity].
Defined.

(** [wait_keeps_the_session] on a wait that backs off twice. *)
Lemma wait_keeps_the_session_witness :
  let after := self (WaitForPersonalAccessToken JSON_parse_fragment
                       StringToNumber_decimal base64_ascii Sample.ready
                       [Sample.slow_down; Sample.slow_down; Sample.expired]) in
  (exists calls, after = deliver calls Sample.ready)
  /\ interval after = interval Sample.ready
  /\ deviceCode after = deviceCode Sample.ready
  /\ tenantId after = tenantId Sample.ready
  /\ resourceUri after = resourceUri Sample.ready.
Proof.
  exact (wait_keeps_the_session JSON_parse_fragment StringToNumber_decimal
           base64_ascii Sample.ready
           [Sample.slow_down; Sample.slow_down; Sample.expired]).
Defined.

(** [getAuthenticatedUserId_returns_the_id] on the sample answer. *)
Lemma getAuthenticatedUserId_returns_the_id_witness :
  let r := getAuthenticatedUserId JSON_parse_fragment base64_ascii
             (JString "eyJ0eXAi") Sample.ready [Sample.connectionData] in
  completion r = Return (JString "826a066b-dce1")
  /\ truthy (JString "826a066b-dce1") = true.
Proof.
  cbv zeta. split; [vm_compute; reflexivity |].
  apply (proj1 (proj1 (proj2 (getAuthenticatedUserId_returns_the_id
                                JSON_parse_fragment base64_ascii (JString "eyJ0eXAi")
                                Sample.ready Sample.connectionData []))
                  (JString "826a066b-dce1") ltac:(vm_compute; reflexivity))).
Defined.

(** [token_travels_as_basic_credential] on the connection-data request of
    the sample flow. *)
Lemma token_travels_as_basic_credential_witness :
  let token := JString "eyJ0eXAi" in
  let options := connectionDataOptions base64_ascii Sample.ready token in
  header "Authorization" (headers options)
  = Some ("Basic " ++ base64_ascii ("PAT:" ++ ToString token))%string
  /\ header "X-TFS-FedAuthRedirect" (headers options) = Some "Suppress"
  /\ header "User-Agent" (headers options) = Some (userAgent Sample.ready).
Proof.
  cbv zeta.
  apply (proj1 (token_travels_as_basic_credential JSON_parse_fragment
                  StringToNumber_decimal base64_ascii (JString "eyJ0eXAi")
                  (deviceCode Sample.ready) Sample.ready
                  [Sample.connectionData; Sample.location; Sample.sessionToken])
           (connectionDataOptions base64_ascii Sample.ready (JString "eyJ0eXAi"))).
  vm_compute. auto.
Defined.

(** [endpoints_agree] on the sample session, which has a tenant. *)
Lemma endpoints_agree_witness :
  exists authority : string,
    url (deviceCodeOptions Sample.ready) = (authority ++ "/oauth2/devicecode")%string
    /\ url (pollOptions Sample.ready (deviceCode Sample.ready))
       = (authority ++ "/oauth2/token")%string
    /\ (tenantId Sample.ready = None \/ tenantId Sample.ready = Some EmptyString
        \/ tenantId Sample.ready = Some EmptyGuid ->
        authority = "https://login.microsoftonline.com/live.com")
    /\ (forall tenant, tenantId Sample.ready = Some tenant ->
                       String.eqb tenant "" = false ->
                       String.eqb tenant EmptyGuid = false ->
                       authority = ("https://login.microsoft.com/" ++ tenant)%string).
Proof.
  exact (endpoints_agree Sample.ready (deviceCode Sample.ready)).
Defined.
